(** * DuckDB backup tool: shallow embedding and verification

    Source: [plugins/duckdb-backup/scripts/backup_duckdb.py].

    The script is sequential glue over the Python standard library:
    [pathlib], [shutil], [subprocess], [logging], [argparse] and [datetime].
    The embedding keeps the script's own functions ([backup_with_attach],
    [backup_with_cp], [create_timestamped_backup], [main]) line by line and
    runs them over an explicit model of what the library calls do to a POSIX
    file system:

    - [PurePath]: pathlib's pure paths (anchor and components);
    - [Fs]: a file system as a finite map from resolved locations to
      nodes, with the kernel's component-by-component walk, its limits on
      names and its access checks;
    - [Py]: a reader/state/error monad: the environment holds the working
      directory, the local clock, the credentials and umask of the process
      and the installed programs, the state holds
      the file system, the log, standard output and the trace of mutating
      calls; Python exceptions are the error channel. *)

From Stdlib Require Import ZArith Lia Ascii.
From stdpp Require Import gmap strings list.

(** ** Pure paths (pathlib, POSIX flavour) *)

Module PurePath.

(** pathlib keeps exactly two leading slashes apart from one, three or
    more. *)
Inductive anchor := Relative | Root | DoubleRoot.

Record t := mk { root : anchor; parts : list string }.

Global Instance anchor_eq_dec : EqDecision anchor.
Proof. solve_decision. Defined.

Global Instance t_eq_dec : EqDecision t.
Proof. solve_decision. Defined.

Definition slash : ascii := "/"%char.

Fixpoint split_slash (s : string) : list string :=
  match s with
  | EmptyString => [""]
  | String c s' =>
      if Ascii.eqb c slash then "" :: split_slash s'
      else match split_slash s' with
           | w :: ws => String c w :: ws
           | [] => [String c ""]
           end
  end.

Fixpoint leading_slashes (s : string) : nat :=
  match s with
  | String c s' => if Ascii.eqb c slash then S (leading_slashes s') else 0
  | EmptyString => 0
  end.

Definition keep_part (w : string) : bool :=
  negb (String.eqb w "") && negb (String.eqb w ".").

(** [Path(s)]: empty and ["."] components are dropped, [".."] is kept. *)
Definition of_string (s : string) : t :=
  {| root := match leading_slashes s with
             | 0 => Relative
             | 2 => DoubleRoot
             | _ => Root
             end;
     parts := List.filter keep_part (split_slash s) |}.

Definition root_str (a : anchor) : string :=
  match a with Relative => "" | Root => "/" | DoubleRoot => "//" end.

(** [str(p)] *)
Definition str (p : t) : string :=
  match root p, parts p with
  | Relative, [] => "."
  | a, ps => root_str a +:+ String.concat "/" ps
  end.

Definition is_absolute (p : t) : bool :=
  match root p with Relative => false | _ => true end.

(** [p.parent]: purely lexical; the parent of an anchor is itself. *)
Definition parent (p : t) : t :=
  {| root := root p; parts := removelast (parts p) |}.

(** [p.name] *)
Definition name (p : t) : string := List.last (parts p) "".

Definition joinpath (p q : t) : t :=
  if is_absolute q then q
  else {| root := root p; parts := parts p ++ parts q |}.

(** [p / s] *)
Definition truediv (p : t) (s : string) : t := joinpath p (of_string s).

End PurePath.

(** ** Python exceptions and results

    Every exception the modelled library calls can raise is a subclass of
    Python's [Exception], so a [try ... except Exception] catches all of
    them. *)

Inductive exn :=
| FileNotFoundError
| NotADirectoryError
| IsADirectoryError
| PermissionError
| FileExistsError
| SameFileError
| TimeoutExpired
| ValueError
| OSError_ENAMETOOLONG.

Inductive result (A : Type) :=
| Ok (a : A)
| Raise (e : exn).
Arguments Ok {A} a.
Arguments Raise {A} e.

(** ** Naive local date-times ([datetime.datetime]) *)

Module DateTime.
Local Open Scope Z_scope.

Record t := mk
  { year : Z; month : Z; day : Z;
    hour : Z; minute : Z; second : Z; microsecond : Z }.

Definition is_leap (y : Z) : bool :=
  (y mod 4 =? 0) && (negb (y mod 100 =? 0) || (y mod 400 =? 0)).

Definition days_in_month (y m : Z) : Z :=
  match m with
  | 2 => if is_leap y then 29 else 28
  | 4 | 6 | 9 | 11 => 30
  | _ => 31
  end.

(** The invariant the [datetime] constructor enforces. *)
Definition valid (d : t) : bool :=
  (1 <=? year d) && (year d <=? 9999)
  && (1 <=? month d) && (month d <=? 12)
  && (1 <=? day d) && (day d <=? days_in_month (year d) (month d))
  && (0 <=? hour d) && (hour d <? 24)
  && (0 <=? minute d) && (minute d <? 60)
  && (0 <=? second d) && (second d <? 60)
  && (0 <=? microsecond d) && (microsecond d <? 1000000).

Definition days_before_year (y : Z) : Z :=
  let y' := y - 1 in y' * 365 + y' / 4 - y' / 100 + y' / 400.

Fixpoint days_before_month_aux (y : Z) (n : nat) : Z :=
  match n with
  | O => 0
  | S n' => days_before_month_aux y n' + days_in_month y (Z.of_nat n)
  end.

Definition days_before_month (y m : Z) : Z :=
  days_before_month_aux y (Z.to_nat (m - 1)).

(** [d.toordinal()]: day 1 is 0001-01-01. *)
Definition toordinal (d : t) : Z :=
  days_before_year (year d) + days_before_month (year d) (month d) + day d.

(** Reading of the wall clock in microseconds. *)
Definition wall_us (d : t) : Z :=
  (((toordinal d * 24 + hour d) * 60 + minute d) * 60 + second d) * 1000000
  + microsecond d.

(** [date.fromordinal(n)]: the year, month and day of day number [n]. *)
Definition ord2ymd (n : Z) : Z * Z * Z :=
  let n := n - 1 in
  let n400 := n / 146097 in
  let n := n mod 146097 in
  let n100 := n / 36524 in
  let n := n mod 36524 in
  let n4 := n / 1461 in
  let n := n mod 1461 in
  let n1 := n / 365 in
  let n := n mod 365 in
  let y := n400 * 400 + 1 + n100 * 100 + n4 * 4 + n1 in
  if (n1 =? 4) || (n100 =? 4) then (y - 1, 12, 31)
  else
    let m := (n + 50) / 32 in
    let preceding := days_before_month y m in
    if n <? preceding
    then (y, m - 1, n - (preceding - days_in_month y (m - 1)) + 1)
    else (y, m, n - preceding + 1).

(** The clock reading that is [us] microseconds after midnight of day 0:
    the inverse of [wall_us]. *)
Definition of_wall_us (us : Z) : t :=
  let s := us / 1000000 in
  let m := s / 60 in
  let h := m / 60 in
  let '(y, mo, d) := ord2ymd (h / 24) in
  mk y mo d (h mod 24) (m mod 60) (s mod 60) (us mod 1000000).

(** 1970-01-01T00:00:00 as a reading of the UTC clock. *)
Definition epoch_us : Z := 719163 * 86400 * 1000000.

(** [datetime.now()], that is [datetime.fromtimestamp(time.time())], at
    [t_us] microseconds after the epoch, in a time zone whose clocks are
    [utcoffset t_us] seconds ahead of UTC at that instant: a naive reading
    of the local clock. *)
Definition now_at (utcoffset : Z -> Z) (t_us : Z) : t :=
  of_wall_us (epoch_us + t_us + utcoffset t_us * 1000000).

Definition digit (n : Z) : ascii :=
  match n mod 10 with
  | 0 => "0" | 1 => "1" | 2 => "2" | 3 => "3" | 4 => "4"
  | 5 => "5" | 6 => "6" | 7 => "7" | 8 => "8" | _ => "9"
  end%char.

Definition pad2 (n : Z) : string :=
  String (digit (n / 10)) (String (digit n) EmptyString).

Definition pad4 (n : Z) : string :=
  String (digit (n / 1000)) (String (digit (n / 100)) (pad2 n)).

(** The directives the script uses; the year is printed on four digits. *)
Definition directive (d : t) (c : ascii) : string :=
  if Ascii.eqb c "Y" then pad4 (year d)
  else if Ascii.eqb c "m" then pad2 (month d)
  else if Ascii.eqb c "d" then pad2 (day d)
  else if Ascii.eqb c "H" then pad2 (hour d)
  else if Ascii.eqb c "M" then pad2 (minute d)
  else if Ascii.eqb c "S" then pad2 (second d)
  else String "%" (String c EmptyString).

(** [d.strftime(fmt)] *)
Fixpoint strftime (d : t) (fmt : string) : string :=
  match fmt with
  | EmptyString => EmptyString
  | String c rest =>
      if Ascii.eqb c "%" then
        match rest with
        | String x rest' => directive d x +:+ strftime d rest'
        | EmptyString => String c EmptyString
        end
      else String c (strftime d rest)
  end.

End DateTime.

(** ** The file system *)

Module Fs.

(** The file system holds regular files and directories; there are no
    symbolic links, access control lists or set-group-ID directories, and
    every directory can be searched. Disk space and other resources are
    not limited. *)

(** What [stat] reports of a file besides its size. *)
Record file_meta := mk_meta
  { st_mode : N; st_mtime : Z; st_uid : N; st_gid : N }.

(** The calling process as far as access checks go. *)
Record cred := mk_cred
  { euid : N; egid : N; groups : list N; umask : N }.

(** Whether the process may open a file for reading: the superuser may;
    otherwise the read bit of the owner ([S_IRUSR]), of the group
    ([S_IRGRP]) or of the others ([S_IROTH]) decides, whichever class the
    process falls in. *)
Definition may_read (cr : cred) (meta : file_meta) : bool :=
  if (euid cr =? 0)%N then true
  else if (st_uid meta =? euid cr)%N then N.testbit (st_mode meta) 8
  else if (st_gid meta =? egid cr)%N
          || existsb (N.eqb (st_gid meta)) (groups cr)
       then N.testbit (st_mode meta) 5
  else N.testbit (st_mode meta) 2.

(** The same for writing ([S_IWUSR], [S_IWGRP], [S_IWOTH]). *)
Definition may_write (cr : cred) (meta : file_meta) : bool :=
  if (euid cr =? 0)%N then true
  else if (st_uid meta =? euid cr)%N then N.testbit (st_mode meta) 7
  else if (st_gid meta =? egid cr)%N
          || existsb (N.eqb (st_gid meta)) (groups cr)
       then N.testbit (st_mode meta) 4
  else N.testbit (st_mode meta) 1.

(** Whether the process may change the mode and the times of a file. *)
Definition may_chmod (cr : cred) (meta : file_meta) : bool :=
  (euid cr =? 0)%N || (st_uid meta =? euid cr)%N.

(** The metadata of a new file [copy2] makes: the file is the process's
    own, and [copystat] gives it the mode and the times of the original. *)
Definition copied (cr : cred) (meta : file_meta) : file_meta :=
  mk_meta (st_mode meta) (st_mtime meta) (euid cr) (egid cr).

(** A directory is [writable] when the process may create entries in it
    and remove the entries it holds (write and search permission, and no
    restricted deletion that would protect an entry). *)
Inductive node :=
| File (data : list Byte.byte) (meta : file_meta)
| Dir (writable : bool).

(** The limits of Linux: a directory entry's name holds at most [NAME_MAX]
    bytes, a path handed to a system call fewer than [PATH_MAX]. Strings
    stand for the bytes handed to the system. *)
Definition NAME_MAX : N := 255.
Definition PATH_MAX : N := 4096.

Definition strlen (s : string) : N := N.of_nat (String.length s).

Definition too_long (c : string) : bool := (NAME_MAX <? strlen c)%N.

Fixpoint has_nul (s : string) : bool :=
  match s with
  | EmptyString => false
  | String c s' => Ascii.eqb c "000"%char || has_nul s'
  end.

(** What is checked of a path as a text before any entry is looked up:
    Python refuses an embedded null byte with [ValueError], the kernel a
    text of [PATH_MAX] bytes or more with [ENAMETOOLONG]. *)
Definition check_text (p : PurePath.t) : result unit :=
  if existsb has_nul (PurePath.parts p) then Raise ValueError
  else if (PATH_MAX <=? strlen (PurePath.str p))%N
       then Raise OSError_ENAMETOOLONG
  else Ok tt.

(** A location is the list of directory entries leading to a node from the
    root, innermost entry first; [[]] is the root directory. *)
Abbreviation loc := (list string).
Abbreviation t := (gmap (list string) node).

Definition start (cwd : loc) (p : PurePath.t) : loc :=
  if PurePath.is_absolute p then [] else cwd.

Definition step (k : loc) (c : string) : loc :=
  if String.eqb c ".." then tail k
  else if PurePath.keep_part c then c :: k
  else k.

(** The kernel's path walk: every component is looked up in a node that
    must be a directory, under a name that must not be too long. The
    location reached need not exist. *)
Fixpoint walk (fs : t) (k : loc) (ps : list string) : result loc :=
  match ps with
  | [] => Ok k
  | c :: rest =>
      match fs !! k with
      | Some (Dir _) =>
          if too_long c then Raise OSError_ENAMETOOLONG
          else walk fs (step k c) rest
      | Some (File _ _) => Raise NotADirectoryError
      | None => Raise FileNotFoundError
      end
  end.

Definition resolve (fs : t) (cwd : loc) (p : PurePath.t) : result loc :=
  match check_text p with
  | Raise e => Raise e
  | Ok _ => walk fs (start cwd p) (PurePath.parts p)
  end.

(** [os.stat] *)
Definition stat (fs : t) (cwd : loc) (p : PurePath.t) : result node :=
  match resolve fs cwd p with
  | Ok k => match fs !! k with
            | Some n => Ok n
            | None => Raise FileNotFoundError
            end
  | Raise e => Raise e
  end.

(** Directories report one block; the value is only ever logged. *)
Definition st_size (n : node) : nat :=
  match n with
  | File data _ => length data
  | Dir _ => 4096
  end.

(** Creating or removing an entry writes to the containing directory. *)
Definition check_dir_writable (fs : t) (k : loc) : result unit :=
  match k with
  | [] => Raise FileNotFoundError
  | _ :: dk =>
      match fs !! dk with
      | Some (Dir true) => Ok tt
      | Some (Dir false) => Raise PermissionError
      | Some (File _ _) => Raise NotADirectoryError
      | None => Raise FileNotFoundError
      end
  end.

(** Whether the process may use a directory it has made with mode
    [0o777]: the superuser may; otherwise the umask must leave the owner
    [S_IWUSR] and [S_IXUSR]. *)
Definition new_dir_writable (cr : cred) : bool :=
  (euid cr =? 0)%N
  || (negb (N.testbit (umask cr) 7) && negb (N.testbit (umask cr) 6)).

(** [os.mkdir(p, 0o777)] *)
Definition mkdir (fs : t) (cwd : loc) (cr : cred) (p : PurePath.t)
  : result t :=
  match resolve fs cwd p with
  | Raise e => Raise e
  | Ok k =>
      match fs !! k with
      | Some _ => Raise FileExistsError
      | None =>
          match check_dir_writable fs k with
          | Raise e => Raise e
          | Ok _ => Ok (<[k := Dir (new_dir_writable cr)]> fs)
          end
      end
  end.

(** [os.unlink] *)
Definition unlink (fs : t) (cwd : loc) (p : PurePath.t) : result t :=
  match resolve fs cwd p with
  | Raise e => Raise e
  | Ok k =>
      match fs !! k with
      | None => Raise FileNotFoundError
      | Some (Dir _) => Raise IsADirectoryError
      | Some (File _ _) =>
          match check_dir_writable fs k with
          | Raise e => Raise e
          | Ok _ => Ok (delete k fs)
          end
      end
  end.

(** [open(p, 'rb').read()] together with the file's metadata. *)
Definition read_file (fs : t) (cwd : loc) (cr : cred) (p : PurePath.t)
  : result (list Byte.byte * file_meta) :=
  match stat fs cwd p with
  | Raise e => Raise e
  | Ok (File data meta) =>
      if may_read cr meta then Ok (data, meta) else Raise PermissionError
  | Ok (Dir _) => Raise IsADirectoryError
  end.

(** [open(p, 'wb')], writing [data], closing, then [copystat] from a file
    with metadata [meta]. A file that is absent is created, and is the
    process's own. A file that is present keeps its owner: the process
    must be allowed to write it, and to set its mode and times. (The
    library does the two in turn, so that a file the process may write but
    does not own is truncated before [copystat] fails. The script removes
    what is at the destination before it copies and only ever creates:
    [copy_destination_is_free] below.) *)
Definition write_file (fs : t) (cwd : loc) (cr : cred) (p : PurePath.t)
    (data : list Byte.byte) (meta : file_meta) : result t :=
  match resolve fs cwd p with
  | Raise e => Raise e
  | Ok k =>
      match fs !! k with
      | Some (Dir _) => Raise IsADirectoryError
      | Some (File _ old) =>
          if may_write cr old && may_chmod cr old
          then Ok (<[k := File data (mk_meta (st_mode meta) (st_mtime meta)
                                       (st_uid old) (st_gid old))]> fs)
          else Raise PermissionError
      | None =>
          match check_dir_writable fs k with
          | Raise e => Raise e
          | Ok _ => Ok (<[k := File data (copied cr meta)]> fs)
          end
      end
  end.

(** [os.path.samefile], with [False] when either path cannot be
    examined (as [shutil._samefile] has it). *)
Definition samefile (fs : t) (cwd : loc) (p q : PurePath.t) : bool :=
  match resolve fs cwd p, resolve fs cwd q with
  | Ok k1, Ok k2 =>
      match fs !! k1, fs !! k2 with
      | Some _, Some _ => bool_decide (k1 = k2)
      | _, _ => false
      end
  | _, _ => false
  end.

(** Well-formed file systems: the root is a directory and every entry lives
    in a directory. *)
Definition dir_at (fs : t) (k : loc) : bool :=
  match fs !! k with Some (Dir _) => true | _ => false end.

Definition wf (fs : t) : Prop :=
  dir_at fs [] = true /\ map_Forall (fun k _ => dir_at fs (tail k) = true) fs.

End Fs.

(** ** The interpreter's world and the library calls *)

Module Py.

Inductive level := INFO | WARNING | ERROR.

(** One constructor per message the script logs, carrying the values its
    f-string interpolates. *)
Inductive log_msg :=
| MsgAttachStart (db_path backup_path : string)
| MsgAttachFailed (stderr : string)
| MsgAttachCompleted (st_size : nat)
| MsgAttachError (e : exn)
| MsgCpStart (db_path backup_path : string)
| MsgSourceNotFound (db_path : string)
| MsgOverwriting (backup_path : string)
| MsgCpCompleted (st_size : nat)
| MsgCpError (e : exn)
| MsgTimestamped (backup_filename : string)
| MsgUnknownMethod (method : string).

(** Calls that change, or ask to change, the world outside the process. *)
Inductive syscall :=
| SysMkdir (p : PurePath.t)
| SysUnlink (p : PurePath.t)
| SysCopy (src dst : PurePath.t)
| SysSpawn (argv : list string) (input : string) (timeout : Z).

(** A child process left alone: when it would exit (never, for [None]),
    with which status and error stream, and the file system it has
    produced [s] seconds after it was started. *)
Record process := mk_process
  { duration : option Z;
    exit_status : Z;
    err_stream : string;
    fs_at : Z -> Fs.t }.

(** [subprocess.CompletedProcess] *)
Record completed := mk_completed { returncode : Z; stderr : string }.

Record Env := mk_env
  { cwd : Fs.loc;
    clock : DateTime.t;
    cred : Fs.cred;
    (** what starting [argv] with [input] on standard input does, or the
        [OSError] that starting it raises *)
    programs : list string -> string -> Fs.loc -> Fs.t -> exn + process }.

(** What the process writes on standard output. *)
Inductive printed :=
| Line (s : string)
| HelpMessage.

Record World := mk_world
  { fs : Fs.t;
    logs : list (level * log_msg);
    stdout : list printed;
    trace : list syscall;
    waited : Z }.

Definition M (A : Type) : Type := Env -> World -> result A * World.

Definition ret {A} (a : A) : M A := fun _ w => (Ok a, w).

Definition bind {A B} (m : M A) (f : A -> M B) : M B := fun env w =>
  match m env w with
  | (Ok a, w') => f a env w'
  | (Raise e, w') => (Raise e, w')
  end.

Notation "'do' x <- m ; k" := (bind m (fun x => k))
  (at level 10, x name, m at level 100, k at level 200, only parsing).
Notation "'do' ' pat <- m ; k" :=
  (bind m (fun x => match x with pat => k end))
  (at level 10, pat pattern, m at level 100, k at level 200, only parsing).
Notation "m ;; k" := (bind m (fun _ => k))
  (at level 100, k at level 200, only parsing, right associativity).

Definition raise {A} (e : exn) : M A := fun _ w => (Raise e, w).

(** [try: body except Exception as e: handler e] *)
Definition try_except {A} (body : M A) (handler : exn -> M A) : M A :=
  fun env w =>
    match body env w with
    | (Ok a, w') => (Ok a, w')
    | (Raise e, w') => handler e env w'
    end.

Definition set_fs (w : World) (f : Fs.t) : World :=
  mk_world f (logs w) (stdout w) (trace w) (waited w).

Definition record (c : syscall) : M unit := fun _ w =>
  (Ok tt, mk_world (fs w) (logs w) (stdout w) (trace w ++ [c]) (waited w)).

Definition log (l : level) (m : log_msg) : M unit := fun _ w =>
  (Ok tt, mk_world (fs w) (logs w ++ [(l, m)]) (stdout w) (trace w) (waited w)).

Definition logger_info := log INFO.
Definition logger_warning := log WARNING.
Definition logger_error := log ERROR.

Definition print (s : printed) : M unit := fun _ w =>
  (Ok tt, mk_world (fs w) (logs w) (stdout w ++ [s]) (trace w) (waited w)).

(** An operation of [Fs] that changes the file system. *)
Definition mutate (op : Fs.t -> Fs.loc -> result Fs.t) : M unit :=
  fun env w =>
    match op (fs w) (cwd env) with
    | Ok f => (Ok tt, set_fs w f)
    | Raise e => (Raise e, w)
    end.

(** An operation of [Fs] that only reads it. *)
Definition observe {A} (op : Fs.t -> Fs.loc -> result A) : M A :=
  fun env w =>
    match op (fs w) (cwd env) with
    | Ok a => (Ok a, w)
    | Raise e => (Raise e, w)
    end.

(** The credentials and umask of the process. *)
Definition os_cred : M Fs.cred := fun env w => (Ok (cred env), w).

(** [os.mkdir(p, 0o777)] *)
Definition os_mkdir (p : PurePath.t) : M unit :=
  record (SysMkdir p);;
  do cr <- os_cred;
  mutate (fun f c => Fs.mkdir f c cr p).

(** [p.stat()] *)
Definition Path_stat (p : PurePath.t) : M Fs.node :=
  observe (fun f c => Fs.stat f c p).

(** [p.exists()]: [False] when [stat] fails. (Versions of pathlib that
    let an error other than a missing entry through, a name that is too
    long say, hand it to the handler of the calling strategy, which
    returns [False] as well.) *)
Definition Path_exists (p : PurePath.t) : M bool :=
  try_except (Path_stat p;; ret true) (fun _ => ret false).

(** [p.is_dir()] *)
Definition Path_is_dir (p : PurePath.t) : M bool :=
  try_except
    (do n <- Path_stat p;
     ret (match n with Fs.Dir _ => true | Fs.File _ _ => false end))
    (fun _ => ret false).

(** [p.mkdir(parents=False, exist_ok=True)] *)
Definition Path_mkdir (p : PurePath.t) : M unit :=
  try_except (os_mkdir p)
    (fun e =>
       match e with
       | FileNotFoundError => raise e
       | _ => do d <- Path_is_dir p; if d then ret tt else raise e
       end).

(** [p.mkdir(parents=True, exist_ok=True)], by recursion on the components
    of [p], last one first: [p] is [mk a (rev rparts)]. *)
Fixpoint Path_mkdir_parents_aux (a : PurePath.anchor) (rparts : list string)
  : M unit :=
  let self := PurePath.mk a (rev rparts) in
  try_except (os_mkdir self)
    (fun e =>
       match e with
       | FileNotFoundError =>
           match rparts with
           | [] => raise e
           | _ :: init =>
               Path_mkdir_parents_aux a init;;
               Path_mkdir self
           end
       | _ => do d <- Path_is_dir self; if d then ret tt else raise e
       end).

Definition Path_mkdir_parents (p : PurePath.t) : M unit :=
  Path_mkdir_parents_aux (PurePath.root p) (rev (PurePath.parts p)).

(** [p.unlink()] *)
Definition Path_unlink (p : PurePath.t) : M unit :=
  record (SysUnlink p);; mutate (fun f c => Fs.unlink f c p).

(** [shutil.copy2(src, dst)]: a directory as [dst] receives a file named
    after [src]; copying a file onto itself is refused; the source is
    opened before the destination. *)
Definition shutil_copy2 (src dst : PurePath.t) : M unit :=
  record (SysCopy src dst);;
  do d <- Path_is_dir dst;
  let dst' := if d then PurePath.truediv dst (PurePath.name src) else dst in
  do same <- observe (fun f c => Ok (Fs.samefile f c src dst'));
  if same then raise SameFileError
  else
    do cr <- os_cred;
    do '(data, meta) <- observe (fun f c => Fs.read_file f c cr src);
    mutate (fun f c => Fs.write_file f c cr dst' data meta).

(** Whether a child left alone exits within [timeout] seconds, and when. *)
Definition finishes_within (p : process) (timeout : Z) : option Z :=
  match duration p with
  | Some d => if (d <=? timeout)%Z then Some d else None
  | None => None
  end.

(** [subprocess.run(argv, input=input, text=True, capture_output=True,
    timeout=timeout)]: a child that has not exited after [timeout] seconds
    is killed and [TimeoutExpired] is raised. *)
Definition subprocess_run (argv : list string) (input : string) (timeout : Z)
  : M completed :=
  record (SysSpawn argv input timeout);;
  fun env w =>
    match programs env argv input (cwd env) (fs w) with
    | inl e => (Raise e, w)
    | inr p =>
        match finishes_within p timeout with
        | Some d =>
            (Ok (mk_completed (exit_status p) (err_stream p)),
             mk_world (fs_at p d) (logs w) (stdout w) (trace w)
                      (waited w + d)%Z)
        | None =>
            (Raise TimeoutExpired,
             mk_world (fs_at p timeout) (logs w) (stdout w) (trace w)
                      (waited w + timeout)%Z)
        end
    end.

(** [p.resolve()] without symbolic links: the path is made absolute
    against the working directory and [".."] is folded away lexically; the
    result starts with a single slash, also for a path that starts with
    two. *)
Definition absolute (c : Fs.loc) (p : PurePath.t) : PurePath.t :=
  let base := if PurePath.is_absolute p then [] else c in
  PurePath.mk PurePath.Root
    (rev (fold_left Fs.step (PurePath.parts p) base)).

Definition Path_resolve (p : PurePath.t) : M PurePath.t := fun env w =>
  (Ok (absolute (cwd env) p), w).

(** [datetime.now()] *)
Definition datetime_now : M DateTime.t := fun env w => (Ok (clock env), w).

End Py.

(** ** The script *)

Module Backup.
Import Py.

Definition newline : string := String (ascii_of_nat 10) EmptyString.

(** The script fed to the [duckdb] client. *)
Definition sql_commands (abs_db abs_backup : PurePath.t) : string :=
  newline
  +:+ "ATTACH '" +:+ PurePath.str abs_db +:+ "' AS source_db (READ_ONLY);"
  +:+ newline
  +:+ "ATTACH '" +:+ PurePath.str abs_backup +:+ "' AS backup_db;"
  +:+ newline
  +:+ "COPY FROM DATABASE source_db TO backup_db;"
  +:+ newline.

Definition backup_with_attach (db_path backup_path : string) : M bool :=
  logger_info (MsgAttachStart db_path backup_path);;
  try_except
    (do abs_db <- Path_resolve (PurePath.of_string db_path);
     do abs_backup <- Path_resolve (PurePath.of_string backup_path);
     Path_mkdir_parents (PurePath.parent abs_backup);;
     do result <- subprocess_run ["duckdb"]
                    (sql_commands abs_db abs_backup) 3600;
     if negb (returncode result =? 0)%Z then
       logger_error (MsgAttachFailed (stderr result));;
       ret false
     else
       do st <- Path_stat abs_backup;
       logger_info (MsgAttachCompleted (Fs.st_size st));;
       ret true)
    (fun e =>
       logger_error (MsgAttachError e);;
       ret false).

Definition backup_with_cp (db_path backup_path : string) : M bool :=
  logger_info (MsgCpStart db_path backup_path);;
  try_except
    (let source := PurePath.of_string db_path in
     let dest := PurePath.of_string backup_path in
     do source_exists <- Path_exists source;
     if negb source_exists then
       logger_error (MsgSourceNotFound db_path);;
       ret false
     else
       Path_mkdir_parents (PurePath.parent dest);;
       do dest_exists <- Path_exists dest;
       (if dest_exists then
          logger_warning (MsgOverwriting backup_path);;
          Path_unlink dest
        else ret tt);;
       shutil_copy2 source dest;;
       do st <- Path_stat dest;
       logger_info (MsgCpCompleted (Fs.st_size st));;
       ret true)
    (fun e =>
       logger_error (MsgCpError e);;
       ret false).

Definition backup_filename (now : DateTime.t) : string :=
  "backup-" +:+ DateTime.strftime now "%Y%m%d-%H%M%S" +:+ ".duckdb".

Definition timestamped_path (backup_dir : string) (now : DateTime.t)
  : string :=
  PurePath.str
    (PurePath.truediv (PurePath.of_string backup_dir) (backup_filename now)).

Definition create_timestamped_backup (db_path backup_dir method : string)
  : M string :=
  do now <- datetime_now;
  let backup_path := timestamped_path backup_dir now in
  logger_info (MsgTimestamped (backup_filename now));;
  if String.eqb method "cp" then
    do success <- backup_with_cp db_path backup_path;
    ret (if success then backup_path else "")
  else if String.eqb method "attach" then
    do success <- backup_with_attach db_path backup_path;
    ret (if success then backup_path else "")
  else
    logger_error (MsgUnknownMethod method);;
    ret "".

(** *** Command line

    [argparse] is modelled at the level of what it recognises on the
    command line, in order: occurrences of the four declared options, of
    [-h]/[--help], an option lacking its value, and anything else. *)
Inductive cli_arg :=
| ArgDb (v : string)
| ArgBackup (v : string)
| ArgMethod (v : string)
| ArgTimestamp
| ArgHelp
| ArgMissingValue
| ArgUnrecognized.

Global Instance cli_arg_eq_dec : EqDecision cli_arg.
Proof. solve_decision. Defined.

Record Namespace := mk_args
  { db : string; backup : string; method : string; timestamp : bool }.

Record partial := mk_partial
  { p_db : option string;
    p_backup : option string;
    p_method : string;
    p_timestamp : bool;
    p_extras : bool }.

(** [parse_args] returns, or raises [SystemExit(0)] after printing the help
    message, or raises [SystemExit(2)] after a usage error on standard
    error. *)
Inductive parse_outcome :=
| Parsed (args : Namespace)
| HelpExit
| ErrorExit.

Definition choices : list string := ["cp"; "attach"].

Definition defaults : partial := mk_partial None None "cp" false false.

Fixpoint consume (argv : list cli_arg) (acc : partial) : parse_outcome :=
  match argv with
  | [] =>
      match p_db acc, p_backup acc with
      | Some d, Some b =>
          if p_extras acc then ErrorExit
          else Parsed (mk_args d b (p_method acc) (p_timestamp acc))
      | _, _ => ErrorExit
      end
  | ArgHelp :: _ => HelpExit
  | ArgMissingValue :: _ => ErrorExit
  | ArgMethod v :: rest =>
      if bool_decide (v ∈ choices) then
        consume rest (mk_partial (p_db acc) (p_backup acc) v
                        (p_timestamp acc) (p_extras acc))
      else ErrorExit
  | ArgDb v :: rest =>
      consume rest (mk_partial (Some v) (p_backup acc) (p_method acc)
                      (p_timestamp acc) (p_extras acc))
  | ArgBackup v :: rest =>
      consume rest (mk_partial (p_db acc) (Some v) (p_method acc)
                      (p_timestamp acc) (p_extras acc))
  | ArgTimestamp :: rest =>
      consume rest (mk_partial (p_db acc) (p_backup acc) (p_method acc)
                      true (p_extras acc))
  | ArgUnrecognized :: rest =>
      consume rest (mk_partial (p_db acc) (p_backup acc) (p_method acc)
                      (p_timestamp acc) true)
  end.

Definition parse_args (argv : list cli_arg) : parse_outcome :=
  consume argv defaults.

(** Python's truth value of a string. *)
Definition truthy (s : string) : bool := negb (String.eqb s "").

(** The body of [main] after [parser.parse_args()]. *)
Definition main_body (args : Namespace) : M Z :=
  if timestamp args then
    do backup_path <- create_timestamped_backup
                        (db args) (backup args) (method args);
    if truthy backup_path then
      print (Line backup_path);;
      ret 0%Z
    else ret 1%Z
  else
    do success <-
      (if String.eqb (method args) "cp" then
         backup_with_cp (db args) (backup args)
       else
         backup_with_attach (db args) (backup args));
    ret (if success then 0%Z else 1%Z).

(** [sys.exit(main())]: the exit status of the process. *)
Definition main (argv : list cli_arg) : M Z :=
  match parse_args argv with
  | Parsed args => main_body args
  | HelpExit => print HelpMessage;; ret 0%Z
  | ErrorExit => ret 2%Z
  end.

End Backup.

(** ** A sample machine

    A small file system, clock and [duckdb] client on which the statements
    below are evaluated. *)

Module Sample.
Import Py.

(** The process runs as user 1000, group 1000, under umask [0o022]. *)
Definition user : Fs.cred := Fs.mk_cred 1000 1000 [] 18.

Definition meta0 : Fs.file_meta := Fs.mk_meta 420 1766503845 1000 1000.
Definition meta1 : Fs.file_meta := Fs.mk_meta 384 1700000000 1000 1000.

Definition bytes0 : list Byte.byte := [Byte.x44; Byte.x55; Byte.x43; Byte.x4b].
Definition bytes1 : list Byte.byte := [Byte.x00].

(** [/data/a.db], [/tmp/old.db], an empty [/tmp/in] and a read-only [/srv]
    holding [/srv/old.db]. *)
Definition fs0 : Fs.t :=
  <[ ["old.db"; "srv"] := Fs.File bytes1 meta1 ]>
  (<[ ["old.db"; "tmp"] := Fs.File bytes1 meta1 ]>
  (<[ ["a.db"; "data"] := Fs.File bytes0 meta0 ]>
  (<[ ["in"; "tmp"] := Fs.Dir true ]>
  (<[ ["srv"] := Fs.Dir false ]>
  (<[ ["data"] := Fs.Dir true ]>
  (<[ ["tmp"] := Fs.Dir true ]>
  (<[ [] := Fs.Dir true ]> ∅))))))).

(** No [duckdb] on the search path. *)
Definition no_client : list string -> string -> Fs.loc -> Fs.t -> exn + process :=
  fun _ _ _ _ => inl FileNotFoundError.

(** A client that hangs, one that fails, one that exports the database to
    [/tmp/out.duckdb] in five seconds, and one that exits at once with
    status 0 and has written nothing. *)
Definition hanging_client
  : list string -> string -> Fs.loc -> Fs.t -> exn + process :=
  fun _ _ _ f => inr (mk_process None 0 "" (fun _ => f)).

Definition failing_client
  : list string -> string -> Fs.loc -> Fs.t -> exn + process :=
  fun _ _ _ f => inr (mk_process (Some 2%Z) 1 "IO Error: cannot open file"
                        (fun _ => f)).

Definition exporting_client
  : list string -> string -> Fs.loc -> Fs.t -> exn + process :=
  fun _ _ _ f =>
    inr (mk_process (Some 5%Z) 0 ""
           (fun s => if (s <? 5)%Z then f
                     else <[ ["out.duckdb"; "tmp"] := Fs.File bytes0 meta1 ]> f)).

Definition idle_client
  : list string -> string -> Fs.loc -> Fs.t -> exn + process :=
  fun _ _ _ f => inr (mk_process (Some 0%Z) 0 "" (fun _ => f)).

Definition noon : DateTime.t := DateTime.mk 2025 12 23 15 30 45 250000.

(** The working directory is [/data]. *)
Definition env0 : Env := mk_env ["data"] noon user no_client.
Definition env_hanging : Env := mk_env ["data"] noon user hanging_client.
Definition env_failing : Env := mk_env ["data"] noon user failing_client.
Definition env_exporting : Env := mk_env ["data"] noon user exporting_client.
Definition env_idle : Env := mk_env ["data"] noon user idle_client.

Definition w0 : World := mk_world fs0 [] [] [] 0.

(** The same machine with [/data/a.db] in mode [0o600] and owned by the
    superuser, so that the process may not read it, and a name of 256
    bytes. *)
Definition meta_locked : Fs.file_meta := Fs.mk_meta 384 1766503845 0 0.

Definition fs_locked : Fs.t :=
  <[ ["a.db"; "data"] := Fs.File bytes0 meta_locked ]> fs0.


Definition long_name : string :=
  String.string_of_list_ascii (repeat "x"%char 256).

(** Central European time around the end of summer time in 2025: clocks
    are two hours ahead of UTC until 2025-10-26 01:00 UTC and one hour
    ahead from then on. *)
Definition cet_2025 (t_us : Z) : Z :=
  if (t_us <? 1761440400 * 1000000)%Z then 7200%Z else 3600%Z.

(** 2025-10-26 00:30 UTC, and one hour later. *)
Definition half_past_midnight_utc : Z := 1761438600 * 1000000.
Definition half_past_one_utc : Z := (1761438600 + 3600) * 1000000.

Definition env_summer_time : Env :=
  mk_env ["data"] (DateTime.now_at cet_2025 half_past_midnight_utc) user
    no_client.
Definition env_winter_time : Env :=
  mk_env ["data"] (DateTime.now_at cet_2025 half_past_one_utc) user
    no_client.

End Sample.

(** * Verification *)

Import Py.

(** ** Vocabulary of the statements *)

(** A computation that returns whatever the world: no exception leaves
    it. *)
Definition total {A} (m : M A) : Prop :=
  forall env w, exists a w', m env w = (Ok a, w').

(** A computation that leaves a projection of the world alone. *)
Definition keeps {A X} (proj : World -> X) (m : M A) : Prop :=
  forall env w r w', m env w = (r, w') -> proj w' = proj w.

(** A call that only touches the file system and the trace keeps the rest
    of the world. *)
Definition quiet {A} (m : M A) : Prop :=
  keeps logs m /\ keeps stdout m /\ keeps waited m.

(** What [p.exists()] and [p.is_dir()] answer in file system [f] with
    working directory [c]. *)
Definition exists_at (f : Fs.t) (c : Fs.loc) (p : PurePath.t) : bool :=
  match Fs.stat f c p with Ok _ => true | Raise _ => false end.

Definition is_dir_at (f : Fs.t) (c : Fs.loc) (p : PurePath.t) : bool :=
  match Fs.stat f c p with Ok (Fs.Dir _) => true | _ => false end.

(** The world after one more log record, or one more traced call. *)
Definition add_log (w : World) (l : level) (m : log_msg) : World :=
  mk_world (fs w) (logs w ++ [(l, m)]) (stdout w) (trace w) (waited w).

Definition add_trace (w : World) (c : syscall) : World :=
  mk_world (fs w) (logs w) (stdout w) (trace w ++ [c]) (waited w).

(** [f'] has at least the directories of [f]. *)
Definition dirs_kept (f f' : Fs.t) : Prop :=
  forall k b, f !! k = Some (Fs.Dir b) -> f' !! k = Some (Fs.Dir b).

(** The last record of the log is an error. *)
Definition error_logged_last (w : World) : Prop :=
  exists msg, last (logs w) = Some (ERROR, msg).

(** A strategy returns a Boolean, and [False] only right after logging an
    error. *)
Definition reports_failure (m : M bool) : Prop :=
  forall env w, exists b w',
    m env w = (Ok b, w') /\ (b = false -> error_logged_last w').

(** Character classes, by ASCII code. *)
Definition is_digit (c : ascii) : bool :=
  (48 <=? nat_of_ascii c) && (nat_of_ascii c <=? 57).

Definition is_upper (c : ascii) : bool :=
  (65 <=? nat_of_ascii c) && (nat_of_ascii c <=? 90).

(** A pattern in the spec's notation: an upper-case letter stands for one
    decimal digit, any other character for itself. *)
Fixpoint matches_pattern (pat s : string) : bool :=
  match pat, s with
  | EmptyString, EmptyString => true
  | String p pat', String c s' =>
      (if is_upper p then is_digit c else Ascii.eqb p c)
      && matches_pattern pat' s'
  | _, _ => false
  end.

(** A string without ["/"]: a single path component. *)
Fixpoint slash_free (s : string) : bool :=
  match s with
  | EmptyString => true
  | String c s' => negb (Ascii.eqb c PurePath.slash) && slash_free s'
  end.

(** The value of a decimal digit. *)
Definition digit_val (c : ascii) : Z := (Z.of_nat (nat_of_ascii c) - 48)%Z.

(** A computation that only appends to the trace of mutating calls. *)
Definition grows {A} (m : M A) : Prop :=
  forall env w r w', m env w = (r, w') -> exists rest, trace w' = trace w ++ rest.

(** [f'] is [f] with, possibly, more directories: nothing that exists is
    changed or removed, and nothing but directories is added. *)
Definition only_adds_dirs (f f' : Fs.t) : Prop :=
  forall k, f' !! k = f !! k
            \/ (f !! k = None /\ exists b, f' !! k = Some (Fs.Dir b)).

(** An ordinary name of a directory entry: not empty, not ["."], not
    [".."], and of at most [NAME_MAX] bytes. *)
Definition plain_name (c : string) : bool :=
  PurePath.keep_part c && negb (String.eqb c "..") && negb (Fs.too_long c).

(** A path as [Path(...)] builds it: every component is a single name,
    neither empty nor ["."]. *)
Definition normal_path (p : PurePath.t) : Prop :=
  Forall (fun c => PurePath.keep_part c = true /\ slash_free c = true)
         (PurePath.parts p).

(** A computation that appends to the trace only calls satisfying [P]. *)
Definition adds_only (P : syscall -> Prop) {A} (m : M A) : Prop :=
  forall env w r w',
    m env w = (r, w') ->
    exists rest, trace w' = trace w ++ rest /\ Forall P rest.

Definition is_mkdir (c : syscall) : Prop := exists p, c = SysMkdir p.

(** Lexicographic combination of two comparisons. *)
Definition lexico (c1 c2 : comparison) : comparison :=
  match c1 with Eq => c2 | _ => c1 end.

(** Python's order on naive [datetime] values, to the second: the fields
    are compared one after the other, the year first. *)
Definition compare_to_the_second (d1 d2 : DateTime.t) : comparison :=
  lexico (DateTime.year d1 ?= DateTime.year d2)%Z
    (lexico (DateTime.month d1 ?= DateTime.month d2)%Z
       (lexico (DateTime.day d1 ?= DateTime.day d2)%Z
          (lexico (DateTime.hour d1 ?= DateTime.hour d2)%Z
             (lexico (DateTime.minute d1 ?= DateTime.minute d2)%Z
                (DateTime.second d1 ?= DateTime.second d2)%Z)))).

(** A path the system calls accept: its text passes [Fs.check_text] and
    its last component is a name a directory can hold. *)
Definition name_accepted (p : PurePath.t) : bool :=
  match Fs.check_text p with
  | Ok _ => negb (Fs.too_long (PurePath.name p))
  | Raise _ => false
  end.

(** ** The model at work *)

Example of_string_abs :
  PurePath.of_string "/data//./a.db" = PurePath.mk PurePath.Root ["data"; "a.db"].
Proof. reflexivity. Qed.

Example of_string_rel :
  PurePath.str (PurePath.truediv (PurePath.of_string "backups/") "x.duckdb")
  = "backups/x.duckdb".
Proof. reflexivity. Qed.

Example str_empty : PurePath.str (PurePath.of_string "") = ".".
Proof. reflexivity. Qed.

Example absolute_examples :
  PurePath.str (absolute ["data"] (PurePath.of_string "//data/a.db"))
  = "/data/a.db"
  /\ PurePath.str (absolute ["data"] (PurePath.of_string "../tmp/x/../out.db"))
     = "/tmp/out.db"
  /\ PurePath.str (absolute ["data"] (PurePath.of_string "")) = "/data".
Proof. repeat split; reflexivity. Qed.

Example name_limits :
  Fs.resolve Sample.fs0 ["data"] (PurePath.of_string Sample.long_name)
  = Raise OSError_ENAMETOOLONG
  /\ Fs.resolve Sample.fs0 ["data"]
       (PurePath.of_string ("missing/" +:+ Sample.long_name))
     = Raise FileNotFoundError
  /\ Fs.resolve Sample.fs0 ["data"]
       (PurePath.of_string (String "000"%char "a"))
     = Raise ValueError
  /\ Fs.read_file Sample.fs_locked ["data"] Sample.user
       (PurePath.of_string "a.db")
     = Raise PermissionError.
Proof. repeat split; by vm_compute. Qed.

Example now_at_utc :
  DateTime.now_at (fun _ => 0%Z) 1766503845250000 = Sample.noon
  /\ DateTime.wall_us Sample.noon
     = (DateTime.epoch_us + 1766503845250000)%Z
  /\ DateTime.now_at (fun _ => 0%Z) (1709251199 * 1000000)
     = DateTime.mk 2024 2 29 23 59 59 0
  /\ DateTime.now_at (fun _ => 0%Z) (978220800 * 1000000)
     = DateTime.mk 2000 12 31 0 0 0 0.
Proof. repeat split; reflexivity. Qed.

Example strftime_example :
  DateTime.strftime (DateTime.mk 2025 12 23 15 30 45 0) "%Y%m%d-%H%M%S"
  = "20251223-153045".
Proof. reflexivity. Qed.

(** ** Reasoning about computations *)

Lemma bind_run {A B} (m : M A) (f : A -> M B) env w :
  bind m f env w =
  match m env w with
  | (Ok a, w') => f a env w'
  | (Raise e, w') => (Raise e, w')
  end.
Proof. reflexivity. Qed.

Lemma try_except_run {A} (body : M A) handler env w :
  try_except body handler env w =
  match body env w with
  | (Ok a, w') => (Ok a, w')
  | (Raise e, w') => handler e env w'
  end.
Proof. reflexivity. Qed.

Lemma total_ret {A} (a : A) : total (ret a).
Proof. intros env w. by exists a, w. Qed.

Lemma total_log l msg : total (log l msg).
Proof. intros env w. by eexists tt, _. Qed.

Lemma total_bind {A B} (m : M A) (f : A -> M B) :
  total m -> (forall a, total (f a)) -> total (bind m f).
Proof.
  intros Hm Hf env w. rewrite bind_run.
  destruct (Hm env w) as (a & w' & ->). apply Hf.
Qed.

Lemma total_try_except {A} (body : M A) handler :
  (forall e, total (handler e)) -> total (try_except body handler).
Proof.
  intros Hh env w. rewrite try_except_run.
  destruct (body env w) as [[a|e] w']; [by exists a, w' | apply Hh].
Qed.

Create HintDb total_db.
#[export] Hint Resolve total_ret total_log total_bind total_try_except
  : total_db.

Lemma backup_with_cp_total db_path backup_path :
  total (Backup.backup_with_cp db_path backup_path).
Proof.
  unfold Backup.backup_with_cp, logger_info, logger_error.
  auto 6 with total_db.
Qed.

Lemma backup_with_attach_total db_path backup_path :
  total (Backup.backup_with_attach db_path backup_path).
Proof.
  unfold Backup.backup_with_attach, logger_info, logger_error.
  auto 6 with total_db.
Qed.

(** *** What the library calls leave alone *)

Lemma keeps_ret {A X} (proj : World -> X) (a : A) : keeps proj (ret a).
Proof. intros env w r w' H. unfold ret in H. by simplify_eq. Qed.

Lemma keeps_raise {A X} (proj : World -> X) e : keeps proj (@raise A e).
Proof. intros env w r w' H. unfold raise in H. by simplify_eq. Qed.

Lemma keeps_bind {A B X} (proj : World -> X) (m : M A) (f : A -> M B) :
  keeps proj m -> (forall a, keeps proj (f a)) -> keeps proj (bind m f).
Proof.
  intros Hm Hf env w r w' H. rewrite bind_run in H.
  destruct (m env w) as [[a|e] w1] eqn:E.
  - rewrite (Hf _ _ _ _ _ H). eauto.
  - simplify_eq. eauto.
Qed.

Lemma keeps_try_except {A X} (proj : World -> X) (body : M A) handler :
  keeps proj body -> (forall e, keeps proj (handler e)) ->
  keeps proj (try_except body handler).
Proof.
  intros Hm Hf env w r w' H. rewrite try_except_run in H.
  destruct (body env w) as [[a|e] w1] eqn:E.
  - simplify_eq. eauto.
  - rewrite (Hf _ _ _ _ _ H). eauto.
Qed.

Lemma keeps_observe {A X} (proj : World -> X) op : keeps proj (@observe A op).
Proof.
  intros env w r w' H. unfold observe in H.
  destruct (op _ _); by simplify_eq.
Qed.

Lemma quiet_ret {A} (a : A) : quiet (ret a).
Proof. repeat split; apply keeps_ret. Qed.

Lemma quiet_raise {A} e : quiet (@raise A e).
Proof. repeat split; apply keeps_raise. Qed.

Lemma quiet_observe {A} op : quiet (@observe A op).
Proof. repeat split; apply keeps_observe. Qed.

Lemma quiet_bind {A B} (m : M A) (f : A -> M B) :
  quiet m -> (forall a, quiet (f a)) -> quiet (bind m f).
Proof.
  intros (?&?&?) Hf. repeat split; apply keeps_bind; auto; intros a;
    destruct (Hf a) as (?&?&?); auto.
Qed.

Lemma quiet_try_except {A} (body : M A) handler :
  quiet body -> (forall e, quiet (handler e)) -> quiet (try_except body handler).
Proof.
  intros (?&?&?) Hf. repeat split; apply keeps_try_except; auto; intros a;
    destruct (Hf a) as (?&?&?); auto.
Qed.

Lemma quiet_record c : quiet (record c).
Proof. repeat split; intros env w r w' H; unfold record in H; by simplify_eq. Qed.

Lemma quiet_mutate op : quiet (mutate op).
Proof.
  repeat split; intros env w r w' H; unfold mutate in H;
    destruct (op _ _); by simplify_eq.
Qed.

Lemma quiet_os_cred : quiet os_cred.
Proof. repeat split; intros env w r w' H; unfold os_cred in H; by simplify_eq. Qed.

Create HintDb quiet_db.
#[export] Hint Resolve quiet_ret quiet_raise quiet_observe quiet_bind
  quiet_try_except quiet_record quiet_mutate quiet_os_cred : quiet_db.

Lemma quiet_Path_stat p : quiet (Path_stat p).
Proof. unfold Path_stat. auto with quiet_db. Qed.

Lemma quiet_Path_is_dir p : quiet (Path_is_dir p).
Proof.
  unfold Path_is_dir. pose proof (quiet_Path_stat p). auto 6 with quiet_db.
Qed.

Lemma quiet_Path_exists p : quiet (Path_exists p).
Proof.
  unfold Path_exists. pose proof (quiet_Path_stat p). auto 6 with quiet_db.
Qed.

Lemma quiet_os_mkdir p : quiet (os_mkdir p).
Proof. unfold os_mkdir. auto with quiet_db. Qed.

Lemma quiet_Path_mkdir p : quiet (Path_mkdir p).
Proof.
  unfold Path_mkdir. apply quiet_try_except; [apply quiet_os_mkdir|].
  intros e. pose proof (quiet_Path_is_dir p).
  destruct e; try apply quiet_raise;
    (apply quiet_bind; [done|]; intros []; auto with quiet_db).
Qed.

Lemma quiet_Path_mkdir_parents_aux a rparts :
  quiet (Path_mkdir_parents_aux a rparts).
Proof.
  induction rparts as [|c init IH]; simpl;
    (apply quiet_try_except; [apply quiet_os_mkdir|]); intros e.
  - pose proof (quiet_Path_is_dir (PurePath.mk a [])).
    destruct e; auto with quiet_db;
      (apply quiet_bind; [done|]; intros []; auto with quiet_db).
  - pose proof (quiet_Path_is_dir (PurePath.mk a (rev init ++ [c]))).
    pose proof (quiet_Path_mkdir (PurePath.mk a (rev init ++ [c]))).
    destruct e; auto with quiet_db;
      (apply quiet_bind; [done|]; intros []; auto with quiet_db).
Qed.

Lemma quiet_Path_mkdir_parents p : quiet (Path_mkdir_parents p).
Proof. apply quiet_Path_mkdir_parents_aux. Qed.

Lemma quiet_Path_unlink p : quiet (Path_unlink p).
Proof. unfold Path_unlink. auto with quiet_db. Qed.

Lemma quiet_shutil_copy2 src dst : quiet (shutil_copy2 src dst).
Proof.
  unfold shutil_copy2. pose proof (quiet_Path_is_dir dst).
  apply quiet_bind; [auto with quiet_db|]; intros _.
  apply quiet_bind; [done|]; intros d.
  apply quiet_bind; [auto with quiet_db|]; intros [].
  - auto with quiet_db.
  - apply quiet_bind; [auto with quiet_db|]; intros cr.
    apply quiet_bind; [auto with quiet_db|]; intros [data meta].
    auto with quiet_db.
Qed.

(** *** Observations of the file system *)

Ltac wsimpl :=
  cbn [fs cwd logs stdout trace waited add_log add_trace set_fs].

Lemma Path_exists_run p env w :
  Path_exists p env w = (Ok (exists_at (fs w) (cwd env) p), w).
Proof.
  unfold Path_exists, exists_at, Path_stat, observe, try_except, bind, ret.
  by destruct (Fs.stat _ _ _).
Qed.

Lemma Path_is_dir_run p env w :
  Path_is_dir p env w = (Ok (is_dir_at (fs w) (cwd env) p), w).
Proof.
  unfold Path_is_dir, is_dir_at, Path_stat, observe, try_except, bind, ret.
  by destruct (Fs.stat _ _ _) as [[]|].
Qed.

Lemma log_run l m env w : log l m env w = (Ok tt, add_log w l m).
Proof. reflexivity. Qed.

(** ** The copy strategy when the source is missing *)

Lemma backup_with_cp_missing_source db_path backup_path env w :
  exists_at (fs w) (cwd env) (PurePath.of_string db_path) = false ->
  Backup.backup_with_cp db_path backup_path env w
  = (Ok false,
     add_log (add_log w INFO (MsgCpStart db_path backup_path))
       ERROR (MsgSourceNotFound db_path)).
Proof.
  intros Hsrc. unfold Backup.backup_with_cp, logger_info, logger_error.
  rewrite bind_run, log_run, try_except_run, bind_run, Path_exists_run.
  simpl. rewrite Hsrc. reflexivity.
Qed.

(** C3. When the source file does not exist, the copy strategy returns
    failure and the destination path is as it was: no destination file is
    created. *)
Theorem cp_missing_source_fails db_path backup_path env w :
  exists_at (fs w) (cwd env) (PurePath.of_string db_path) = false ->
  exists w',
    Backup.backup_with_cp db_path backup_path env w = (Ok false, w')
    /\ Fs.stat (fs w') (cwd env) (PurePath.of_string backup_path)
       = Fs.stat (fs w) (cwd env) (PurePath.of_string backup_path)
    /\ exists_at (fs w') (cwd env) (PurePath.of_string backup_path)
       = exists_at (fs w) (cwd env) (PurePath.of_string backup_path).
Proof.
  intros Hsrc. eexists. split.
  - by apply backup_with_cp_missing_source.
  - done.
Qed.

(** C9. When the source file does not exist, the copy strategy leaves the
    file system unchanged and asks for no change at all: the existence check
    comes first, so no directory is created and no file removed. *)
Theorem cp_missing_source_no_mutation db_path backup_path env w :
  exists_at (fs w) (cwd env) (PurePath.of_string db_path) = false ->
  exists w',
    Backup.backup_with_cp db_path backup_path env w = (Ok false, w')
    /\ fs w' = fs w
    /\ trace w' = trace w
    /\ logs w' = logs w ++ [(INFO, MsgCpStart db_path backup_path);
                            (ERROR, MsgSourceNotFound db_path)].
Proof.
  intros Hsrc. eexists. split.
  - by apply backup_with_cp_missing_source.
  - simpl. by rewrite <- app_assoc.
Qed.

(** ** Path walks *)

Lemma walk_app f k ps c :
  Fs.walk f k (ps ++ [c]) =
  match Fs.walk f k ps with
  | Ok k' =>
      match f !! k' with
      | Some (Fs.Dir _) =>
          if Fs.too_long c then Raise OSError_ENAMETOOLONG
          else Ok (Fs.step k' c)
      | Some (Fs.File _ _) => Raise NotADirectoryError
      | None => Raise FileNotFoundError
      end
  | Raise e => Raise e
  end.
Proof.
  revert k. induction ps as [|x ps IH]; intros k; simpl.
  - done.
  - destruct (f !! k) as [[]|]; auto. by destruct (Fs.too_long x).
Qed.

Lemma resolve_ok_inv f c p k :
  Fs.resolve f c p = Ok k <->
  Fs.check_text p = Ok tt
  /\ Fs.walk f (Fs.start c p) (PurePath.parts p) = Ok k.
Proof.
  unfold Fs.resolve. destruct (Fs.check_text p) as [[]|e].
  - by split; [|intros [_ ?]].
  - by split; [|intros [? _]].
Qed.

Lemma name_accepted_inv p :
  name_accepted p = true ->
  Fs.check_text p = Ok tt /\ Fs.too_long (PurePath.name p) = false.
Proof.
  unfold name_accepted. destruct (Fs.check_text p) as [[]|]; [|done].
  by intros ->%negb_true_iff.
Qed.

(** A walk only ever passes through directories, so it is the same in any
    file system that has at least the same directories. *)
Lemma walk_dirs_kept f f' k ps r :
  dirs_kept f f' -> Fs.walk f k ps = Ok r -> Fs.walk f' k ps = Ok r.
Proof.
  intros Hk. revert k. induction ps as [|x ps IH]; intros k; simpl; [done|].
  destruct (f !! k) as [[|b]|] eqn:E; try done.
  rewrite (Hk _ _ E). destruct (Fs.too_long x); [done|]. apply IH.
Qed.

Lemma resolve_dirs_kept f f' c p r :
  dirs_kept f f' -> Fs.resolve f c p = Ok r -> Fs.resolve f' c p = Ok r.
Proof.
  intros Hk [Hc Hw]%resolve_ok_inv. apply resolve_ok_inv.
  split; [done|]. by apply (walk_dirs_kept f).
Qed.

Lemma dirs_kept_delete_file f k data meta :
  f !! k = Some (Fs.File data meta) -> dirs_kept f (delete k f).
Proof.
  intros Hk k' b Hk'. rewrite lookup_delete_ne; [done|congruence].
Qed.

Lemma dirs_kept_insert_fresh f k n :
  f !! k = None -> dirs_kept f (<[k := n]> f).
Proof.
  intros Hk k' b Hk'. rewrite lookup_insert_ne; [done|congruence].
Qed.

Lemma stat_inv f c p n :
  Fs.stat f c p = Ok n <->
  exists k, Fs.resolve f c p = Ok k /\ f !! k = Some n.
Proof.
  unfold Fs.stat. split.
  - destruct (Fs.resolve f c p) as [k|]; [|done].
    destruct (f !! k) eqn:E; [|done]. intros [= ->]. eauto.
  - intros (k & -> & ->). done.
Qed.

Lemma wf_parent f c k n :
  Fs.wf f -> f !! (c :: k) = Some n -> Fs.dir_at f k = true.
Proof. intros [_ Hall] Hk. apply (Hall _ _ Hk). Qed.

Lemma dir_at_true f k : Fs.dir_at f k = true -> exists b, f !! k = Some (Fs.Dir b).
Proof. unfold Fs.dir_at. destruct (f !! k) as [[]|]; naive_solver. Qed.

(** A path at which something exists is one the system accepts. *)
Lemma stat_ok_name_accepted f c p n :
  Fs.stat f c p = Ok n -> name_accepted p = true.
Proof.
  intros (k & [Hok Hwalk]%resolve_ok_inv & _)%stat_inv.
  unfold name_accepted, PurePath.name. rewrite Hok.
  destruct (PurePath.parts p) as [|x ps _] using rev_ind; [done|].
  rewrite List.last_last. rewrite walk_app in Hwalk.
  destruct (Fs.walk _ _ ps) as [k'|]; [|done].
  destruct (f !! k') as [[]|]; try done.
  by destruct (Fs.too_long x).
Qed.

(** A path that is not a directory, inside an existing directory, resolves
    to an entry of that directory. *)
Lemma resolve_in_parent f c p b :
  Fs.wf f ->
  name_accepted p = true ->
  Fs.stat f c (PurePath.parent p) = Ok (Fs.Dir b) ->
  is_dir_at f c p = false ->
  exists name kd,
    Fs.resolve f c p = Ok (name :: kd) /\ f !! kd = Some (Fs.Dir b).
Proof.
  intros Hwf [Hok Hlen]%name_accepted_inv Hpar Hnd. destruct p as [a ps].
  apply stat_inv in Hpar as (kd & [_ Hres]%resolve_ok_inv & Hkd).
  unfold is_dir_at, Fs.stat, Fs.resolve in *. rewrite Hok in *.
  unfold PurePath.parent, PurePath.name, Fs.start,
    PurePath.is_absolute in *. simpl in *.
  generalize dependent (if match a with
                           | PurePath.Relative => false
                           | _ => true
                           end then [] else c).
  intros k0 Hres Hnd.
  destruct ps as [|x ps _] using rev_ind.
  - simpl in *. simplify_eq. by rewrite Hkd in Hnd.
  - rewrite removelast_last in Hres. rewrite List.last_last in Hlen.
    rewrite walk_app, Hres, Hkd, Hlen in Hnd.
    rewrite walk_app, Hres, Hkd, Hlen.
    unfold Fs.step in *.
    destruct (String.eqb x "..") eqn:Ex.
    + exfalso. destruct kd as [|y kd]; simpl in Hnd.
      * by rewrite Hkd in Hnd.
      * apply (wf_parent _ _ _ _ Hwf), dir_at_true in Hkd as (b' & Hb').
        by rewrite Hb' in Hnd.
    + destruct (PurePath.keep_part x); [eauto|].
      exfalso. by rewrite Hkd in Hnd.
Qed.

(** ** Run equations of the mutating calls *)

Lemma os_mkdir_run p env w :
  os_mkdir p env w =
  match Fs.mkdir (fs w) (cwd env) (cred env) p with
  | Ok f => (Ok tt, set_fs (add_trace w (SysMkdir p)) f)
  | Raise e => (Raise e, add_trace w (SysMkdir p))
  end.
Proof.
  unfold os_mkdir, os_cred, bind, record, mutate. simpl.
  by destruct (Fs.mkdir _ _ _ _).
Qed.

Lemma Path_unlink_run p env w :
  Path_unlink p env w =
  match Fs.unlink (fs w) (cwd env) p with
  | Ok f => (Ok tt, set_fs (add_trace w (SysUnlink p)) f)
  | Raise e => (Raise e, add_trace w (SysUnlink p))
  end.
Proof.
  unfold Path_unlink, bind, record, mutate. simpl. by destruct (Fs.unlink _ _ _).
Qed.

Lemma Path_mkdir_parents_aux_unfold a rparts :
  Path_mkdir_parents_aux a rparts =
  let self := PurePath.mk a (rev rparts) in
  try_except (os_mkdir self)
    (fun e =>
       match e with
       | FileNotFoundError =>
           match rparts with
           | [] => raise e
           | _ :: init => Path_mkdir_parents_aux a init;; Path_mkdir self
           end
       | _ => do d <- Path_is_dir self; if d then ret tt else raise e
       end).
Proof. by destruct rparts. Qed.

Lemma path_eta (p : PurePath.t) :
  PurePath.mk (PurePath.root p) (rev (rev (PurePath.parts p))) = p.
Proof. destruct p. simpl. by rewrite rev_involutive. Qed.

(** [mkdir(parents=True, exist_ok=True)] on a directory that is there
    already asks the kernel once and changes nothing. *)
Lemma Path_mkdir_parents_existing p b env w :
  Fs.stat (fs w) (cwd env) p = Ok (Fs.Dir b) ->
  Path_mkdir_parents p env w = (Ok tt, add_trace w (SysMkdir p)).
Proof.
  intros Hst. unfold Path_mkdir_parents.
  rewrite Path_mkdir_parents_aux_unfold, path_eta. simpl.
  rewrite try_except_run, os_mkdir_run.
  pose proof Hst as Hst'. apply stat_inv in Hst' as (k & Hres & Hk).
  unfold Fs.mkdir. rewrite Hres, Hk.
  rewrite bind_run, Path_is_dir_run. unfold is_dir_at. simpl.
  by rewrite Hst.
Qed.

Lemma shutil_copy2_run src dst data meta env w :
  is_dir_at (fs w) (cwd env) dst = false ->
  Fs.samefile (fs w) (cwd env) src dst = false ->
  Fs.read_file (fs w) (cwd env) (cred env) src = Ok (data, meta) ->
  shutil_copy2 src dst env w =
  match Fs.write_file (fs w) (cwd env) (cred env) dst data meta with
  | Ok f => (Ok tt, set_fs (add_trace w (SysCopy src dst)) f)
  | Raise e => (Raise e, add_trace w (SysCopy src dst))
  end.
Proof.
  intros Hd Hs Hr. unfold shutil_copy2.
  rewrite bind_run. cbn [record]. rewrite bind_run, Path_is_dir_run.
  cbn [fs]. rewrite Hd. unfold bind, observe, mutate, os_cred. cbn [fs].
  rewrite Hs. cbn beta iota. cbn [fs cwd]. rewrite Hr.
  by destruct (Fs.write_file _ _ _ _ _ _).
Qed.

(** ** File-system facts used by the copy strategy *)

Lemma stat_absent f c p k :
  Fs.resolve f c p = Ok k -> f !! k = None ->
  Fs.stat f c p = Raise FileNotFoundError.
Proof. intros Hr Hk. unfold Fs.stat. by rewrite Hr, Hk. Qed.

Lemma stat_present f c p k n :
  Fs.resolve f c p = Ok k -> f !! k = Some n -> Fs.stat f c p = Ok n.
Proof. intros. apply stat_inv. eauto. Qed.

Lemma read_file_present f c cr p k data meta :
  Fs.resolve f c p = Ok k -> f !! k = Some (Fs.File data meta) ->
  Fs.may_read cr meta = true ->
  Fs.read_file f c cr p = Ok (data, meta).
Proof.
  intros Hr Hk Hread. unfold Fs.read_file.
  by rewrite (stat_present _ _ _ _ _ Hr Hk), Hread.
Qed.

Lemma list_neq_cons {X} (x : X) (l : list X) : l <> x :: l.
Proof. intros H. apply (f_equal length) in H. simpl in H. lia. Qed.

Lemma unlink_file f c p name kd data meta :
  Fs.resolve f c p = Ok (name :: kd) ->
  f !! (name :: kd) = Some (Fs.File data meta) ->
  f !! kd = Some (Fs.Dir true) ->
  Fs.unlink f c p = Ok (delete (name :: kd) f).
Proof.
  intros Hr Hk Hkd. unfold Fs.unlink. rewrite Hr, Hk. simpl. by rewrite Hkd.
Qed.

Lemma write_file_fresh f c cr p name kd data meta :
  Fs.resolve f c p = Ok (name :: kd) ->
  f !! (name :: kd) = None ->
  f !! kd = Some (Fs.Dir true) ->
  Fs.write_file f c cr p data meta
  = Ok (<[name :: kd := Fs.File data (Fs.copied cr meta)]> f).
Proof.
  intros Hr Hk Hkd. unfold Fs.write_file. rewrite Hr, Hk. simpl.
  by rewrite Hkd.
Qed.

Lemma stat_after_write f c p k n :
  Fs.resolve f c p = Ok k -> f !! k = None ->
  Fs.stat (<[k := n]> f) c p = Ok n.
Proof.
  intros Hr Hk. eapply stat_present.
  - eapply resolve_dirs_kept; [|done]. by apply dirs_kept_insert_fresh.
  - apply lookup_insert_eq.
Qed.

(** The tail of the copy strategy, from [shutil.copy2] on, when the
    destination entry is free and its directory writable. *)
Lemma copy_and_report source dest name kd data meta env w :
  Fs.resolve (fs w) (cwd env) dest = Ok (name :: kd) ->
  fs w !! (name :: kd) = None ->
  fs w !! kd = Some (Fs.Dir true) ->
  Fs.read_file (fs w) (cwd env) (cred env) source = Ok (data, meta) ->
  (shutil_copy2 source dest;;
   do st <- Path_stat dest;
   logger_info (MsgCpCompleted (Fs.st_size st));;
   ret true) env w
  = (Ok true,
     add_log
       (set_fs (add_trace w (SysCopy source dest))
          (<[name :: kd := Fs.File data (Fs.copied (cred env) meta)]>
             (fs w)))
       INFO (MsgCpCompleted (length data))).
Proof.
  intros Hr Hk Hkd Hread.
  rewrite bind_run, (shutil_copy2_run _ _ data meta); try done.
  - rewrite (write_file_fresh _ _ _ _ name kd); try done.
    rewrite bind_run. unfold Path_stat, observe. cbn [fs cwd set_fs].
    rewrite (stat_after_write _ _ _ _ _ Hr Hk). reflexivity.
  - unfold is_dir_at. by rewrite (stat_absent _ _ _ _ Hr Hk).
  - unfold Fs.samefile. rewrite Hr, Hk.
    destruct (Fs.resolve _ _ source) as [ks|]; [|done].
    by destruct (fs w !! ks).
Qed.

(** ** The copy strategy when it succeeds *)

Lemma backup_with_cp_copies db_path backup_path data meta env w :
  let source := PurePath.of_string db_path in
  let dest := PurePath.of_string backup_path in
  Fs.wf (fs w) ->
  Fs.stat (fs w) (cwd env) source = Ok (Fs.File data meta) ->
  Fs.may_read (cred env) meta = true ->
  name_accepted dest = true ->
  Fs.stat (fs w) (cwd env) (PurePath.parent dest) = Ok (Fs.Dir true) ->
  is_dir_at (fs w) (cwd env) dest = false ->
  Fs.samefile (fs w) (cwd env) source dest = false ->
  exists k,
    Fs.resolve (fs w) (cwd env) dest = Ok k /\
    Backup.backup_with_cp db_path backup_path env w =
    (Ok true,
     mk_world (<[k := Fs.File data (Fs.copied (cred env) meta)]> (fs w))
       (logs w ++ (INFO, MsgCpStart db_path backup_path)
               :: (if exists_at (fs w) (cwd env) dest
                   then [(WARNING, MsgOverwriting backup_path)] else [])
               ++ [(INFO, MsgCpCompleted (length data))])
       (stdout w)
       (trace w ++ SysMkdir (PurePath.parent dest)
                :: (if exists_at (fs w) (cwd env) dest
                    then [SysUnlink dest] else [])
                ++ [SysCopy source dest])
       (waited w)).
Proof.
  intros source dest Hwf Hsrc Hread Hacc Hpar Hnd Hsame.
  destruct (resolve_in_parent _ _ _ _ Hwf Hacc Hpar Hnd)
    as (name & kd & Hres & Hkd).
  exists (name :: kd). split; [done|].
  pose proof Hsrc as Hsrc'. apply stat_inv in Hsrc' as (ks & Hrs & Hks).
  unfold Backup.backup_with_cp, logger_info, logger_error, logger_warning.
  fold source dest.
  rewrite bind_run, log_run, try_except_run, bind_run, Path_exists_run.
  unfold exists_at at 1. wsimpl. rewrite Hsrc. cbn [negb].
  rewrite bind_run, (Path_mkdir_parents_existing _ true); [|done].
  rewrite bind_run, Path_exists_run. wsimpl.
  unfold exists_at. destruct (Fs.stat (fs w) (cwd env) dest) as [n|e] eqn:Hd.
  - (* a file occupies the destination *)
    apply stat_inv in Hd as (k & Hk' & Hn).
    rewrite Hres in Hk'. injection Hk' as <-.
    destruct n as [data' meta'|b];
      [|unfold is_dir_at in Hnd;
        by rewrite (stat_present _ _ _ _ _ Hres Hn) in Hnd].
    assert (ks <> name :: kd) as Hne.
    { unfold Fs.samefile in Hsame. rewrite Hrs, Hres, Hks, Hn in Hsame.
      by apply bool_decide_eq_false in Hsame. }
    rewrite bind_run, bind_run, log_run, Path_unlink_run.
    wsimpl.
    rewrite (unlink_file _ _ _ _ _ _ _ Hres Hn Hkd).
    pose proof (dirs_kept_delete_file _ _ _ _ Hn) as Hkept.
    rewrite (copy_and_report _ _ name kd data meta).
    + unfold add_log, add_trace, set_fs. wsimpl.
      rewrite insert_delete_eq, <- !app_assoc. reflexivity.
    + eapply resolve_dirs_kept; [exact Hkept|done].
    + apply lookup_delete_eq.
    + wsimpl. rewrite lookup_delete_ne; [done|].
      intros Heq. by apply (list_neq_cons name kd).
    + wsimpl. apply (read_file_present _ _ _ _ ks); [|  |done].
      * eapply resolve_dirs_kept; [exact Hkept|done].
      * rewrite lookup_delete_ne; [done|congruence].
  - (* the destination is free *)
    assert (fs w !! (name :: kd) = None) as Hn.
    { unfold Fs.stat in Hd. rewrite Hres in Hd.
      by destruct (fs w !! (name :: kd)). }
    rewrite bind_run. cbn [ret].
    rewrite (copy_and_report _ _ name kd data meta); try done.
    + unfold add_log, add_trace, set_fs. wsimpl.
      rewrite <- !app_assoc. reflexivity.
    + wsimpl. unfold Fs.read_file. by rewrite Hsrc, Hread.
Qed.


Lemma dirs_kept_insert_nondir f k n :
  Fs.dir_at f k = false -> dirs_kept f (<[k := n]> f).
Proof.
  intros Hk k' b Hk'. rewrite lookup_insert_ne; [done|].
  intros ->. unfold Fs.dir_at in Hk. by rewrite Hk' in Hk.
Qed.

Lemma is_dir_at_dir_at f c p k :
  Fs.resolve f c p = Ok k -> is_dir_at f c p = Fs.dir_at f k.
Proof.
  intros Hr. unfold is_dir_at, Fs.dir_at, Fs.stat. rewrite Hr.
  by destruct (f !! k) as [[]|].
Qed.

Lemma wf_sample : Fs.wf Sample.fs0.
Proof.
  split; [reflexivity|]. apply (bool_decide_unpack _). by vm_compute.
Qed.







Lemma cp_missing_source_fails_witness :
  exists w',
    Backup.backup_with_cp "/data/none.db" "/tmp/new/out.db"
      Sample.env0 Sample.w0 = (Ok false, w')
    /\ Fs.stat (fs w') ["data"] (PurePath.of_string "/tmp/new/out.db")
       = Fs.stat Sample.fs0 ["data"] (PurePath.of_string "/tmp/new/out.db")
    /\ exists_at (fs w') ["data"] (PurePath.of_string "/tmp/new/out.db")
       = exists_at Sample.fs0 ["data"] (PurePath.of_string "/tmp/new/out.db").
Proof.
  apply (cp_missing_source_fails "/data/none.db" "/tmp/new/out.db"
           Sample.env0 Sample.w0).
  reflexivity.
Defined.

Lemma cp_missing_source_no_mutation_witness :
  exists w',
    Backup.backup_with_cp "none.db" "/tmp/old.db" Sample.env0 Sample.w0
    = (Ok false, w')
    /\ fs w' = Sample.fs0
    /\ trace w' = []
    /\ logs w' = [] ++ [(INFO, MsgCpStart "none.db" "/tmp/old.db");
                        (ERROR, MsgSourceNotFound "none.db")].
Proof.
  apply (cp_missing_source_no_mutation "none.db" "/tmp/old.db"
           Sample.env0 Sample.w0).
  reflexivity.
Defined.

(** ** No exception leaves a strategy *)

Lemma bind_ok_inv {A B} (m : M A) (f : A -> M B) env w b w' :
  bind m f env w = (Ok b, w') ->
  exists a w1, m env w = (Ok a, w1) /\ f a env w1 = (Ok b, w').
Proof.
  rewrite bind_run. destruct (m env w) as [[a|e] w1]; [eauto|done].
Qed.

Ltac bind_inv H :=
  repeat match type of H with
    | bind _ _ _ _ = (Ok _, _) =>
        let a := fresh "a" in
        let w := fresh "w" in
        let H1 := fresh "Hstep" in
        apply bind_ok_inv in H as (a & w & H1 & H)
    end.

Lemma error_logged_last_add_log w msg : error_logged_last (add_log w ERROR msg).
Proof. exists msg. simpl. apply last_snoc. Qed.

Lemma backup_with_cp_reports db_path backup_path :
  reports_failure (Backup.backup_with_cp db_path backup_path).
Proof.
  intros env w. unfold Backup.backup_with_cp, logger_info, logger_error.
  rewrite bind_run, log_run, try_except_run.
  match goal with |- context [ bind ?m ?f env ?w1 ] =>
    destruct (bind m f env w1) as [[b|e] w2] eqn:Hbody end.
  - exists b, w2. split; [done|]. intros ->.
    rewrite bind_run, Path_exists_run in Hbody.
    destruct (exists_at _ _ _); cbn [negb] in Hbody.
    + bind_inv Hbody. unfold ret in Hbody. congruence.
    + rewrite bind_run, log_run in Hbody. unfold ret in Hbody.
      injection Hbody as <-. apply error_logged_last_add_log.
  - rewrite bind_run, log_run. eexists false, _. split; [done|]. intros _.
    apply error_logged_last_add_log.
Qed.

Lemma backup_with_attach_reports db_path backup_path :
  reports_failure (Backup.backup_with_attach db_path backup_path).
Proof.
  intros env w. unfold Backup.backup_with_attach, logger_info, logger_error.
  rewrite bind_run, log_run, try_except_run.
  match goal with |- context [ bind ?m ?f env ?w1 ] =>
    destruct (bind m f env w1) as [[b|e] w2] eqn:Hbody end.
  - exists b, w2. split; [done|]. intros ->.
    do 4 (apply bind_ok_inv in Hbody as (? & ? & _ & Hbody)).
    destruct (negb _).
    + rewrite bind_run, log_run in Hbody. unfold ret in Hbody.
      injection Hbody as <-. apply error_logged_last_add_log.
    + bind_inv Hbody. unfold ret in Hbody. congruence.
  - rewrite bind_run, log_run. eexists false, _. split; [done|]. intros _.
    apply error_logged_last_add_log.
Qed.

Lemma total_datetime_now : total datetime_now.
Proof. intros env w. by eexists _, _. Qed.

Lemma total_print s : total (print s).
Proof. intros env w. by eexists tt, _. Qed.

#[export] Hint Resolve total_datetime_now total_print backup_with_cp_total
  backup_with_attach_total : total_db.

Lemma create_timestamped_backup_total db_path backup_dir method :
  total (Backup.create_timestamped_backup db_path backup_dir method).
Proof.
  unfold Backup.create_timestamped_backup, logger_info, logger_error.
  apply total_bind; [auto with total_db|]. intros now.
  apply total_bind; [auto with total_db|]. intros _.
  destruct (String.eqb method "cp"); [auto with total_db|].
  destruct (String.eqb method "attach"); auto with total_db.
Qed.

(** ** Standard output *)

Lemma keeps_log {X} (proj : World -> X) l msg :
  (forall w, proj (add_log w l msg) = proj w) -> keeps proj (log l msg).
Proof. intros Hp env w r w' H. rewrite log_run in H. by simplify_eq. Qed.

Lemma keeps_stdout_log l msg : keeps stdout (log l msg).
Proof. by apply keeps_log. Qed.

Lemma keeps_stdout_subprocess_run argv input timeout :
  keeps stdout (subprocess_run argv input timeout).
Proof.
  intros env w r w' H. unfold subprocess_run in H.
  rewrite bind_run in H. cbn [record] in H.
  destruct (programs env argv input _ _) as [e|p]; [by simplify_eq|].
  destruct (finishes_within p timeout); by simplify_eq.
Qed.

Lemma keeps_Path_resolve {X} (proj : World -> X) p : keeps proj (Path_resolve p).
Proof. intros env w r w' H. unfold Path_resolve in H. by simplify_eq. Qed.

Lemma keeps_stdout_quiet {A} (m : M A) : quiet m -> keeps stdout m.
Proof. by intros (_ & ? & _). Qed.

Lemma backup_with_cp_keeps_stdout db_path backup_path :
  keeps stdout (Backup.backup_with_cp db_path backup_path).
Proof.
  unfold Backup.backup_with_cp, logger_info, logger_error, logger_warning.
  apply keeps_bind; [apply keeps_stdout_log|]. intros _.
  apply keeps_try_except.
  - apply keeps_bind; [apply keeps_stdout_quiet, quiet_Path_exists|].
    intros [|]; cbn [negb].
    + apply keeps_bind;
        [apply keeps_stdout_quiet, quiet_Path_mkdir_parents|]. intros _.
      apply keeps_bind; [apply keeps_stdout_quiet, quiet_Path_exists|].
      intros dest_exists.
      apply keeps_bind.
      { destruct dest_exists; [|apply keeps_ret].
        apply keeps_bind; [apply keeps_stdout_log|]. intros _.
        apply keeps_stdout_quiet, quiet_Path_unlink. }
      intros _.
      apply keeps_bind; [apply keeps_stdout_quiet, quiet_shutil_copy2|].
      intros _.
      apply keeps_bind; [apply keeps_stdout_quiet, quiet_Path_stat|].
      intros st.
      apply keeps_bind; [apply keeps_stdout_log|]. intros _. apply keeps_ret.
    + apply keeps_bind; [apply keeps_stdout_log|]. intros _. apply keeps_ret.
  - intros e. apply keeps_bind; [apply keeps_stdout_log|]. intros _.
    apply keeps_ret.
Qed.

Lemma backup_with_attach_keeps_stdout db_path backup_path :
  keeps stdout (Backup.backup_with_attach db_path backup_path).
Proof.
  unfold Backup.backup_with_attach, logger_info, logger_error.
  apply keeps_bind; [apply keeps_stdout_log|]. intros _.
  apply keeps_try_except.
  - apply keeps_bind; [apply keeps_Path_resolve|]. intros abs_db.
    apply keeps_bind; [apply keeps_Path_resolve|]. intros abs_backup.
    apply keeps_bind;
      [apply keeps_stdout_quiet, quiet_Path_mkdir_parents|]. intros _.
    apply keeps_bind; [apply keeps_stdout_subprocess_run|]. intros result.
    destruct (negb _).
    + apply keeps_bind; [apply keeps_stdout_log|]. intros _. apply keeps_ret.
    + apply keeps_bind; [apply keeps_stdout_quiet, quiet_Path_stat|].
      intros st.
      apply keeps_bind; [apply keeps_stdout_log|]. intros _. apply keeps_ret.
  - intros e. apply keeps_bind; [apply keeps_stdout_log|]. intros _.
    apply keeps_ret.
Qed.

(** ** Timestamped file names *)

Lemma split_slash_free s :
  slash_free s = true -> PurePath.split_slash s = [s].
Proof.
  induction s as [|c s IH]; simpl; [done|].
  destruct (Ascii.eqb c PurePath.slash); simpl; [done|].
  intros H. by rewrite (IH H).
Qed.

Lemma is_digit_digit n : is_digit (DateTime.digit n) = true.
Proof. unfold DateTime.digit. by repeat case_match. Qed.

Lemma digit_not_slash n : Ascii.eqb (DateTime.digit n) PurePath.slash = false.
Proof. unfold DateTime.digit. by repeat case_match. Qed.

Lemma backup_filename_eq now :
  Backup.backup_filename now =
  "backup-" +:+ DateTime.pad4 (DateTime.year now)
  +:+ DateTime.pad2 (DateTime.month now)
  +:+ DateTime.pad2 (DateTime.day now)
  +:+ "-" +:+ DateTime.pad2 (DateTime.hour now)
  +:+ DateTime.pad2 (DateTime.minute now)
  +:+ DateTime.pad2 (DateTime.second now) +:+ ".duckdb".
Proof. reflexivity. Qed.

Lemma backup_filename_slash_free now :
  slash_free (Backup.backup_filename now) = true.
Proof.
  rewrite backup_filename_eq. unfold DateTime.pad4, DateTime.pad2.
  cbv -[DateTime.digit Z.div Ascii.eqb PurePath.slash negb andb].
  rewrite !digit_not_slash. reflexivity.
Qed.

Lemma backup_filename_pattern now :
  matches_pattern "backup-YYYYMMDD-HHMMSS.duckdb" (Backup.backup_filename now)
  = true.
Proof.
  rewrite backup_filename_eq. unfold DateTime.pad4, DateTime.pad2.
  cbv -[DateTime.digit Z.div is_digit andb]. rewrite !is_digit_digit.
  reflexivity.
Qed.

Lemma of_string_backup_filename now :
  PurePath.of_string (Backup.backup_filename now)
  = PurePath.mk PurePath.Relative [Backup.backup_filename now].
Proof.
  unfold PurePath.of_string.
  rewrite (split_slash_free _ (backup_filename_slash_free now)).
  reflexivity.
Qed.

(** The timestamped path is the backup directory with the file name as
    its last component. *)
Lemma timestamped_path_eq backup_dir now :
  Backup.timestamped_path backup_dir now
  = PurePath.str
      (PurePath.mk (PurePath.root (PurePath.of_string backup_dir))
         (PurePath.parts (PurePath.of_string backup_dir)
          ++ [Backup.backup_filename now])).
Proof.
  unfold Backup.timestamped_path, PurePath.truediv, PurePath.joinpath.
  by rewrite of_string_backup_filename.
Qed.

Lemma append_nonempty s1 s2 : s2 <> "" -> s1 +:+ s2 <> "".
Proof. intros Hs. destruct s1 as [|a s1]; [done|]. intros H. inversion H. Qed.

Lemma concat_snoc_nonempty sep ps s :
  s <> "" -> String.concat sep (ps ++ [s]) <> "".
Proof.
  intros Hs. induction ps as [|x ps IH]; simpl; [done|].
  destruct (ps ++ [s]) eqn:E; [by destruct ps|].
  apply append_nonempty, append_nonempty. by rewrite <- E in *.
Qed.

Lemma timestamped_path_truthy backup_dir now :
  Backup.truthy (Backup.timestamped_path backup_dir now) = true.
Proof.
  rewrite timestamped_path_eq. unfold Backup.truthy, PurePath.str.
  cbn [PurePath.root PurePath.parts].
  apply negb_true_iff, String.eqb_neq.
  set (a := PurePath.root (PurePath.of_string backup_dir)).
  set (ps := PurePath.parts (PurePath.of_string backup_dir)).
  assert (forall a', PurePath.root_str a'
            +:+ String.concat "/" (ps ++ [Backup.backup_filename now]) <> "")
    as Hne.
  { intros a'. by apply append_nonempty, concat_snoc_nonempty. }
  destruct a; [|apply Hne..].
  specialize (Hne PurePath.Relative).
  destruct (ps ++ [Backup.backup_filename now]) eqn:E; [by destruct ps|].
  exact Hne.
Qed.

(** ** The command line *)

Lemma consume_method argv acc args :
  Backup.consume argv acc = Backup.Parsed args ->
  Backup.p_method acc ∈ Backup.choices ->
  Backup.method args ∈ Backup.choices.
Proof.
  revert acc. induction argv as [|a argv IH]; intros acc; simpl.
  - destruct (Backup.p_db acc), (Backup.p_backup acc); try done.
    destruct (Backup.p_extras acc); [done|]. by intros [= <-].
  - destruct a; try done; try (intros Hc ?; by apply (IH _ Hc)).
    case_bool_decide; [|done]. intros Hc _. by apply (IH _ Hc).
Qed.

Lemma parse_args_method argv args :
  Backup.parse_args argv = Backup.Parsed args ->
  Backup.method args = "cp" \/ Backup.method args = "attach".
Proof.
  intros H. apply consume_method in H.
  - unfold Backup.choices in H.
    rewrite !elem_of_cons, elem_of_nil in H. tauto.
  - unfold Backup.choices, Backup.defaults. simpl.
    rewrite !elem_of_cons. tauto.
Qed.

(** C5 (amended). For every invocation whose arguments [argparse] accepts,
    the exit status is 0 exactly when the selected strategy succeeds and 1
    when it fails; the backup path is printed on standard output in
    timestamp mode on success, and nothing is printed otherwise. *)
Theorem exit_status_and_stdout argv args env w :
  Backup.parse_args argv = Backup.Parsed args ->
  let target :=
    if Backup.timestamp args
    then Backup.timestamped_path (Backup.backup args) (clock env)
    else Backup.backup args in
  let w1 :=
    if Backup.timestamp args
    then add_log w INFO (MsgTimestamped (Backup.backup_filename (clock env)))
    else w in
  let strategy :=
    if String.eqb (Backup.method args) "cp"
    then Backup.backup_with_cp else Backup.backup_with_attach in
  exists success w2 w',
    strategy (Backup.db args) target env w1 = (Ok success, w2)
    /\ Backup.main argv env w = (Ok (if success then 0 else 1)%Z, w')
    /\ stdout w' = stdout w ++ (if Backup.timestamp args && success
                                then [Line target] else [])
    /\ fs w' = fs w2 /\ logs w' = logs w2 /\ trace w' = trace w2.
Proof.
  intros Hparse target w1 strategy.
  assert (total (strategy (Backup.db args) target)) as Htot.
  { unfold strategy. destruct (String.eqb _ _); auto with total_db. }
  assert (keeps stdout (strategy (Backup.db args) target)) as Hout.
  { unfold strategy. destruct (String.eqb _ _);
      [apply backup_with_cp_keeps_stdout|apply backup_with_attach_keeps_stdout]. }
  destruct (Htot env w1) as (success & w2 & Hrun).
  pose proof (Hout _ _ _ _ Hrun) as Hstd.
  unfold Backup.main. rewrite Hparse. unfold Backup.main_body.
  subst target w1 strategy.
  destruct (Backup.timestamp args).
  - (* timestamp mode *)
    assert (Backup.create_timestamped_backup (Backup.db args)
              (Backup.backup args) (Backup.method args) env w
            = (Ok (if success
                   then Backup.timestamped_path (Backup.backup args) (clock env)
                   else ""), w2)) as Hcreate.
    { unfold Backup.create_timestamped_backup, logger_info.
      rewrite bind_run. cbn [datetime_now]. rewrite bind_run, log_run.
      destruct (parse_args_method _ _ Hparse) as [Hm|Hm];
        rewrite Hm in *; cbn [String.eqb Ascii.eqb Bool.eqb] in *;
        rewrite bind_run, Hrun; reflexivity. }
    rewrite bind_run, Hcreate.
    destruct success.
    + rewrite timestamped_path_truthy.
      eexists true, w2, _. split; [done|]. split; [reflexivity|].
      simpl. by rewrite Hstd.
    + eexists false, w2, _. split; [done|]. split; [reflexivity|].
      simpl. by rewrite Hstd, app_nil_r.
  - rewrite bind_run.
    destruct (String.eqb (Backup.method args) "cp"); rewrite Hrun;
      (eexists success, w2, _; split; [done|]; split; [reflexivity|];
       simpl; by rewrite Hstd, app_nil_r).
Qed.

Lemma exit_status_and_stdout_witness :
  exists success w2 w',
    Backup.backup_with_cp "/data/a.db"
      (Backup.timestamped_path "/tmp" Sample.noon) Sample.env0
      (add_log Sample.w0 INFO
         (MsgTimestamped (Backup.backup_filename Sample.noon)))
    = (Ok success, w2)
    /\ Backup.main
         [Backup.ArgDb "/data/a.db"; Backup.ArgBackup "/tmp";
          Backup.ArgTimestamp] Sample.env0 Sample.w0
       = (Ok (if success then 0 else 1)%Z, w')
    /\ stdout w' = [] ++ (if true && success
                          then [Line (Backup.timestamped_path "/tmp" Sample.noon)]
                          else [])
    /\ fs w' = fs w2 /\ logs w' = logs w2 /\ trace w' = trace w2.
Proof.
  apply (exit_status_and_stdout
           [Backup.ArgDb "/data/a.db"; Backup.ArgBackup "/tmp";
            Backup.ArgTimestamp]
           (Backup.mk_args "/data/a.db" "/tmp" "cp" true)
           Sample.env0 Sample.w0).
  reflexivity.
Defined.

(** C5 as stated fails for invocations that [argparse] ends itself. Without
    the required [--backup] the exit status is 2, neither 0 nor 1; with
    [--help] it is 0 although no backup was made, and the help message goes
    to standard output. *)
Lemma parser_exits_outside_0_and_1 :
  Backup.main [Backup.ArgDb "/data/a.db"] Sample.env0 Sample.w0
  = (Ok 2%Z, Sample.w0)
  /\ Backup.main [Backup.ArgHelp] Sample.env0 Sample.w0
     = (Ok 0%Z, mk_world Sample.fs0 [] [HelpMessage] [] 0).
Proof. split; reflexivity. Qed.

Lemma consume_unknown_method pre m post acc :
  Backup.ArgHelp ∉ pre -> m ∉ Backup.choices ->
  Backup.consume (pre ++ Backup.ArgMethod m :: post) acc = Backup.ErrorExit.
Proof.
  intros Hh Hm. revert acc. induction pre as [|a pre IH]; intros acc; simpl.
  - by rewrite bool_decide_eq_false_2.
  - apply not_elem_of_cons in Hh as [Hne Hh].
    destruct a; try done; try by apply IH.
    case_bool_decide; [by apply IH|done].
Qed.

Lemma unknown_method_eqb m :
  m ∉ Backup.choices ->
  String.eqb m "cp" = false /\ String.eqb m "attach" = false.
Proof.
  unfold Backup.choices. rewrite !not_elem_of_cons.
  intros (H1 & H2 & _). split; by apply String.eqb_neq.
Qed.

(** C6 (amended). An unknown [--method] value is refused by the argument
    parser ([choices]): unless help was requested before it on the command
    line, the process exits with status 2, having logged nothing, printed
    nothing on standard output and asked for no change of the file system.
    The unknown-method branch of [create_timestamped_backup], out of reach
    from [main], logs the error and returns the empty string, also without
    touching the file system. *)
Theorem unknown_method_rejected pre m post db_path backup_dir env w :
  Backup.ArgHelp ∉ pre ->
  m ∉ Backup.choices ->
  Backup.main (pre ++ Backup.ArgMethod m :: post) env w = (Ok 2%Z, w)
  /\ Backup.create_timestamped_backup db_path backup_dir m env w
     = (Ok "",
        add_log
          (add_log w INFO (MsgTimestamped (Backup.backup_filename (clock env))))
          ERROR (MsgUnknownMethod m)).
Proof.
  intros Hh Hm. split.
  - unfold Backup.main, Backup.parse_args.
    by rewrite consume_unknown_method.
  - destruct (unknown_method_eqb _ Hm) as [H1 H2].
    unfold Backup.create_timestamped_backup, logger_info, logger_error.
    rewrite bind_run. cbn [datetime_now]. rewrite bind_run, log_run, H1, H2.
    reflexivity.
Qed.

Lemma unknown_method_rejected_witness :
  Backup.main
    ([Backup.ArgDb "/data/a.db"; Backup.ArgBackup "/tmp"; Backup.ArgTimestamp]
     ++ Backup.ArgMethod "rsync" :: [Backup.ArgHelp])
    Sample.env0 Sample.w0 = (Ok 2%Z, Sample.w0)
  /\ Backup.create_timestamped_backup "/data/a.db" "/tmp" "rsync"
       Sample.env0 Sample.w0
     = (Ok "",
        add_log
          (add_log Sample.w0 INFO
             (MsgTimestamped (Backup.backup_filename (clock Sample.env0))))
          ERROR (MsgUnknownMethod "rsync")).
Proof.
  apply (unknown_method_rejected
           [Backup.ArgDb "/data/a.db"; Backup.ArgBackup "/tmp";
            Backup.ArgTimestamp]
           "rsync" [Backup.ArgHelp] "/data/a.db" "/tmp" Sample.env0 Sample.w0).
  - apply (bool_decide_unpack _). by vm_compute.
  - apply (bool_decide_unpack _). by vm_compute.
Defined.

(** C6 as stated fails: with [--method rsync] the exit status is 2, not 1. *)
Lemma unknown_method_exit_status_is_not_1 :
  fst (Backup.main
         [Backup.ArgDb "/data/a.db"; Backup.ArgBackup "/tmp/out.db";
          Backup.ArgMethod "rsync"] Sample.env0 Sample.w0) = Ok 2%Z
  /\ fst (Backup.main
            [Backup.ArgDb "/data/a.db"; Backup.ArgBackup "/tmp/out.db";
             Backup.ArgMethod "rsync"] Sample.env0 Sample.w0) <> Ok 1%Z.
Proof. split; by vm_compute. Qed.

(** ** Distinct seconds give distinct names *)

Lemma digit_val_digit n : digit_val (DateTime.digit n) = (n mod 10)%Z.
Proof.
  pose proof (Z.mod_pos_bound n 10 eq_refl) as Hb.
  unfold DateTime.digit.
  repeat case_match; try reflexivity;
    change (digit_val "9"%char) with 9%Z; lia.
Qed.

Lemma digit_inj a b :
  DateTime.digit a = DateTime.digit b -> (a mod 10 = b mod 10)%Z.
Proof.
  intros H. apply (f_equal digit_val) in H. by rewrite !digit_val_digit in H.
Qed.

Lemma pad2_inj a b :
  (0 <= a < 100)%Z -> (0 <= b < 100)%Z ->
  DateTime.pad2 a = DateTime.pad2 b -> a = b.
Proof.
  intros Ha Hb H. unfold DateTime.pad2 in H.
  injection H as H1 H2. apply digit_inj in H1, H2.
  revert H1 H2. Z.div_mod_to_equations. lia.
Qed.

Lemma pad4_inj a b :
  (0 <= a < 10000)%Z -> (0 <= b < 10000)%Z ->
  DateTime.pad4 a = DateTime.pad4 b -> a = b.
Proof.
  intros Ha Hb H. unfold DateTime.pad4, DateTime.pad2 in H.
  injection H as H1 H2 H3 H4. apply digit_inj in H1, H2, H3, H4.
  revert H1 H2 H3 H4. Z.div_mod_to_equations. lia.
Qed.

Lemma days_in_month_le y m : (DateTime.days_in_month y m <= 31)%Z.
Proof.
  unfold DateTime.days_in_month. repeat case_match; lia.
Qed.

Lemma valid_ranges d :
  DateTime.valid d = true ->
  (1 <= DateTime.year d <= 9999 /\ 1 <= DateTime.month d <= 12
   /\ 1 <= DateTime.day d <= 31
   /\ 0 <= DateTime.hour d < 24 /\ 0 <= DateTime.minute d < 60
   /\ 0 <= DateTime.second d < 60 /\ 0 <= DateTime.microsecond d < 1000000)%Z.
Proof.
  unfold DateTime.valid. rewrite !andb_true_iff, !Z.leb_le, !Z.ltb_lt.
  pose proof (days_in_month_le (DateTime.year d) (DateTime.month d)). lia.
Qed.

(** The file name determines the wall-clock second. *)
Lemma backup_filename_inj d1 d2 :
  DateTime.valid d1 = true -> DateTime.valid d2 = true ->
  Backup.backup_filename d1 = Backup.backup_filename d2 ->
  DateTime.year d1 = DateTime.year d2
  /\ DateTime.month d1 = DateTime.month d2
  /\ DateTime.day d1 = DateTime.day d2
  /\ DateTime.hour d1 = DateTime.hour d2
  /\ DateTime.minute d1 = DateTime.minute d2
  /\ DateTime.second d1 = DateTime.second d2.
Proof.
  intros (Hy1 & Hm1 & Hd1 & Hh1 & Hmi1 & Hs1 & _)%valid_ranges
         (Hy2 & Hm2 & Hd2 & Hh2 & Hmi2 & Hs2 & _)%valid_ranges H.
  rewrite !backup_filename_eq in H.
  cbv [String.append] in H. fold String.append in H.
  unfold DateTime.pad4, DateTime.pad2 in H. cbv [String.append] in H.
  injection H as Y1 Y2 Y3 Y4 M1 M2 D1 D2 H1 H2 MI1 MI2 S1 S2.
  repeat split.
  - apply pad4_inj; [lia..|]. unfold DateTime.pad4, DateTime.pad2. congruence.
  - apply pad2_inj; [lia..|]. unfold DateTime.pad2. congruence.
  - apply pad2_inj; [lia..|]. unfold DateTime.pad2. congruence.
  - apply pad2_inj; [lia..|]. unfold DateTime.pad2. congruence.
  - apply pad2_inj; [lia..|]. unfold DateTime.pad2. congruence.
  - apply pad2_inj; [lia..|]. unfold DateTime.pad2. congruence.
Qed.

Lemma same_second_wall_us d1 d2 :
  DateTime.year d1 = DateTime.year d2 ->
  DateTime.month d1 = DateTime.month d2 ->
  DateTime.day d1 = DateTime.day d2 ->
  DateTime.hour d1 = DateTime.hour d2 ->
  DateTime.minute d1 = DateTime.minute d2 ->
  DateTime.second d1 = DateTime.second d2 ->
  (DateTime.wall_us d2 - DateTime.wall_us d1
   = DateTime.microsecond d2 - DateTime.microsecond d1)%Z.
Proof.
  intros Hy Hm Hd Hh Hmi Hs. unfold DateTime.wall_us, DateTime.toordinal.
  rewrite Hy, Hm, Hd, Hh, Hmi, Hs. lia.
Qed.

Lemma filenames_a_second_apart d1 d2 :
  DateTime.valid d1 = true -> DateTime.valid d2 = true ->
  (DateTime.wall_us d1 + 1000000 <= DateTime.wall_us d2)%Z ->
  Backup.backup_filename d1 <> Backup.backup_filename d2.
Proof.
  intros Hv1 Hv2 Hlate Heq.
  destruct (backup_filename_inj _ _ Hv1 Hv2 Heq) as (?&?&?&?&?&?).
  pose proof (same_second_wall_us d1 d2) as Hdiff.
  apply valid_ranges in Hv1, Hv2. lia.
Qed.

Lemma truediv_backup_filename backup_dir now :
  let p := PurePath.truediv (PurePath.of_string backup_dir)
             (Backup.backup_filename now) in
  PurePath.name p = Backup.backup_filename now
  /\ PurePath.parent p = PurePath.of_string backup_dir.
Proof.
  unfold PurePath.truediv, PurePath.joinpath.
  rewrite of_string_backup_filename. cbn.
  unfold PurePath.name, PurePath.parent. cbn [PurePath.parts PurePath.root].
  rewrite last_last, removelast_last.
  split; reflexivity.
Qed.

(** C4 (amended). [create_timestamped_backup] names the destination
    [backup-<YYYYMMDD-HHMMSS>.duckdb] after the local clock and puts it in
    the backup directory; it never raises, and returns the path when the
    selected strategy succeeds and the empty string when it fails or the
    method is unknown. Two runs at which the local clock reads times a full
    second apart get different names. *)
Theorem timestamped_backup_naming db_path backup_dir method env w :
  let now := clock env in
  let filename := Backup.backup_filename now in
  let dest := PurePath.truediv (PurePath.of_string backup_dir) filename in
  let backup_path := PurePath.str dest in
  let w1 := add_log w INFO (MsgTimestamped filename) in
  DateTime.valid now = true ->
  filename = "backup-" +:+ DateTime.pad4 (DateTime.year now)
             +:+ DateTime.pad2 (DateTime.month now)
             +:+ DateTime.pad2 (DateTime.day now)
             +:+ "-" +:+ DateTime.pad2 (DateTime.hour now)
             +:+ DateTime.pad2 (DateTime.minute now)
             +:+ DateTime.pad2 (DateTime.second now) +:+ ".duckdb"
  /\ matches_pattern "backup-YYYYMMDD-HHMMSS.duckdb" filename = true
  /\ PurePath.name dest = filename
  /\ PurePath.parent dest = PurePath.of_string backup_dir
  /\ (exists r w',
        Backup.create_timestamped_backup db_path backup_dir method env w
        = (Ok r, w')
        /\ ((method = "cp"
             /\ exists success,
                  Backup.backup_with_cp db_path backup_path env w1
                  = (Ok success, w')
                  /\ r = if success then backup_path else "")
            \/ (method = "attach"
                /\ exists success,
                     Backup.backup_with_attach db_path backup_path env w1
                     = (Ok success, w')
                     /\ r = if success then backup_path else "")
            \/ (method <> "cp" /\ method <> "attach" /\ r = "")))
  /\ (forall later,
        DateTime.valid later = true ->
        (DateTime.wall_us now + 1000000 <= DateTime.wall_us later)%Z ->
        Backup.backup_filename later <> filename).
Proof.
  intros now filename dest backup_path w1 Hvalid.
  split; [apply backup_filename_eq|].
  split; [apply backup_filename_pattern|].
  destruct (truediv_backup_filename backup_dir now) as [Hname Hparent].
  split; [exact Hname|]. split; [exact Hparent|]. split.
  - unfold Backup.create_timestamped_backup, logger_info, logger_error.
    rewrite bind_run. cbn [datetime_now]. rewrite bind_run, log_run.
    fold now filename. change (Backup.timestamped_path backup_dir now)
      with backup_path. fold w1.
    destruct (String.eqb method "cp") eqn:Hcp.
    + apply String.eqb_eq in Hcp.
      destruct (backup_with_cp_total db_path backup_path env w1)
        as (success & w' & Hrun).
      rewrite bind_run, Hrun. eexists _, w'. split; [reflexivity|].
      left. split; [done|]. by exists success.
    + apply String.eqb_neq in Hcp.
      destruct (String.eqb method "attach") eqn:Hat.
      * apply String.eqb_eq in Hat.
        destruct (backup_with_attach_total db_path backup_path env w1)
          as (success & w' & Hrun).
        rewrite bind_run, Hrun. eexists _, w'. split; [reflexivity|].
        right. left. split; [done|]. by exists success.
      * apply String.eqb_neq in Hat.
        rewrite bind_run, log_run. eexists _, _. split; [reflexivity|].
        by right; right.
  - intros later Hlater Hapart Heq.
    by apply (filenames_a_second_apart now later Hvalid Hlater Hapart).
Qed.

Lemma timestamped_backup_naming_witness :
  Backup.backup_filename Sample.noon = "backup-20251223-153045.duckdb"
  /\ Backup.create_timestamped_backup "/data/a.db" "/tmp" "cp"
       Sample.env0 Sample.w0
     = (Ok "/tmp/backup-20251223-153045.duckdb",
        snd (Backup.create_timestamped_backup "/data/a.db" "/tmp" "cp"
               Sample.env0 Sample.w0))
  /\ Backup.backup_filename (DateTime.mk 2025 12 23 15 30 46 250000)
     <> Backup.backup_filename Sample.noon.
Proof.
  split; [reflexivity|]. split; [by vm_compute|].
  destruct (timestamped_backup_naming "/data/a.db" "/tmp" "cp"
              Sample.env0 Sample.w0 eq_refl) as (_ & _ & _ & _ & _ & Hdistinct).
  apply Hdistinct; [reflexivity|]. by vm_compute.
Defined.

(** C4 as stated fails for two runs between which the local clock is set
    back. On 2025-10-26 Central European clocks go from 03:00 summer time
    back to 02:00: a run at 00:30 UTC and a run a full hour later both
    read 02:30:00, get the same file name, and the second run removes the
    backup the first one made. *)
Lemma same_name_an_hour_apart :
  let path := "/tmp/backup-20251026-023000.duckdb" in
  (Sample.half_past_midnight_utc + 3600 * 1000000
   = Sample.half_past_one_utc)%Z
  /\ clock Sample.env_summer_time = DateTime.mk 2025 10 26 2 30 0 0
  /\ clock Sample.env_winter_time = DateTime.mk 2025 10 26 2 30 0 0
  /\ Backup.backup_filename (clock Sample.env_winter_time)
     = Backup.backup_filename (clock Sample.env_summer_time)
  /\ exists w1 w2,
       Backup.create_timestamped_backup "/data/a.db" "/tmp" "cp"
         Sample.env_summer_time Sample.w0 = (Ok path, w1)
       /\ Backup.create_timestamped_backup "/data/a.db" "/tmp" "cp"
            Sample.env_winter_time w1 = (Ok path, w2)
       /\ trace w2
          = trace w1 ++ [SysMkdir (PurePath.of_string "/tmp");
                         SysUnlink (PurePath.of_string path);
                         SysCopy (PurePath.of_string "/data/a.db")
                                 (PurePath.of_string path)].
Proof.
  intros path. split; [reflexivity|]. split; [reflexivity|].
  split; [reflexivity|]. split; [reflexivity|].
  eexists _, _. split; [vm_compute; reflexivity|].
  split; [vm_compute; reflexivity|]. reflexivity.
Qed.

(** ** The native-export strategy *)

Lemma subprocess_run_run argv input timeout env w :
  subprocess_run argv input timeout env w =
  let w1 := add_trace w (SysSpawn argv input timeout) in
  match programs env argv input (cwd env) (fs w) with
  | inl e => (Raise e, w1)
  | inr p =>
      match finishes_within p timeout with
      | Some d =>
          (Ok (mk_completed (exit_status p) (err_stream p)),
           mk_world (fs_at p d) (logs w1) (stdout w1) (trace w1)
             (waited w + d)%Z)
      | None =>
          (Raise TimeoutExpired,
           mk_world (fs_at p timeout) (logs w1) (stdout w1) (trace w1)
             (waited w + timeout)%Z)
      end
  end.
Proof.
  unfold subprocess_run. rewrite bind_run. cbn [record]. wsimpl.
  destruct (programs env argv input _ _) as [e|p]; [done|].
  by destruct (finishes_within p timeout).
Qed.

(** The strategy, step by step. *)
Lemma backup_with_attach_run db_path backup_path env w :
  let abs_db := absolute (cwd env) (PurePath.of_string db_path) in
  let abs_backup := absolute (cwd env) (PurePath.of_string backup_path) in
  let w1 := add_log w INFO (MsgAttachStart db_path backup_path) in
  Backup.backup_with_attach db_path backup_path env w =
  match Path_mkdir_parents (PurePath.parent abs_backup) env w1 with
  | (Raise e, w2) => (Ok false, add_log w2 ERROR (MsgAttachError e))
  | (Ok _, w2) =>
      match subprocess_run ["duckdb"]
              (Backup.sql_commands abs_db abs_backup) 3600 env w2 with
      | (Raise e, w3) => (Ok false, add_log w3 ERROR (MsgAttachError e))
      | (Ok result, w3) =>
          if negb (returncode result =? 0)%Z then
            (Ok false, add_log w3 ERROR (MsgAttachFailed (stderr result)))
          else
            match Fs.stat (fs w3) (cwd env) abs_backup with
            | Ok st =>
                (Ok true,
                 add_log w3 INFO (MsgAttachCompleted (Fs.st_size st)))
            | Raise e => (Ok false, add_log w3 ERROR (MsgAttachError e))
            end
      end
  end.
Proof.
  intros abs_db abs_backup w1.
  unfold Backup.backup_with_attach, logger_info, logger_error.
  rewrite bind_run, log_run, try_except_run. fold w1.
  rewrite bind_run. cbn [Path_resolve]. rewrite bind_run. cbn [Path_resolve].
  fold abs_db abs_backup. rewrite bind_run.
  destruct (Path_mkdir_parents _ env w1) as [[[]|e] w2]; [|done].
  rewrite bind_run.
  destruct (subprocess_run _ _ _ env w2) as [[result|e] w3]; [|done].
  destruct (negb _); [done|].
  rewrite bind_run. unfold Path_stat, observe.
  by destruct (Fs.stat _ _ _).
Qed.

Lemma finishes_within_le p timeout d :
  finishes_within p timeout = Some d -> (d <= timeout)%Z.
Proof.
  unfold finishes_within. destruct (duration p) as [d'|]; [|done].
  destruct (Z.leb_spec d' timeout); [|done]. by intros [= <-].
Qed.

(** C7. The [duckdb] client is run under a timeout of 3600 seconds: a run
    of the native-export strategy spends at most that long waiting for it
    and always returns. When the client has not exited by then, the
    strategy returns failure after logging the [TimeoutExpired] error; when
    the client exits with a non-zero status, the strategy returns failure
    after logging the client's error stream. *)
Theorem attach_timeout_and_exit_status db_path backup_path env w :
  let abs_db := absolute (cwd env) (PurePath.of_string db_path) in
  let abs_backup := absolute (cwd env) (PurePath.of_string backup_path) in
  let sql := Backup.sql_commands abs_db abs_backup in
  let w1 := add_log w INFO (MsgAttachStart db_path backup_path) in
  exists b w',
    Backup.backup_with_attach db_path backup_path env w = (Ok b, w')
    /\ (waited w' <= waited w + 3600)%Z
    /\ (forall w2 p,
          Path_mkdir_parents (PurePath.parent abs_backup) env w1 = (Ok tt, w2) ->
          programs env ["duckdb"] sql (cwd env) (fs w2) = inr p ->
          trace w' = trace w2 ++ [SysSpawn ["duckdb"] sql 3600]
          /\ (finishes_within p 3600 = None ->
              b = false
              /\ logs w' = logs w2 ++ [(ERROR, MsgAttachError TimeoutExpired)]
              /\ waited w' = (waited w + 3600)%Z)
          /\ (forall d,
                finishes_within p 3600 = Some d ->
                exit_status p <> 0%Z ->
                b = false
                /\ logs w' = logs w2 ++ [(ERROR, MsgAttachFailed (err_stream p))])).
Proof.
  intros abs_db abs_backup sql w1.
  rewrite backup_with_attach_run. fold abs_db abs_backup sql w1.
  destruct (Path_mkdir_parents _ env w1) as [[[]|e] w2] eqn:Hmk.
  - pose proof (quiet_Path_mkdir_parents (PurePath.parent abs_backup))
      as (_ & _ & Hw).
    apply Hw in Hmk as Hwait. change (waited w1) with (waited w) in Hwait.
    rewrite subprocess_run_run. cbn zeta.
    destruct (programs env _ sql _ _) as [e|p] eqn:Hprog.
    + eexists false, _. split; [done|]. wsimpl.
      split; [lia|]. intros ? ? [= <-]. by rewrite Hprog.
    + destruct (finishes_within p 3600) as [d|] eqn:Hfin.
      * pose proof (finishes_within_le _ _ _ Hfin) as Hd.
        cbn [returncode stderr].
        destruct (Z.eqb_spec (exit_status p) 0) as [Hz|Hnz]; cbn [negb].
        -- wsimpl.
           destruct (Fs.stat (fs_at p d) (cwd env) abs_backup) as [st|e];
             (eexists _, _; split; [done|]; wsimpl; split; [lia|];
              intros ? p' [= <-]; rewrite Hprog; intros [= <-];
              split; [done|]; split; [by rewrite Hfin|];
              intros d' _ Hne; by destruct Hne).
        -- eexists false, _. split; [done|]. wsimpl. split; [lia|].
           intros ? p' [= <-]. rewrite Hprog. intros [= <-].
           split; [done|]. split; [by rewrite Hfin|]. done.
      * eexists false, _. split; [done|]. wsimpl. split; [lia|].
        intros ? p' [= <-]. rewrite Hprog. intros [= <-].
        split; [done|]. split; [|by rewrite Hfin].
        intros _. repeat split. lia.
  - pose proof (quiet_Path_mkdir_parents (PurePath.parent abs_backup))
      as (_ & _ & Hw).
    apply Hw in Hmk as Hwait. change (waited w1) with (waited w) in Hwait.
    eexists false, _. split; [done|]. wsimpl. split; [lia|]. by intros.
Qed.

Lemma attach_timeout_and_exit_status_witness :
  (exists b w',
     Backup.backup_with_attach "/data/a.db" "/tmp/out.duckdb"
       Sample.env_hanging Sample.w0 = (Ok b, w')
     /\ (waited w' <= 0 + 3600)%Z
     /\ b = false
     /\ logs w' = [(INFO, MsgAttachStart "/data/a.db" "/tmp/out.duckdb");
                   (ERROR, MsgAttachError TimeoutExpired)]
     /\ waited w' = 3600%Z)
  /\ (exists b w',
        Backup.backup_with_attach "/data/a.db" "/tmp/out.duckdb"
          Sample.env_failing Sample.w0 = (Ok b, w')
        /\ b = false
        /\ logs w' = [(INFO, MsgAttachStart "/data/a.db" "/tmp/out.duckdb");
                      (ERROR, MsgAttachFailed "IO Error: cannot open file")]).
Proof.
  split.
  - destruct (attach_timeout_and_exit_status "/data/a.db" "/tmp/out.duckdb"
                Sample.env_hanging Sample.w0)
      as (b & w' & Hrun & Hwait & Hcases).
    exists b, w'. split; [exact Hrun|]. split; [exact Hwait|].
    destruct (Hcases _ _ eq_refl eq_refl) as (_ & Htimeout & _).
    destruct (Htimeout eq_refl) as (Hb & Hlogs & Hw).
    split; [exact Hb|]. split; [exact Hlogs|exact Hw].
  - destruct (attach_timeout_and_exit_status "/data/a.db" "/tmp/out.duckdb"
                Sample.env_failing Sample.w0)
      as (b & w' & Hrun & _ & Hcases).
    exists b, w'. split; [exact Hrun|].
    destruct (Hcases _ _ eq_refl eq_refl) as (_ & _ & Hexit).
    destruct (Hexit 2%Z eq_refl) as (Hb & Hlogs); [discriminate|].
    split; [exact Hb|exact Hlogs].
Defined.

(** ** The trace of mutating calls only grows *)

Lemma grows_keeps {A} (m : M A) : keeps trace m -> grows m.
Proof.
  intros Hk env w r w' H. exists []. rewrite app_nil_r. by eapply Hk.
Qed.

Lemma grows_bind {A B} (m : M A) (f : A -> M B) :
  grows m -> (forall a, grows (f a)) -> grows (bind m f).
Proof.
  intros Hm Hf env w r w' H. rewrite bind_run in H.
  destruct (m env w) as [[a|e] w1] eqn:E.
  - destruct (Hm _ _ _ _ E) as [r1 H1]. destruct (Hf _ _ _ _ _ H) as [r2 H2].
    exists (r1 ++ r2). by rewrite H2, H1, app_assoc.
  - simplify_eq. eauto.
Qed.

Lemma grows_try_except {A} (body : M A) handler :
  grows body -> (forall e, grows (handler e)) -> grows (try_except body handler).
Proof.
  intros Hm Hf env w r w' H. rewrite try_except_run in H.
  destruct (body env w) as [[a|e] w1] eqn:E.
  - simplify_eq. eauto.
  - destruct (Hm _ _ _ _ E) as [r1 H1]. destruct (Hf _ _ _ _ _ H) as [r2 H2].
    exists (r1 ++ r2). by rewrite H2, H1, app_assoc.
Qed.

Lemma grows_ret {A} (a : A) : grows (ret a).
Proof. apply grows_keeps, keeps_ret. Qed.

Lemma grows_raise {A} e : grows (@raise A e).
Proof. apply grows_keeps, keeps_raise. Qed.

Lemma grows_Path_is_dir p : grows (Path_is_dir p).
Proof.
  intros env w r w' H. rewrite Path_is_dir_run in H. simplify_eq.
  exists []. by rewrite app_nil_r.
Qed.

Lemma grows_os_mkdir p : grows (os_mkdir p).
Proof.
  intros env w r w' H. rewrite os_mkdir_run in H.
  destruct (Fs.mkdir _ _ _); simplify_eq; by eexists.
Qed.

Lemma grows_exist_ok p e :
  grows (do d <- Path_is_dir p; if d then ret tt else raise e).
Proof.
  apply grows_bind; [apply grows_Path_is_dir|].
  intros []; [apply grows_ret|apply grows_raise].
Qed.

Lemma grows_Path_mkdir p : grows (Path_mkdir p).
Proof.
  unfold Path_mkdir. apply grows_try_except; [apply grows_os_mkdir|].
  intros e. destruct e; try apply grows_raise; apply grows_exist_ok.
Qed.

Lemma grows_Path_mkdir_parents_aux a rparts :
  grows (Path_mkdir_parents_aux a rparts).
Proof.
  induction rparts as [|c init IH]; rewrite Path_mkdir_parents_aux_unfold;
    cbn zeta; (apply grows_try_except; [apply grows_os_mkdir|]); intros e;
    destruct e; try apply grows_raise; try apply grows_exist_ok.
  apply grows_bind; [exact IH|]. intros _. apply grows_Path_mkdir.
Qed.

(** [mkdir(parents=True, exist_ok=True)] asks for the directory itself
    first. *)
Lemma Path_mkdir_parents_trace p env w r w' :
  Path_mkdir_parents p env w = (r, w') ->
  exists rest, trace w' = trace w ++ SysMkdir p :: rest.
Proof.
  unfold Path_mkdir_parents.
  rewrite Path_mkdir_parents_aux_unfold, path_eta. cbn zeta.
  rewrite try_except_run, os_mkdir_run.
  destruct (Fs.mkdir _ _ _) as [f|e].
  - intros [= <- <-]. by exists [].
  - intros H.
    assert (exists rest,
              trace w' = trace (add_trace w (SysMkdir p)) ++ rest)
      as [rest Hrest].
    { destruct e; revert H;
        try apply grows_exist_ok; try apply grows_raise.
      destruct (rev (PurePath.parts p)) as [|c init].
      - apply grows_raise.
      - apply grows_bind;
          [apply grows_Path_mkdir_parents_aux|intros _; apply grows_Path_mkdir]. }
    exists rest. rewrite Hrest. wsimpl. by rewrite <- app_assoc.
Qed.

(** When it returns, the directory is there. *)
Lemma os_mkdir_ok_is_dir p env w w' :
  os_mkdir p env w = (Ok tt, w') -> is_dir_at (fs w') (cwd env) p = true.
Proof.
  rewrite os_mkdir_run. unfold Fs.mkdir.
  destruct (Fs.resolve (fs w) (cwd env) p) as [k|] eqn:Hr; [|done].
  destruct (fs w !! k) eqn:Hk; [done|].
  destruct (Fs.check_dir_writable _ _); [|done].
  intros [= <-]. unfold is_dir_at. wsimpl.
  by rewrite (stat_after_write _ _ _ _ _ Hr Hk).
Qed.

Lemma exist_ok_is_dir p e env w w' :
  (do d <- Path_is_dir p; if d then ret tt else raise e) env w = (Ok tt, w') ->
  is_dir_at (fs w') (cwd env) p = true.
Proof.
  rewrite bind_run, Path_is_dir_run.
  destruct (is_dir_at (fs w) (cwd env) p) eqn:E; [|done].
  by intros [= <-].
Qed.

Lemma Path_mkdir_ok_is_dir p env w w' :
  Path_mkdir p env w = (Ok tt, w') -> is_dir_at (fs w') (cwd env) p = true.
Proof.
  unfold Path_mkdir. rewrite try_except_run.
  destruct (os_mkdir p env w) as [[[]|e] w1] eqn:Hmk.
  - intros [= <-]. by eapply os_mkdir_ok_is_dir.
  - destruct e; try done; apply exist_ok_is_dir.
Qed.

Lemma Path_mkdir_parents_ok_is_dir p env w w' :
  Path_mkdir_parents p env w = (Ok tt, w') ->
  is_dir_at (fs w') (cwd env) p = true.
Proof.
  unfold Path_mkdir_parents.
  rewrite Path_mkdir_parents_aux_unfold, path_eta. cbn zeta.
  rewrite try_except_run.
  destruct (os_mkdir p env w) as [[[]|e] w1] eqn:Hmk.
  - intros [= <-]. by eapply os_mkdir_ok_is_dir.
  - destruct e; try done; try apply exist_ok_is_dir.
    destruct (rev (PurePath.parts p)) as [|c init]; [done|].
    intros (? & w2 & _ & H)%bind_ok_inv.
    by eapply Path_mkdir_ok_is_dir.
Qed.

(** C10. When the native-export strategy returns success, the destination
    path exists at that moment: its size has just been read by [stat] and
    logged. A client that exits with status 0 and leaves nothing at the
    destination makes the strategy fail. The strategy never looks at the
    source: also when the source does not exist, it asks for the
    destination's directory, which exists once [mkdir] has returned, and
    starts the client. *)
Theorem attach_checks_destination_not_source db_path backup_path env w :
  let abs_db := absolute (cwd env) (PurePath.of_string db_path) in
  let abs_backup := absolute (cwd env) (PurePath.of_string backup_path) in
  let sql := Backup.sql_commands abs_db abs_backup in
  let w1 := add_log w INFO (MsgAttachStart db_path backup_path) in
  exists b w',
    Backup.backup_with_attach db_path backup_path env w = (Ok b, w')
    /\ (b = true ->
        exists st,
          Fs.stat (fs w') (cwd env) abs_backup = Ok st
          /\ last (logs w') = Some (INFO, MsgAttachCompleted (Fs.st_size st)))
    /\ (forall w2 p d,
          Path_mkdir_parents (PurePath.parent abs_backup) env w1 = (Ok tt, w2) ->
          programs env ["duckdb"] sql (cwd env) (fs w2) = inr p ->
          finishes_within p 3600 = Some d ->
          exit_status p = 0%Z ->
          exists_at (fs_at p d) (cwd env) abs_backup = false ->
          b = false /\ error_logged_last w')
    /\ (forall w2,
          exists_at (fs w) (cwd env) (PurePath.of_string db_path) = false ->
          Path_mkdir_parents (PurePath.parent abs_backup) env w1 = (Ok tt, w2) ->
          is_dir_at (fs w2) (cwd env) (PurePath.parent abs_backup) = true
          /\ exists rest,
               trace w' = trace w ++ SysMkdir (PurePath.parent abs_backup)
                                  :: rest ++ [SysSpawn ["duckdb"] sql 3600]).
Proof.
  intros abs_db abs_backup sql w1.
  rewrite backup_with_attach_run. fold abs_db abs_backup sql w1.
  destruct (Path_mkdir_parents _ env w1) as [[[]|e] w2] eqn:Hmk.
  - pose proof (Path_mkdir_parents_ok_is_dir _ _ _ _ Hmk) as Hdir.
    destruct (Path_mkdir_parents_trace _ _ _ _ _ Hmk) as [rest Hrest].
    change (trace w1) with (trace w) in Hrest.
    assert (forall w2',
              exists_at (fs w) (cwd env) (PurePath.of_string db_path) = false ->
              (Ok (), w2) = (Ok (), w2') ->
              is_dir_at (fs w2') (cwd env) (PurePath.parent abs_backup) = true
              /\ exists rest',
                   trace w2 ++ [SysSpawn ["duckdb"] sql 3600]
                   = trace w ++ SysMkdir (PurePath.parent abs_backup)
                             :: rest' ++ [SysSpawn ["duckdb"] sql 3600])
      as Hspawned.
    { intros w2' _ [= <-]. split; [done|]. exists rest.
      rewrite Hrest, <- app_assoc. reflexivity. }
    rewrite subprocess_run_run. cbn zeta.
    destruct (programs env _ sql _ _) as [e|p] eqn:Hprog.
    + eexists false, _. split; [done|]. split; [done|].
      split; [by intros ? ? ? [= <-]; rewrite Hprog|]. exact Hspawned.
    + destruct (finishes_within p 3600) as [d|] eqn:Hfin.
      * cbn [returncode stderr].
        destruct (Z.eqb_spec (exit_status p) 0) as [Hz|Hnz]; cbn [negb].
        -- wsimpl.
           destruct (Fs.stat (fs_at p d) (cwd env) abs_backup) as [st|e] eqn:Hst.
           ++ eexists true, _. split; [done|]. wsimpl. split.
              { intros _. exists st. split; [done|]. apply last_snoc. }
              split; [|exact Hspawned].
              intros ? p' d' [= <-]. rewrite Hprog. intros [= <-].
              rewrite Hfin. intros [= <-] _. unfold exists_at.
              by rewrite Hst.
           ++ eexists false, _. split; [done|]. split; [done|].
              split; [|exact Hspawned].
              intros. split; [done|]. apply error_logged_last_add_log.
        -- eexists false, _. split; [done|]. split; [done|].
           split; [|exact Hspawned].
           intros ? p' d' [= <-]. rewrite Hprog. by intros [= <-].
      * eexists false, _. split; [done|]. split; [done|].
        split; [|exact Hspawned].
        intros ? p' d' [= <-]. rewrite Hprog. intros [= <-]. by rewrite Hfin.
  - eexists false, _. split; [done|]. split; [done|]. split; by intros.
Qed.

Lemma attach_checks_destination_not_source_witness :
  (exists b w',
     Backup.backup_with_attach "/data/none.db" "/tmp/new/out.duckdb"
       Sample.env_idle Sample.w0 = (Ok b, w')
     /\ b = false
     /\ error_logged_last w'
     /\ is_dir_at (fs w') ["data"] (PurePath.of_string "/tmp/new") = true
     /\ exists rest,
          trace w' = [] ++ SysMkdir (PurePath.of_string "/tmp/new")
                        :: rest
                        ++ [SysSpawn ["duckdb"]
                              (Backup.sql_commands
                                 (PurePath.of_string "/data/none.db")
                                 (PurePath.of_string "/tmp/new/out.duckdb"))
                              3600])
  /\ (exists w' st,
        Backup.backup_with_attach "/data/a.db" "/tmp/out.duckdb"
          Sample.env_exporting Sample.w0 = (Ok true, w')
        /\ Fs.stat (fs w') ["data"] (PurePath.of_string "/tmp/out.duckdb")
           = Ok st
        /\ last (logs w') = Some (INFO, MsgAttachCompleted (Fs.st_size st))).
Proof.
  split.
  - destruct (attach_checks_destination_not_source "/data/none.db"
                "/tmp/new/out.duckdb" Sample.env_idle Sample.w0)
      as (b & w' & Hrun & _ & Hidle & Hnosrc).
    exists b, w'. split; [exact Hrun|].
    destruct (Hidle _ _ _ eq_refl eq_refl eq_refl eq_refl eq_refl)
      as [Hb Herr].
    destruct (Hnosrc _ eq_refl eq_refl) as [_ Htrace].
    split; [exact Hb|]. split; [exact Herr|]. split; [|exact Htrace].
    vm_compute in Hrun. injection Hrun as _ <-. reflexivity.
  - destruct (attach_checks_destination_not_source "/data/a.db"
                "/tmp/out.duckdb" Sample.env_exporting Sample.w0)
      as (b & w' & Hrun & Hok & _ & _).
    assert (b = true) as ->.
    { vm_compute in Hrun. by injection Hrun as <- _. }
    destruct (Hok eq_refl) as (st & Hst & Hlog).
    exists w', st. split; [exact Hrun|]. split; [exact Hst|exact Hlog].
Defined.

(** ** Errors become [False] *)

(** The copy strategy, call by call. *)
Lemma backup_with_cp_run db_path backup_path env w :
  let source := PurePath.of_string db_path in
  let dest := PurePath.of_string backup_path in
  let w1 := add_log w INFO (MsgCpStart db_path backup_path) in
  Backup.backup_with_cp db_path backup_path env w =
  if exists_at (fs w) (cwd env) source then
    match Path_mkdir_parents (PurePath.parent dest) env w1 with
    | (Raise e, w2) => (Ok false, add_log w2 ERROR (MsgCpError e))
    | (Ok _, w2) =>
        match (if exists_at (fs w2) (cwd env) dest
               then Path_unlink dest env
                      (add_log w2 WARNING (MsgOverwriting backup_path))
               else (Ok tt, w2)) with
        | (Raise e, w3) => (Ok false, add_log w3 ERROR (MsgCpError e))
        | (Ok _, w3) =>
            match shutil_copy2 source dest env w3 with
            | (Raise e, w4) => (Ok false, add_log w4 ERROR (MsgCpError e))
            | (Ok _, w4) =>
                match Fs.stat (fs w4) (cwd env) dest with
                | Ok st =>
                    (Ok true,
                     add_log w4 INFO (MsgCpCompleted (Fs.st_size st)))
                | Raise e => (Ok false, add_log w4 ERROR (MsgCpError e))
                end
            end
        end
    end
  else (Ok false, add_log w1 ERROR (MsgSourceNotFound db_path)).
Proof.
  intros source dest w1.
  unfold Backup.backup_with_cp, logger_info, logger_warning, logger_error.
  fold source dest.
  rewrite bind_run, log_run, try_except_run, bind_run, Path_exists_run.
  fold w1. change (fs w1) with (fs w).
  destruct (exists_at (fs w) (cwd env) source); cbn [negb]; [|done].
  rewrite bind_run.
  destruct (Path_mkdir_parents _ env w1) as [[[]|e] w2]; [|done].
  rewrite bind_run, Path_exists_run, bind_run.
  destruct (exists_at (fs w2) (cwd env) dest).
  - rewrite bind_run, log_run.
    destruct (Path_unlink dest env _) as [[[]|e] w3]; [|done].
    rewrite bind_run.
    destruct (shutil_copy2 source dest env w3) as [[[]|e] w4]; [|done].
    rewrite bind_run. unfold Path_stat, observe.
    by destruct (Fs.stat _ _ _).
  - cbn [ret]. rewrite bind_run.
    destruct (shutil_copy2 source dest env w2) as [[[]|e] w4]; [|done].
    rewrite bind_run. unfold Path_stat, observe.
    by destruct (Fs.stat _ _ _).
Qed.

(** C8 (amended). Each backup strategy returns a Boolean whatever the
    input and the state of the world: no exception reaches the caller. It
    returns [True] only when every call it makes has returned normally
    (for the copy strategy: the source exists, [mkdir], [unlink] when
    there is something to remove, [copy2] and the final [stat]; for the
    native-export strategy: [mkdir], [subprocess.run] with exit status 0,
    and the final [stat]); so whenever one of them raises, the strategy
    returns [False], and [False] is only ever returned right after an
    error has been logged. Once its arguments are accepted, the process
    therefore exits with status 0 or 1. *)
Theorem strategies_never_raise db_path backup_path env w :
  let source := PurePath.of_string db_path in
  let dest := PurePath.of_string backup_path in
  let abs_db := absolute (cwd env) source in
  let abs_backup := absolute (cwd env) dest in
  let sql := Backup.sql_commands abs_db abs_backup in
  (exists b w',
     Backup.backup_with_cp db_path backup_path env w = (Ok b, w')
     /\ (b = false -> error_logged_last w')
     /\ (b = true ->
         exists_at (fs w) (cwd env) source = true
         /\ exists w2 w3 w4 st,
              Path_mkdir_parents (PurePath.parent dest) env
                (add_log w INFO (MsgCpStart db_path backup_path))
              = (Ok tt, w2)
              /\ (if exists_at (fs w2) (cwd env) dest
                  then Path_unlink dest env
                         (add_log w2 WARNING (MsgOverwriting backup_path))
                  else (Ok tt, w2)) = (Ok tt, w3)
              /\ shutil_copy2 source dest env w3 = (Ok tt, w4)
              /\ Fs.stat (fs w4) (cwd env) dest = Ok st))
  /\ (exists b w',
        Backup.backup_with_attach db_path backup_path env w = (Ok b, w')
        /\ (b = false -> error_logged_last w')
        /\ (b = true ->
            exists w2 result w3 st,
              Path_mkdir_parents (PurePath.parent abs_backup) env
                (add_log w INFO (MsgAttachStart db_path backup_path))
              = (Ok tt, w2)
              /\ subprocess_run ["duckdb"] sql 3600 env w2 = (Ok result, w3)
              /\ returncode result = 0%Z
              /\ Fs.stat (fs w3) (cwd env) abs_backup = Ok st))
  /\ (forall argv args,
        Backup.parse_args argv = Backup.Parsed args ->
        exists code w',
          Backup.main argv env w = (Ok code, w')
          /\ (code = 0 \/ code = 1)%Z).
Proof.
  intros source dest abs_db abs_backup sql. split; [|split].
  - (* the copy strategy *)
    rewrite backup_with_cp_run. fold source dest.
    destruct (exists_at (fs w) (cwd env) source) eqn:Hsrc.
    2:{ eexists _, _. split; [reflexivity|].
        split; [intros _; apply error_logged_last_add_log|done]. }
    destruct (Path_mkdir_parents _ env _) as [[[]|e] w2] eqn:Hmk.
    2:{ eexists _, _. split; [reflexivity|].
        split; [intros _; apply error_logged_last_add_log|done]. }
    destruct (if exists_at (fs w2) (cwd env) dest
              then Path_unlink dest env _ else (Ok tt, w2))
      as [[[]|e] w3] eqn:Hun.
    2:{ eexists _, _. split; [reflexivity|].
        split; [intros _; apply error_logged_last_add_log|done]. }
    destruct (shutil_copy2 source dest env w3) as [[[]|e] w4] eqn:Hcp.
    2:{ eexists _, _. split; [reflexivity|].
        split; [intros _; apply error_logged_last_add_log|done]. }
    destruct (Fs.stat (fs w4) (cwd env) dest) as [st|e] eqn:Hst.
    + eexists _, _. split; [reflexivity|]. split; [done|].
      intros _. split; [done|]. by exists w2, w3, w4, st.
    + eexists _, _. split; [reflexivity|].
      split; [intros _; apply error_logged_last_add_log|done].
  - (* the native-export strategy *)
    rewrite backup_with_attach_run. cbn zeta.
    fold source dest abs_db abs_backup sql.
    destruct (Path_mkdir_parents _ env _) as [[[]|e] w2] eqn:Hmk.
    2:{ eexists _, _. split; [reflexivity|].
        split; [intros _; apply error_logged_last_add_log|done]. }
    destruct (subprocess_run _ _ _ env w2) as [[result|e] w3] eqn:Hsub.
    2:{ eexists _, _. split; [reflexivity|].
        split; [intros _; apply error_logged_last_add_log|done]. }
    destruct (returncode result =? 0)%Z eqn:Hcode; cbn [negb].
    2:{ eexists _, _. split; [reflexivity|].
        split; [intros _; apply error_logged_last_add_log|done]. }
    apply Z.eqb_eq in Hcode.
    destruct (Fs.stat (fs w3) (cwd env) abs_backup) as [st|e] eqn:Hst.
    + eexists _, _. split; [reflexivity|]. split; [done|].
      intros _. by exists w2, result, w3, st.
    + eexists _, _. split; [reflexivity|].
      split; [intros _; apply error_logged_last_add_log|done].
  - (* the process *)
    intros argv args Hparse. unfold Backup.main. rewrite Hparse.
    unfold Backup.main_body.
    destruct (Backup.timestamp args).
    + rewrite bind_run.
      destruct (create_timestamped_backup_total (Backup.db args)
                  (Backup.backup args) (Backup.method args) env w)
        as (s & w1 & ->).
      destruct (Backup.truthy s).
      * eexists _, _. split; [reflexivity|]. by left.
      * eexists _, _. split; [reflexivity|]. by right.
    + rewrite bind_run.
      destruct (String.eqb (Backup.method args) "cp").
      * destruct (backup_with_cp_total (Backup.db args) (Backup.backup args)
                    env w) as ([] & w1 & ->);
          eexists _, _; (split; [reflexivity|]); auto.
      * destruct (backup_with_attach_total (Backup.db args)
                    (Backup.backup args) env w) as ([] & w1 & ->);
          eexists _, _; (split; [reflexivity|]); auto.
Qed.

Lemma strategies_never_raise_witness :
  (exists w',
     Backup.backup_with_cp "/data/a.db" "/srv/out.db" Sample.env0 Sample.w0
     = (Ok false, w')
     /\ error_logged_last w')
  /\ (exists w',
        Backup.backup_with_attach "/data/a.db" "/tmp/out.duckdb"
          Sample.env_failing Sample.w0 = (Ok false, w')
        /\ error_logged_last w')
  /\ (exists w' w4 st,
        Backup.backup_with_cp "/data/a.db" "/tmp/out.db" Sample.env0 Sample.w0
        = (Ok true, w')
        /\ shutil_copy2 (PurePath.of_string "/data/a.db")
             (PurePath.of_string "/tmp/out.db") Sample.env0
             (add_trace
                (add_log Sample.w0 INFO (MsgCpStart "/data/a.db" "/tmp/out.db"))
                (SysMkdir (PurePath.of_string "/tmp")))
           = (Ok tt, w4)
        /\ Fs.stat (fs w4) ["data"] (PurePath.of_string "/tmp/out.db") = Ok st)
  /\ (exists code w',
        Backup.main [Backup.ArgDb "/data/a.db"; Backup.ArgBackup "/srv/out.db"]
          Sample.env0 Sample.w0 = (Ok code, w')
        /\ (code = 0 \/ code = 1)%Z).
Proof.
  split; [|split; [|split]].
  - destruct (strategies_never_raise "/data/a.db" "/srv/out.db"
                Sample.env0 Sample.w0)
      as ((b & w' & Hrun & Hfalse & _) & _ & _).
    assert (b = false) as ->.
    { vm_compute in Hrun. by injection Hrun as <- _. }
    exists w'. split; [exact Hrun|exact (Hfalse eq_refl)].
  - destruct (strategies_never_raise "/data/a.db" "/tmp/out.duckdb"
                Sample.env_failing Sample.w0)
      as (_ & (b & w' & Hrun & Hfalse & _) & _).
    assert (b = false) as ->.
    { vm_compute in Hrun. by injection Hrun as <- _. }
    exists w'. split; [exact Hrun|exact (Hfalse eq_refl)].
  - destruct (strategies_never_raise "/data/a.db" "/tmp/out.db"
                Sample.env0 Sample.w0)
      as ((b & w' & Hrun & _ & Htrue) & _ & _).
    assert (b = true) as ->.
    { vm_compute in Hrun. by injection Hrun as <- _. }
    destruct (Htrue eq_refl) as (_ & w2 & w3 & w4 & st & Hmk & Hun & Hcp & Hst).
    vm_compute in Hmk. injection Hmk as <-.
    vm_compute in Hun. injection Hun as <-.
    exists w', w4, st. split; [exact Hrun|]. split; [|exact Hst].
    rewrite <- Hcp. reflexivity.
  - destruct (strategies_never_raise "/data/a.db" "/srv/out.db"
                Sample.env0 Sample.w0) as (_ & _ & Hmain).
    exact (Hmain
             [Backup.ArgDb "/data/a.db"; Backup.ArgBackup "/srv/out.db"]
             (Backup.mk_args "/data/a.db" "/srv/out.db" "cp" false)
             eq_refl).
Defined.

(** C8 as stated fails in its last clause: a command line the argument
    parser refuses ends the process with status 2, neither 0 nor 1, before
    either strategy has run. *)
Lemma process_exit_status_can_be_2 :
  Backup.main [Backup.ArgTimestamp; Backup.ArgMethod "attach"]
    Sample.env_exporting Sample.w0
  = (Ok 2%Z, Sample.w0)
  /\ (2 <> 0 /\ 2 <> 1)%Z.
Proof. split; [reflexivity|]. split; discriminate. Qed.

(** * Further properties of the script *)

(** ** Creating directories never disturbs what exists *)

Lemma only_adds_dirs_refl f : only_adds_dirs f f.
Proof. intros k. by left. Qed.

Lemma only_adds_dirs_trans f1 f2 f3 :
  only_adds_dirs f1 f2 -> only_adds_dirs f2 f3 -> only_adds_dirs f1 f3.
Proof.
  intros H12 H23 k.
  destruct (H12 k) as [E12|[N1 [b2 D2]]], (H23 k) as [E23|[N2 [b3 D3]]].
  - left. congruence.
  - right. split; [congruence|eauto].
  - right. split; [done|]. exists b2. congruence.
  - congruence.
Qed.

Lemma only_adds_dirs_lookup f f' k n :
  only_adds_dirs f f' -> f !! k = Some n -> f' !! k = Some n.
Proof. intros H Hk. destruct (H k) as [E|[N _]]; congruence. Qed.

Lemma only_adds_dirs_kept f f' : only_adds_dirs f f' -> dirs_kept f f'.
Proof. intros H k b Hk. by eapply only_adds_dirs_lookup. Qed.

(** A computation whose only effect on the file system is to add
    directories. *)
Lemma os_mkdir_only_adds p env w r w' :
  os_mkdir p env w = (r, w') -> only_adds_dirs (fs w) (fs w').
Proof.
  rewrite os_mkdir_run. unfold Fs.mkdir.
  destruct (Fs.resolve (fs w) (cwd env) p) as [k|];
    [|intros [= <- <-]; apply only_adds_dirs_refl].
  destruct (fs w !! k) eqn:Hk;
    [intros [= <- <-]; apply only_adds_dirs_refl|].
  destruct (Fs.check_dir_writable _ _);
    [|intros [= <- <-]; apply only_adds_dirs_refl].
  intros [= <- <-]. wsimpl. intros k'.
  destruct (decide (k = k')) as [<-|Hne].
  - right. split; [done|]. eexists. apply lookup_insert_eq.
  - left. by apply lookup_insert_ne.
Qed.

Lemma exist_ok_same_fs p e env w r w' :
  (do d <- Path_is_dir p; if d then ret tt else raise e) env w = (r, w') ->
  fs w' = fs w.
Proof.
  rewrite bind_run, Path_is_dir_run.
  destruct (is_dir_at _ _ _); by intros [= <- <-].
Qed.

Lemma Path_mkdir_only_adds p env w r w' :
  Path_mkdir p env w = (r, w') -> only_adds_dirs (fs w) (fs w').
Proof.
  unfold Path_mkdir. rewrite try_except_run.
  destruct (os_mkdir p env w) as [[[]|e] w1] eqn:Hmk.
  - intros [= <- <-]. by eapply os_mkdir_only_adds.
  - apply os_mkdir_only_adds in Hmk. intros H.
    assert (fs w' = fs w1) as ->; [|done].
    destruct e; try (by injection H as <- <-);
      by apply exist_ok_same_fs in H.
Qed.

Lemma Path_mkdir_parents_aux_only_adds a rparts env w r w' :
  Path_mkdir_parents_aux a rparts env w = (r, w') ->
  only_adds_dirs (fs w) (fs w').
Proof.
  revert env w r w'. induction rparts as [|c init IH]; intros env w r w';
    rewrite Path_mkdir_parents_aux_unfold; cbn zeta; rewrite try_except_run;
    match goal with |- context [os_mkdir ?p env w] =>
      destruct (os_mkdir p env w) as [[[]|e] w1] eqn:Hmk end;
    try (intros [= <- <-]; by eapply os_mkdir_only_adds);
    apply os_mkdir_only_adds in Hmk; intros H.
  - assert (fs w' = fs w1) as ->; [|done].
    destruct e; try (by injection H as <- <-);
      by apply exist_ok_same_fs in H.
  - destruct e;
      try (assert (fs w' = fs w1) as ->;
           [by apply exist_ok_same_fs in H|done]).
    rewrite bind_run in H.
    destruct (Path_mkdir_parents_aux a init env w1) as [[[]|e] w2] eqn:Hrec.
    + apply IH in Hrec. apply Path_mkdir_only_adds in H.
      eauto using only_adds_dirs_trans.
    + apply IH in Hrec. injection H as <- <-.
      eauto using only_adds_dirs_trans.
Qed.

Lemma Path_mkdir_parents_only_adds p env w r w' :
  Path_mkdir_parents p env w = (r, w') -> only_adds_dirs (fs w) (fs w').
Proof. apply Path_mkdir_parents_aux_only_adds. Qed.

(** ** Native export: when it succeeds, and when the client is missing *)

(** X1. The native-export strategy returns [True] exactly when the
    destination's directory could be ensured, the client was started,
    exited within the timeout with status 0, and the destination path
    exists on the file system it left. *)
Theorem attach_succeeds_iff db_path backup_path env w :
  let abs_db := absolute (cwd env) (PurePath.of_string db_path) in
  let abs_backup := absolute (cwd env) (PurePath.of_string backup_path) in
  let sql := Backup.sql_commands abs_db abs_backup in
  let w1 := add_log w INFO (MsgAttachStart db_path backup_path) in
  fst (Backup.backup_with_attach db_path backup_path env w) = Ok true
  <->
  exists w2 p d st,
    Path_mkdir_parents (PurePath.parent abs_backup) env w1 = (Ok tt, w2)
    /\ programs env ["duckdb"] sql (cwd env) (fs w2) = inr p
    /\ finishes_within p 3600 = Some d
    /\ exit_status p = 0%Z
    /\ Fs.stat (fs_at p d) (cwd env) abs_backup = Ok st.
Proof.
  intros abs_db abs_backup sql w1.
  rewrite backup_with_attach_run. fold abs_db abs_backup sql w1.
  destruct (Path_mkdir_parents _ env w1) as [[[]|e] w2] eqn:Hmk.
  - rewrite subprocess_run_run. cbn zeta.
    destruct (programs env _ sql _ _) as [e|p] eqn:Hprog.
    + split; [done|]. intros (? & ? & ? & ? & [= <-] & Hp & _).
      by rewrite Hprog in Hp.
    + destruct (finishes_within p 3600) as [d|] eqn:Hfin.
      * cbn [returncode stderr].
        destruct (Z.eqb_spec (exit_status p) 0) as [Hz|Hnz]; cbn [negb].
        -- wsimpl.
           destruct (Fs.stat (fs_at p d) (cwd env) abs_backup) as [st|e] eqn:Hst.
           ++ split; [|done]. intros _. by exists w2, p, d, st.
           ++ split; [done|].
              intros (? & p' & d' & st' & [= <-] & Hp & Hd & _ & Hs).
              rewrite Hprog in Hp. injection Hp as <-.
              rewrite Hfin in Hd. injection Hd as <-. by rewrite Hst in Hs.
        -- split; [done|].
           intros (? & p' & ? & ? & [= <-] & Hp & _ & Hz & _).
           rewrite Hprog in Hp. by injection Hp as <-.
      * split; [done|].
        intros (? & p' & ? & ? & [= <-] & Hp & Hd & _).
        rewrite Hprog in Hp. injection Hp as <-. by rewrite Hfin in Hd.
  - split; [done|]. by intros (? & ? & ? & ? & [=] & _).
Qed.

Lemma attach_succeeds_iff_witness :
  fst (Backup.backup_with_attach "/data/a.db" "/tmp/out.duckdb"
         Sample.env_exporting Sample.w0) = Ok true.
Proof.
  apply (attach_succeeds_iff "/data/a.db" "/tmp/out.duckdb"
           Sample.env_exporting Sample.w0).
  eexists _, _, 5%Z, _.
  split; [exact eq_refl|]. split; [exact eq_refl|].
  split; [exact eq_refl|]. split; exact eq_refl.
Defined.

(** X2. When the [duckdb] client cannot be started (it is not installed,
    say), the native-export strategy returns failure right after logging
    the error, without waiting. Nothing that existed on the file system is
    changed or removed, but the directories made for the destination stay
    behind: the file system is left exactly as [mkdir] left it, so that
    the destination's directory exists whenever [mkdir] succeeded. *)
Theorem attach_client_cannot_start db_path backup_path env w :
  let abs_backup := absolute (cwd env) (PurePath.of_string backup_path) in
  let w1 := add_log w INFO (MsgAttachStart db_path backup_path) in
  (forall input c f, exists e, programs env ["duckdb"] input c f = inl e) ->
  exists w',
    Backup.backup_with_attach db_path backup_path env w = (Ok false, w')
    /\ error_logged_last w'
    /\ only_adds_dirs (fs w) (fs w')
    /\ waited w' = waited w
    /\ (forall r w2,
          Path_mkdir_parents (PurePath.parent abs_backup) env w1 = (r, w2) ->
          fs w' = fs w2
          /\ (r = Ok tt ->
              is_dir_at (fs w') (cwd env) (PurePath.parent abs_backup)
              = true)).
Proof.
  intros abs_backup w1 Hmissing. rewrite backup_with_attach_run. cbn zeta.
  fold abs_backup w1.
  destruct (Path_mkdir_parents _ env _) as [[[]|e] w2] eqn:Hmk.
  - pose proof (Path_mkdir_parents_only_adds _ _ _ _ _ Hmk) as Hadds.
    pose proof (quiet_Path_mkdir_parents (PurePath.parent abs_backup))
      as (_ & _ & Hw).
    apply Hw in Hmk as Hwait.
    rewrite subprocess_run_run. cbn zeta.
    match goal with |- context [programs env ?a ?i ?c ?f] =>
      destruct (Hmissing i c f) as [e ->] end.
    eexists. split; [done|]. split; [apply error_logged_last_add_log|].
    split; [done|]. split; [done|].
    intros r w2' [= <- <-]. split; [done|]. intros _. wsimpl.
    by apply (Path_mkdir_parents_ok_is_dir _ _ _ _ Hmk).
  - pose proof (Path_mkdir_parents_only_adds _ _ _ _ _ Hmk) as Hadds.
    pose proof (quiet_Path_mkdir_parents (PurePath.parent abs_backup))
      as (_ & _ & Hw).
    apply Hw in Hmk as Hwait.
    eexists. split; [done|]. split; [apply error_logged_last_add_log|].
    split; [done|]. split; [done|].
    by intros r w2' [= <- <-].
Qed.

Lemma attach_client_cannot_start_witness :
  exists w',
    Backup.backup_with_attach "/data/a.db" "/tmp/new/out.duckdb"
      Sample.env0 Sample.w0 = (Ok false, w')
    /\ error_logged_last w'
    /\ only_adds_dirs Sample.fs0 (fs w')
    /\ waited w' = 0%Z
    /\ is_dir_at Sample.fs0 ["data"] (PurePath.of_string "/tmp/new") = false
    /\ is_dir_at (fs w') ["data"] (PurePath.of_string "/tmp/new") = true.
Proof.
  destruct (attach_client_cannot_start "/data/a.db" "/tmp/new/out.duckdb"
              Sample.env0 Sample.w0)
    as (w' & Hrun & Herr & Hadds & Hwait & Hmk).
  { intros input c f. by exists FileNotFoundError. }
  exists w'. split; [exact Hrun|]. split; [exact Herr|].
  split; [exact Hadds|]. split; [exact Hwait|]. split; [reflexivity|].
  edestruct (Hmk (Ok tt)) as [_ Hdir]; [vm_compute; reflexivity|].
  exact (Hdir eq_refl).
Defined.

(** ** Required options and defaults *)

Lemma consume_without_db argv acc :
  Backup.p_db acc = None ->
  (forall v, Backup.ArgDb v ∉ argv) ->
  Backup.ArgHelp ∉ argv ->
  Backup.consume argv acc = Backup.ErrorExit.
Proof.
  revert acc. induction argv as [|a argv IH]; intros acc Hnone Hdb Hhelp.
  - simpl. by rewrite Hnone.
  - assert (forall v, Backup.ArgDb v ∉ argv) as Hdb'.
    { intros v Hin. apply (Hdb v). by right. }
    apply not_elem_of_cons in Hhelp as [Hne Hhelp].
    destruct a; simpl; try done; try (by apply IH).
    + exfalso. apply (Hdb v). by left.
    + case_bool_decide; [by apply IH|done].
Qed.

Lemma consume_without_backup argv acc :
  Backup.p_backup acc = None ->
  (forall v, Backup.ArgBackup v ∉ argv) ->
  Backup.ArgHelp ∉ argv ->
  Backup.consume argv acc = Backup.ErrorExit.
Proof.
  revert acc. induction argv as [|a argv IH]; intros acc Hnone Hbk Hhelp.
  - simpl. rewrite Hnone. by destruct (Backup.p_db acc).
  - assert (forall v, Backup.ArgBackup v ∉ argv) as Hbk'.
    { intros v Hin. apply (Hbk v). by right. }
    apply not_elem_of_cons in Hhelp as [Hne Hhelp].
    destruct a; simpl; try done; try (by apply IH).
    + exfalso. apply (Hbk v). by left.
    + case_bool_decide; [by apply IH|done].
Qed.

(** X3. [--db] and [--backup] are required: a command line lacking either
    (and not asking for help) ends with exit status 2 before any backup
    code runs: nothing is logged, printed or changed, whatever else the
    command line holds. *)
Theorem required_options_enforced argv env w :
  (forall v, Backup.ArgDb v ∉ argv) \/ (forall v, Backup.ArgBackup v ∉ argv) ->
  Backup.ArgHelp ∉ argv ->
  Backup.main argv env w = (Ok 2%Z, w).
Proof.
  intros Hmissing Hhelp. unfold Backup.main, Backup.parse_args.
  destruct Hmissing as [Hdb|Hbk].
  - by rewrite consume_without_db.
  - by rewrite consume_without_backup.
Qed.

Lemma required_options_enforced_witness :
  Backup.main
    [Backup.ArgBackup "/tmp/out.db"; Backup.ArgMethod "attach";
     Backup.ArgTimestamp] Sample.env_exporting Sample.w0
  = (Ok 2%Z, Sample.w0).
Proof.
  apply (required_options_enforced
           [Backup.ArgBackup "/tmp/out.db"; Backup.ArgMethod "attach";
            Backup.ArgTimestamp] Sample.env_exporting Sample.w0).
  - left. intros v. rewrite !not_elem_of_cons. repeat split; try done.
    apply not_elem_of_nil.
  - apply (bool_decide_unpack _). by vm_compute.
Defined.

Lemma consume_defaults argv acc args :
  Backup.consume argv acc = Backup.Parsed args ->
  (forall v, Backup.ArgMethod v ∉ argv) ->
  Backup.ArgTimestamp ∉ argv ->
  Backup.method args = Backup.p_method acc
  /\ Backup.timestamp args = Backup.p_timestamp acc.
Proof.
  revert acc. induction argv as [|a argv IH]; intros acc Hparse Hm Ht.
  - simpl in Hparse.
    destruct (Backup.p_db acc), (Backup.p_backup acc); try done.
    destruct (Backup.p_extras acc); [done|]. by injection Hparse as <-.
  - assert (forall v, Backup.ArgMethod v ∉ argv) as Hm'.
    { intros v Hin. apply (Hm v). by right. }
    apply not_elem_of_cons in Ht as [Hne Ht].
    destruct a; simpl in Hparse; try done;
      try (by apply (IH _ Hparse Hm' Ht)).
    exfalso. apply (Hm v). by left.
Qed.

(** X4. The defaults: an accepted command line with neither [--method] nor
    [--timestamp] runs the copy strategy from [--db] to the literal
    [--backup] path, and the exit status is 0 or 1 as it succeeds or
    fails. *)
Theorem default_is_plain_copy argv args env w :
  Backup.parse_args argv = Backup.Parsed args ->
  (forall v, Backup.ArgMethod v ∉ argv) ->
  Backup.ArgTimestamp ∉ argv ->
  exists success w',
    Backup.backup_with_cp (Backup.db args) (Backup.backup args) env w
    = (Ok success, w')
    /\ Backup.main argv env w = (Ok (if success then 0 else 1)%Z, w').
Proof.
  intros Hparse Hm Ht.
  destruct (consume_defaults _ _ _ Hparse Hm Ht) as [Hmethod Htime].
  simpl in Hmethod, Htime.
  destruct (backup_with_cp_total (Backup.db args) (Backup.backup args) env w)
    as (success & w' & Hrun).
  exists success, w'. split; [done|].
  unfold Backup.main. rewrite Hparse. unfold Backup.main_body.
  rewrite Htime, Hmethod. cbn [String.eqb Ascii.eqb Bool.eqb].
  by rewrite bind_run, Hrun.
Qed.

Lemma default_is_plain_copy_witness :
  exists success w',
    Backup.backup_with_cp "/data/a.db" "/tmp/out.db" Sample.env0 Sample.w0
    = (Ok success, w')
    /\ Backup.main [Backup.ArgBackup "/tmp/out.db"; Backup.ArgDb "/data/a.db"]
         Sample.env0 Sample.w0
       = (Ok (if success then 0 else 1)%Z, w').
Proof.
  apply (default_is_plain_copy
           [Backup.ArgBackup "/tmp/out.db"; Backup.ArgDb "/data/a.db"]
           (Backup.mk_args "/data/a.db" "/tmp/out.db" "cp" false)
           Sample.env0 Sample.w0).
  - reflexivity.
  - intros v. rewrite !not_elem_of_cons. repeat split; try done.
    apply not_elem_of_nil.
  - apply (bool_decide_unpack _). by vm_compute.
Defined.

(** ** What the mutating calls can have done *)

Tactic Notation "wsimpl" "in" hyp(H) :=
  cbn [fs cwd logs stdout trace waited add_log add_trace set_fs] in H.

Lemma Path_unlink_inv p env w r w' :
  Path_unlink p env w = (r, w') ->
  (exists e, r = Raise e /\ fs w' = fs w)
  \/ (r = Ok tt
      /\ exists k data meta,
           Fs.resolve (fs w) (cwd env) p = Ok k
           /\ fs w !! k = Some (Fs.File data meta)
           /\ fs w' = delete k (fs w)).
Proof.
  rewrite Path_unlink_run. unfold Fs.unlink.
  destruct (Fs.resolve (fs w) (cwd env) p) as [k|e] eqn:Hr;
    [|intros [= <- <-]; left; eauto].
  destruct (fs w !! k) as [[data meta|b]|] eqn:Hk;
    try (intros [= <- <-]; left; by eauto).
  destruct (Fs.check_dir_writable _ _);
    [|intros [= <- <-]; left; by eauto].
  intros [= <- <-]. right. split; [done|]. by exists k, data, meta.
Qed.

Lemma shutil_copy2_inv src dst env w r w' :
  shutil_copy2 src dst env w = (r, w') ->
  let dst' := if is_dir_at (fs w) (cwd env) dst
              then PurePath.truediv dst (PurePath.name src) else dst in
  (exists e, r = Raise e /\ fs w' = fs w)
  \/ (r = Ok tt
      /\ exists k data meta meta',
           Fs.resolve (fs w) (cwd env) dst' = Ok k
           /\ Fs.dir_at (fs w) k = false
           /\ Fs.read_file (fs w) (cwd env) (cred env) src = Ok (data, meta)
           /\ fs w' = <[k := Fs.File data meta']> (fs w)).
Proof.
  unfold shutil_copy2. rewrite bind_run. cbn [record].
  rewrite bind_run, Path_is_dir_run. wsimpl.
  set (dst' := if is_dir_at (fs w) (cwd env) dst
               then PurePath.truediv dst (PurePath.name src) else dst).
  unfold bind, observe, mutate, os_cred. wsimpl.
  destruct (Fs.samefile (fs w) (cwd env) src dst'); cbn beta iota;
    [intros [= <- <-]; left; by eauto|].
  wsimpl.
  destruct (Fs.read_file (fs w) (cwd env) (cred env) src)
    as [[data meta]|e] eqn:Hread;
    cbn beta iota; [|intros [= <- <-]; left; by eauto].
  wsimpl. unfold Fs.write_file.
  destruct (Fs.resolve (fs w) (cwd env) dst') as [k|e] eqn:Hres;
    [|intros [= <- <-]; left; by eauto].
  destruct (fs w !! k) as [[data0 meta0|b]|] eqn:Hk.
  - destruct (_ && _); [|intros [= <- <-]; left; by eauto].
    intros [= <- <-]. right. split; [done|]. eexists k, data, meta, _.
    unfold Fs.dir_at. by rewrite Hk.
  - intros [= <- <-]. left. by eauto.
  - destruct (Fs.check_dir_writable _ _);
      [|intros [= <- <-]; left; by eauto].
    intros [= <- <-]. right. split; [done|]. eexists k, data, meta, _.
    unfold Fs.dir_at. by rewrite Hk.
Qed.

Lemma Path_unlink_ok_absent p env w w' :
  Path_unlink p env w = (Ok tt, w') -> exists_at (fs w') (cwd env) p = false.
Proof.
  intros [(e & [=] & _)|(_ & k & data & meta & Hr & Hk & Hfs)]%Path_unlink_inv.
  unfold exists_at. rewrite (stat_absent _ _ _ k); [done| |].
  - rewrite Hfs. eapply resolve_dirs_kept; [|exact Hr].
    eapply dirs_kept_delete_file. exact Hk.
  - rewrite Hfs. apply lookup_delete_eq.
Qed.

(** When the copy strategy gets to [copy2], whatever was at the destination
    path has been removed: the copy creates the file. *)
Lemma copy_destination_is_free backup_path dest env w2 w3 :
  (if exists_at (fs w2) (cwd env) dest
   then Path_unlink dest env
          (add_log w2 WARNING (MsgOverwriting backup_path))
   else (Ok tt, w2)) = (Ok tt, w3) ->
  exists_at (fs w3) (cwd env) dest = false.
Proof.
  destruct (exists_at (fs w2) (cwd env) dest) eqn:E.
  - apply Path_unlink_ok_absent.
  - by intros [= <-].
Qed.

Lemma is_dir_at_kept f f' c p :
  dirs_kept f f' -> is_dir_at f c p = true -> is_dir_at f' c p = true.
Proof.
  intros Hk. unfold is_dir_at.
  destruct (Fs.stat f c p) as [[data meta|b]|e] eqn:Hst; try done. intros _.
  apply stat_inv in Hst as (k & Hr & Hlk).
  by rewrite (stat_present _ _ _ k (Fs.Dir b)
                (resolve_dirs_kept _ _ _ _ _ Hk Hr) (Hk _ _ Hlk)).
Qed.

Lemma shutil_copy2_directory_source src dst env w r w' :
  is_dir_at (fs w) (cwd env) src = true ->
  shutil_copy2 src dst env w = (r, w') -> exists e, r = Raise e.
Proof.
  intros Hdir Hrun. apply shutil_copy2_inv in Hrun as [(e & -> & _)|(_ & H)];
    [by eauto|].
  destruct H as (k & data & meta & meta' & _ & _ & Hread & _).
  unfold Fs.read_file, is_dir_at in *.
  by destruct (Fs.stat (fs w) (cwd env) src) as [[]|].
Qed.

(** ** A directory as the source *)

(** X5. [source.exists()] also holds for a directory, but a directory is
    never backed up: whatever the destination, the copy strategy returns
    failure, the last record of the log being the error. *)
Theorem cp_directory_source_fails db_path backup_path env w :
  is_dir_at (fs w) (cwd env) (PurePath.of_string db_path) = true ->
  exists w',
    Backup.backup_with_cp db_path backup_path env w = (Ok false, w')
    /\ error_logged_last w'.
Proof.
  intros Hdir.
  destruct (backup_with_cp_reports db_path backup_path env w)
    as (b & w' & Hrun & Hfalse).
  destruct b; [exfalso|by eauto].
  unfold Backup.backup_with_cp, logger_info, logger_error, logger_warning
    in Hrun.
  rewrite bind_run, log_run, try_except_run in Hrun.
  match type of Hrun with context [ bind ?m ?f env ?w1 ] =>
    destruct (bind m f env w1) as [[b|e] w2] eqn:Hbody end;
    [|rewrite bind_run, log_run in Hrun; by injection Hrun].
  clear Hrun.
  rewrite bind_run, Path_exists_run in Hbody. wsimpl in Hbody.
  assert (exists_at (fs w) (cwd env) (PurePath.of_string db_path) = true)
    as Hex.
  { unfold exists_at, is_dir_at in *.
    by destruct (Fs.stat (fs w) (cwd env) (PurePath.of_string db_path)). }
  rewrite Hex in Hbody. cbn [negb] in Hbody.
  apply bind_ok_inv in Hbody as ([] & w3 & Hmk & Hbody).
  apply Path_mkdir_parents_only_adds, only_adds_dirs_kept in Hmk.
  apply (is_dir_at_kept _ _ (cwd env) (PurePath.of_string db_path) Hmk)
    in Hdir.
  rewrite bind_run, Path_exists_run in Hbody.
  apply bind_ok_inv in Hbody as ([] & w4 & Hunl & Hbody).
  assert (dirs_kept (fs w3) (fs w4)) as Hkept.
  { destruct (exists_at (fs w3) (cwd env) (PurePath.of_string backup_path)).
    - rewrite bind_run, log_run in Hunl.
      apply Path_unlink_inv in Hunl as [(e & ? & _)|(_ & k & d & m & _ & Hk & Hfs)];
        [done|].
      wsimpl. rewrite Hfs. wsimpl. by eapply dirs_kept_delete_file.
    - injection Hunl as <-. by intros k b'. }
  apply (is_dir_at_kept _ _ (cwd env) (PurePath.of_string db_path) Hkept)
    in Hdir.
  apply bind_ok_inv in Hbody as ([] & w5 & Hcopy & _).
  by destruct (shutil_copy2_directory_source _ _ _ _ _ _ Hdir Hcopy).
Qed.

Lemma cp_directory_source_fails_witness :
  exists w',
    Backup.backup_with_cp "/data" "/tmp/out.db" Sample.env0 Sample.w0
    = (Ok false, w')
    /\ error_logged_last w'.
Proof.
  apply (cp_directory_source_fails "/data" "/tmp/out.db" Sample.env0 Sample.w0).
  reflexivity.
Defined.

(** X6. Overwriting is not atomic: the old backup is removed before the
    copy is attempted, so a copy that fails afterwards (here because the
    source is a directory) leaves no backup at all. *)
Theorem cp_failed_copy_loses_old_backup db_path backup_path b data' meta' env w :
  let source := PurePath.of_string db_path in
  let dest := PurePath.of_string backup_path in
  Fs.wf (fs w) ->
  Fs.stat (fs w) (cwd env) source = Ok (Fs.Dir b) ->
  Fs.stat (fs w) (cwd env) dest = Ok (Fs.File data' meta') ->
  Fs.stat (fs w) (cwd env) (PurePath.parent dest) = Ok (Fs.Dir true) ->
  exists w',
    Backup.backup_with_cp db_path backup_path env w = (Ok false, w')
    /\ logs w' = logs w ++ [(INFO, MsgCpStart db_path backup_path);
                            (WARNING, MsgOverwriting backup_path);
                            (ERROR, MsgCpError IsADirectoryError)]
    /\ exists_at (fs w') (cwd env) dest = false.
Proof.
  intros source dest Hwf Hsrc Hdst Hpar.
  assert (is_dir_at (fs w) (cwd env) dest = false) as Hnd.
  { unfold is_dir_at. by rewrite Hdst. }
  destruct (resolve_in_parent _ _ _ _ Hwf (stat_ok_name_accepted _ _ _ _ Hdst)
              Hpar Hnd) as (name & kd & Hres & Hkd).
  pose proof Hsrc as Hsrc'. apply stat_inv in Hsrc' as (ks & Hrs & Hks).
  pose proof Hdst as Hdst'. apply stat_inv in Hdst' as (k & Hk' & Hn).
  rewrite Hres in Hk'. injection Hk' as <-.
  assert (ks <> name :: kd) as Hne by congruence.
  pose proof (dirs_kept_delete_file _ _ _ _ Hn) as Hkept.
  unfold Backup.backup_with_cp, logger_info, logger_error, logger_warning.
  fold source dest.
  rewrite bind_run, log_run, try_except_run, bind_run, Path_exists_run.
  unfold exists_at at 1. wsimpl. rewrite Hsrc. cbn [negb].
  rewrite bind_run, (Path_mkdir_parents_existing _ true); [|done].
  rewrite bind_run, Path_exists_run. wsimpl.
  unfold exists_at at 1. rewrite Hdst.
  rewrite bind_run, bind_run, log_run, Path_unlink_run. wsimpl.
  rewrite (unlink_file _ _ _ _ _ _ _ Hres Hn Hkd).
  rewrite bind_run.
  match goal with |- context [shutil_copy2 source dest env ?w3] =>
    destruct (shutil_copy2 source dest env w3) as [r w4] eqn:Hcopy end.
  pose proof Hcopy as Hcopy'.
  apply shutil_copy2_inv in Hcopy'. wsimpl in Hcopy'.
  assert (is_dir_at (delete (name :: kd) (fs w)) (cwd env) dest = false)
    as Hgone.
  { unfold is_dir_at. rewrite (stat_absent _ _ _ (name :: kd)); [done| |].
    - by eapply resolve_dirs_kept.
    - apply lookup_delete_eq. }
  rewrite Hgone in Hcopy'.
  destruct Hcopy' as [(e & -> & Hfs)
                     |(_ & k & data & meta & meta2 & _ & _ & Hread & _)].
  - (* the copy raised *)
    assert (e = IsADirectoryError) as ->.
    { revert Hcopy. unfold shutil_copy2. rewrite bind_run. cbn [record].
      rewrite bind_run, Path_is_dir_run. wsimpl. rewrite Hgone.
      unfold bind, observe, mutate, os_cred. wsimpl.
      assert (Fs.samefile (delete (name :: kd) (fs w)) (cwd env) source dest
              = false) as ->.
      { unfold Fs.samefile.
        rewrite (resolve_dirs_kept _ _ _ _ _ Hkept Hres), lookup_delete_eq.
        destruct (Fs.resolve (delete _ _) _ source) as [ks'|]; [|done].
        by destruct (delete (name :: kd) (fs w) !! ks'). }
      cbn beta iota. wsimpl.
      assert (Fs.read_file (delete (name :: kd) (fs w)) (cwd env) (cred env)
                source = Raise IsADirectoryError) as ->.
      { unfold Fs.read_file.
        rewrite (stat_present _ _ _ ks (Fs.Dir b)); [done| |].
        - by eapply resolve_dirs_kept.
        - by rewrite lookup_delete_ne. }
      by intros [= <- _]. }
    rewrite bind_run, log_run. eexists. split; [reflexivity|]. wsimpl.
    pose proof (quiet_shutil_copy2 source dest) as (Hlogs & _ & _).
    apply Hlogs in Hcopy. wsimpl in Hcopy.
    split; [by rewrite Hcopy, <- !app_assoc|].
    rewrite Hfs. wsimpl. unfold exists_at.
    rewrite (stat_absent _ _ _ (name :: kd)); [done| |].
    + by eapply resolve_dirs_kept.
    + apply lookup_delete_eq.
  - (* the copy cannot have succeeded: the source is a directory *)
    exfalso. revert Hread. unfold Fs.read_file.
    rewrite (stat_present _ _ _ ks (Fs.Dir b)); [done| |].
    + by eapply resolve_dirs_kept.
    + by rewrite lookup_delete_ne.
Qed.

Lemma cp_failed_copy_loses_old_backup_witness :
  exists w',
    Backup.backup_with_cp "/data" "/tmp/old.db" Sample.env0 Sample.w0
    = (Ok false, w')
    /\ logs w' = [] ++ [(INFO, MsgCpStart "/data" "/tmp/old.db");
                        (WARNING, MsgOverwriting "/tmp/old.db");
                        (ERROR, MsgCpError IsADirectoryError)]
    /\ exists_at (fs w') ["data"] (PurePath.of_string "/tmp/old.db") = false.
Proof.
  apply (cp_failed_copy_loses_old_backup "/data" "/tmp/old.db" true
           Sample.bytes1 Sample.meta1 Sample.env0 Sample.w0).
  - exact wf_sample.
  - reflexivity.
  - reflexivity.
  - reflexivity.
Defined.

(** ** The copy strategy only ever touches the destination *)

Lemma report_same_fs dest env w r w' :
  (do st <- Path_stat dest;
   logger_info (MsgCpCompleted (Fs.st_size st));;
   ret true) env w = (r, w') ->
  fs w' = fs w.
Proof.
  rewrite bind_run. unfold Path_stat, observe.
  destruct (Fs.stat _ _ _); by intros [= <- <-].
Qed.

Lemma exists_at_false_absent f c p k :
  exists_at f c p = false -> Fs.resolve f c p = Ok k -> f !! k = None.
Proof.
  unfold exists_at, Fs.stat. intros H Hr. rewrite Hr in H.
  by destruct (f !! k).
Qed.

Lemma exists_at_false_not_dir f c p :
  exists_at f c p = false -> is_dir_at f c p = false.
Proof.
  unfold exists_at, is_dir_at. by destruct (Fs.stat f c p) as [[]|].
Qed.

(** X7. Whatever the outcome, the copy strategy changes or removes no
    entry of the file system other than the one the destination path
    resolves to: every other file and directory, the source included when
    it is not the destination, is afterwards exactly as it was. *)
Theorem cp_touches_only_destination db_path backup_path env w r w' :
  Backup.backup_with_cp db_path backup_path env w = (r, w') ->
  forall k n,
    fs w !! k = Some n ->
    fs w' !! k = Some n
    \/ Fs.resolve (fs w') (cwd env) (PurePath.of_string backup_path) = Ok k.
Proof.
  intros Hrun k n Hk.
  set (source := PurePath.of_string db_path) in *.
  set (dest := PurePath.of_string backup_path) in *.
  unfold Backup.backup_with_cp, logger_info, logger_error, logger_warning
    in Hrun.
  fold source dest in Hrun.
  rewrite bind_run, log_run, try_except_run in Hrun.
  match type of Hrun with context [ bind ?m ?f env ?w1 ] =>
    destruct (bind m f env w1) as [r2 w2] eqn:Hbody end.
  assert (fs w' = fs w2) as ->.
  { destruct r2; [by injection Hrun as <- <-|].
    rewrite bind_run, log_run in Hrun. by injection Hrun as <- <-. }
  clear Hrun r.
  rewrite bind_run, Path_exists_run in Hbody. wsimpl in Hbody.
  destruct (exists_at (fs w) (cwd env) source); cbn [negb] in Hbody;
    [|rewrite bind_run, log_run in Hbody; injection Hbody as <- <-; by left].
  rewrite bind_run in Hbody.
  match type of Hbody with context [ Path_mkdir_parents ?p env ?w1 ] =>
    destruct (Path_mkdir_parents p env w1) as [[[]|e] w3] eqn:Hmk end;
    apply Path_mkdir_parents_only_adds in Hmk; wsimpl in Hmk;
    pose proof (only_adds_dirs_lookup _ _ _ _ Hmk Hk) as Hk3;
    [|injection Hbody as <- <-; by left].
  rewrite bind_run, Path_exists_run in Hbody.
  destruct (exists_at (fs w3) (cwd env) dest) eqn:Hex.
  - (* something is at the destination: it is unlinked first *)
    rewrite bind_run, bind_run, log_run in Hbody.
    destruct (Path_unlink dest env _) as [ru w5] eqn:Hunl.
    apply Path_unlink_inv in Hunl. wsimpl in Hunl.
    destruct Hunl as [(e & -> & Hfs5)
                     |(-> & kd & data & meta & Hres & Hfile & Hfs5)].
    { injection Hbody as <- <-. left. by rewrite Hfs5. }
    pose proof (dirs_kept_delete_file _ _ _ _ Hfile) as Hkept.
    assert (Fs.resolve (fs w5) (cwd env) dest = Ok kd) as Hres5.
    { rewrite Hfs5. by eapply resolve_dirs_kept. }
    assert (fs w5 !! kd = None) as Hgone.
    { rewrite Hfs5. apply lookup_delete_eq. }
    rewrite bind_run in Hbody.
    destruct (shutil_copy2 source dest env w5) as [rc w6] eqn:Hcopy.
    apply shutil_copy2_inv in Hcopy.
    assert (is_dir_at (fs w5) (cwd env) dest = false) as Hnd.
    { unfold is_dir_at. by rewrite (stat_absent _ _ _ _ Hres5 Hgone). }
    rewrite Hnd in Hcopy.
    destruct Hcopy as [(e & -> & Hfs6)
                      |(-> & k6 & data6 & meta6 & meta7 & Hres6 & _ & _
                        & Hfs6)].
    + injection Hbody as <- <-. rewrite Hfs6.
      destruct (decide (k = kd)) as [->|Hne]; [by right|].
      left. by rewrite Hfs5, lookup_delete_ne.
    + apply report_same_fs in Hbody. rewrite Hbody, Hfs6.
      rewrite Hres5 in Hres6. injection Hres6 as <-.
      destruct (decide (k = kd)) as [->|Hne].
      * right. eapply resolve_dirs_kept; [|exact Hres5].
        by apply dirs_kept_insert_fresh.
      * left. by rewrite lookup_insert_ne, Hfs5, lookup_delete_ne.
  - (* nothing is at the destination *)
    rewrite bind_run in Hbody. cbn [ret] in Hbody.
    rewrite bind_run in Hbody.
    destruct (shutil_copy2 source dest env w3) as [rc w6] eqn:Hcopy.
    apply shutil_copy2_inv in Hcopy.
    rewrite (exists_at_false_not_dir _ _ _ Hex) in Hcopy.
    destruct Hcopy as [(e & -> & Hfs6)
                      |(-> & k6 & data6 & meta6 & meta7 & Hres6 & _ & _
                        & Hfs6)].
    + injection Hbody as <- <-. left. by rewrite Hfs6.
    + apply report_same_fs in Hbody. rewrite Hbody, Hfs6. left.
      pose proof (exists_at_false_absent _ _ _ _ Hex Hres6) as Hnone.
      rewrite lookup_insert_ne; [done|congruence].
Qed.

Lemma cp_touches_only_destination_witness :
  fs (snd (Backup.backup_with_cp "/data/a.db" "/tmp/new/out.db"
             Sample.env0 Sample.w0)) !! ["a.db"; "data"]
  = Some (Fs.File Sample.bytes0 Sample.meta0)
  \/ Fs.resolve
       (fs (snd (Backup.backup_with_cp "/data/a.db" "/tmp/new/out.db"
                   Sample.env0 Sample.w0)))
       ["data"] (PurePath.of_string "/tmp/new/out.db")
     = Ok ["a.db"; "data"].
Proof.
  apply (cp_touches_only_destination "/data/a.db" "/tmp/new/out.db"
           Sample.env0 Sample.w0
           (fst (Backup.backup_with_cp "/data/a.db" "/tmp/new/out.db"
                   Sample.env0 Sample.w0))).
  - by destruct (Backup.backup_with_cp _ _ _ _).
  - reflexivity.
Defined.

(** ** Backing up twice *)

Lemma wf_insert_file f name kd data meta :
  Fs.wf f -> f !! kd = Some (Fs.Dir true) ->
  Fs.dir_at f (name :: kd) = false ->
  Fs.wf (<[name :: kd := Fs.File data meta]> f).
Proof.
  intros [Hroot Hall] Hkd Hnd.
  pose proof (dirs_kept_insert_nondir f (name :: kd) (Fs.File data meta) Hnd)
    as Hkept.
  assert (forall k', Fs.dir_at f k' = true ->
            Fs.dir_at (<[name :: kd := Fs.File data meta]> f) k' = true)
    as Hdir.
  { intros k' (b & Hb)%dir_at_true. unfold Fs.dir_at.
    by rewrite (Hkept _ _ Hb). }
  split; [by apply Hdir|].
  intros k' n Hk'. destruct (decide (k' = name :: kd)) as [->|Hne].
  - simpl. apply Hdir. unfold Fs.dir_at. by rewrite Hkd.
  - rewrite lookup_insert_ne in Hk' by done. apply Hdir, (Hall _ _ Hk').
Qed.



(** ** Missing directories are made, outermost first *)

Lemma step_plain k c : plain_name c = true -> Fs.step k c = c :: k.
Proof.
  unfold plain_name, Fs.step. intros [[Hk Hd]%andb_true_iff _]%andb_true_iff.
  apply negb_true_iff in Hd. by rewrite Hd, Hk.
Qed.

Lemma plain_short c : plain_name c = true -> Fs.too_long c = false.
Proof.
  unfold plain_name. by intros [_ ?%negb_true_iff]%andb_true_iff.
Qed.

Lemma walk_app_list f k l1 l2 :
  Fs.walk f k (l1 ++ l2) =
  match Fs.walk f k l1 with
  | Ok k' => Fs.walk f k' l2
  | Raise e => Raise e
  end.
Proof.
  revert k. induction l1 as [|x l1 IH]; intros k; simpl; [done|].
  destruct (f !! k) as [[]|]; try done. by destruct (Fs.too_long x).
Qed.

Lemma resolve_walk f c p :
  Fs.check_text p = Ok tt ->
  Fs.resolve f c p = Fs.walk f (Fs.start c p) (PurePath.parts p).
Proof. unfold Fs.resolve. by intros ->. Qed.

(** The text of a path is no shorter than the text of a path it extends,
    so a path the system accepts as a text extends only such paths. *)
Lemma length_append (s1 s2 : string) :
  String.length (s1 +:+ s2) = String.length s1 + String.length s2.
Proof. induction s1 as [|c s1 IH]; simpl; [done|]. by rewrite IH. Qed.

Lemma concat_prefix_length sep l1 l2 :
  l1 <> [] ->
  String.length (String.concat sep l1)
  <= String.length (String.concat sep (l1 ++ l2)).
Proof.
  induction l1 as [|x l1 IH]; [done|]. intros _.
  destruct l1 as [|y l1].
  - destruct l2 as [|z l2]; [done|].
    cbn [app String.concat]. rewrite length_append. lia.
  - change (String.length (x +:+ sep +:+ String.concat sep (y :: l1))
            <= String.length
                 (x +:+ sep +:+ String.concat sep ((y :: l1) ++ l2))).
    rewrite !length_append. specialize (IH ltac:(done)). lia.
Qed.

Lemma str_cons a x ps :
  PurePath.str (PurePath.mk a (x :: ps))
  = PurePath.root_str a +:+ String.concat "/" (x :: ps).
Proof. by destruct a. Qed.

Lemma check_text_prefix a l1 l2 :
  Fs.check_text (PurePath.mk a (l1 ++ l2)) = Ok tt ->
  Fs.check_text (PurePath.mk a l1) = Ok tt.
Proof.
  unfold Fs.check_text. cbn [PurePath.parts].
  rewrite existsb_app.
  destruct (existsb Fs.has_nul l1); [done|]. cbn [orb].
  destruct (existsb Fs.has_nul l2); [done|].
  destruct l1 as [|x l1]; [by destruct a|].
  assert (String.length (PurePath.str (PurePath.mk a (x :: l1)))
          <= String.length (PurePath.str (PurePath.mk a ((x :: l1) ++ l2))))
    as Hlen.
  { change ((x :: l1) ++ l2) with (x :: (l1 ++ l2)).
    rewrite !str_cons, !length_append.
    pose proof (concat_prefix_length "/" (x :: l1) l2 ltac:(done)) as Hle.
    change ((x :: l1) ++ l2) with (x :: (l1 ++ l2)) in Hle. lia. }
  unfold Fs.strlen.
  destruct (Fs.PATH_MAX <=? N.of_nat (String.length
              (PurePath.str (PurePath.mk a ((x :: l1) ++ l2)))))%N eqn:E1;
    [done|].
  intros _. apply N.leb_gt in E1.
  destruct (Fs.PATH_MAX <=? _)%N eqn:E2; [|done].
  apply N.leb_le in E2. lia.
Qed.

Lemma wf_absent_below f k :
  Fs.wf f -> f !! k = None -> forall suffix, f !! (suffix ++ k) = None.
Proof.
  intros Hwf Hk suffix. induction suffix as [|c suffix IH]; [done|].
  simpl. destruct (f !! (c :: suffix ++ k)) as [n|] eqn:E; [|done].
  apply (wf_parent _ _ _ _ Hwf), dir_at_true in E as (b & Hb). congruence.
Qed.

Lemma start_anchor c a ps : Fs.start c (PurePath.mk a ps) = Fs.start c (PurePath.mk a []).
Proof. reflexivity. Qed.

(** [mkdir(parents=True)] on [ps/n1/.../nk], where [ps] is a writable
    directory and nothing exists at [ps/n1]: every level is made. *)
Lemma Path_mkdir_parents_chain a ps names env :
  Forall (fun c => plain_name c = true) names ->
  names <> [] ->
  Fs.check_text (PurePath.mk a (ps ++ names)) = Ok tt ->
  Fs.new_dir_writable (cred env) = true ->
  forall w kd,
    Fs.walk (fs w) (Fs.start (cwd env) (PurePath.mk a [])) ps = Ok kd ->
    fs w !! kd = Some (Fs.Dir true) ->
    (forall suffix, fs w !! (suffix ++ hd "" names :: kd) = None) ->
    exists w',
      Path_mkdir_parents_aux a (rev (ps ++ names)) env w = (Ok tt, w')
      /\ Fs.walk (fs w') (Fs.start (cwd env) (PurePath.mk a [])) (ps ++ names)
         = Ok (rev names ++ kd)
      /\ fs w' !! (rev names ++ kd) = Some (Fs.Dir true)
      /\ (forall j, length names + length kd < length j ->
                    fs w' !! j = fs w !! j).
Proof.
  intros Hplain Hne Htext Humask. revert Hplain Hne Htext.
  induction names as [|c init IH] using rev_ind; [done|].
  intros Hplain _ Htext w kd Hwalk Hkd Habsent.
  apply Forall_app in Hplain as [Hinit Hc].
  apply Forall_inv in Hc.
  pose proof (plain_short _ Hc) as Hc_short.
  set (s0 := Fs.start (cwd env) (PurePath.mk a [])) in *.
  rewrite Path_mkdir_parents_aux_unfold. cbn zeta.
  rewrite rev_involutive, try_except_run, os_mkdir_run.
  unfold Fs.mkdir. rewrite (resolve_walk _ _ _ Htext), Humask.
  cbn [PurePath.parts]. rewrite start_anchor.
  fold s0.
  destruct init as [|c1 init'].
  - (* one level to make *)
    cbn [app hd] in *.
    rewrite walk_app, Hwalk, Hkd, Hc_short, (step_plain _ _ Hc).
    pose proof (Habsent []) as Hfree. cbn [app] in Hfree.
    rewrite Hfree. cbn [Fs.check_dir_writable]. rewrite Hkd.
    eexists. split; [reflexivity|]. wsimpl.
    split; [|split].
    + rewrite walk_app.
      rewrite (walk_dirs_kept _ _ _ _ _
                 (dirs_kept_insert_fresh _ _ _ Hfree) Hwalk).
      rewrite lookup_insert_ne
        by (intros Heq; by apply (list_neq_cons c kd)).
      by rewrite Hkd, Hc_short, (step_plain _ _ Hc).
    + apply lookup_insert_eq.
    + intros j Hj. apply lookup_insert_ne. intros <-. simpl in Hj. lia.
  - (* several levels: the kernel finds no parent, the parents are made
       first, then the directory itself *)
    change ((c1 :: init') ++ [c]) with (c1 :: init' ++ [c]) in *.
    cbn [hd] in Habsent.
    assert (Fs.walk (fs w) s0 (ps ++ c1 :: init' ++ [c])
            = Raise FileNotFoundError) as ->.
    { rewrite walk_app_list, Hwalk. cbn [Fs.walk]. rewrite Hkd.
      pose proof (Forall_inv Hinit) as Hc1.
      rewrite (plain_short _ Hc1), (step_plain _ _ Hc1).
      destruct (init' ++ [c]) eqn:E; [by destruct init'|].
      cbn [Fs.walk]. pose proof (Habsent []) as Hfree. cbn [app] in Hfree.
      by rewrite Hfree. }
    assert (Fs.check_text (PurePath.mk a (ps ++ c1 :: init')) = Ok tt)
      as Htext'.
    { apply (check_text_prefix a _ [c]). by rewrite <- app_assoc. }
    destruct (IH Hinit ltac:(done) Htext'
                (add_trace w (SysMkdir
                   (PurePath.mk a (ps ++ c1 :: init' ++ [c])))) kd Hwalk Hkd
                Habsent) as (w2 & Hrec & Hwalk2 & Hdir2 & Hfar2).
    wsimpl in Hfar2.
    rewrite rev_app_distr. cbn [rev app].
    replace (rev (init' ++ [c]) ++ [c1]) with (c :: rev (c1 :: init'))
      by (by rewrite rev_app_distr).
    cbn [app].
    replace (rev (c1 :: init') ++ rev ps) with (rev (ps ++ c1 :: init'))
      by (by rewrite rev_app_distr).
    rewrite bind_run, Hrec.
    assert (fs w2 !! (c :: rev (c1 :: init') ++ kd) = None) as Hfree.
    { rewrite Hfar2
        by (cbn [length]; rewrite length_app, length_rev; cbn [length]; lia).
      cbn [rev]. rewrite <- app_assoc. apply (Habsent (c :: rev init')). }
    assert (Fs.walk (fs w2) s0 (ps ++ c1 :: init' ++ [c])
            = Ok (c :: rev (c1 :: init') ++ kd)) as Hres2.
    { replace (ps ++ c1 :: init' ++ [c]) with ((ps ++ c1 :: init') ++ [c])
        by (by rewrite <- app_assoc).
      by rewrite walk_app, Hwalk2, Hdir2, Hc_short, (step_plain _ _ Hc). }
    unfold Path_mkdir. rewrite try_except_run, os_mkdir_run.
    unfold Fs.mkdir. rewrite (resolve_walk _ _ _ Htext), Humask.
    cbn [PurePath.parts]. rewrite start_anchor.
    fold s0. rewrite Hres2, Hfree. cbn [Fs.check_dir_writable].
    rewrite Hdir2.
    eexists. split; [reflexivity|]. wsimpl.
    replace (rev ((c1 :: init') ++ [c])) with (c :: rev (c1 :: init'))
      by (by rewrite rev_app_distr).
    split; [|split].
    + eapply walk_dirs_kept; [|exact Hres2].
      by apply dirs_kept_insert_fresh.
    + apply lookup_insert_eq.
    + intros j Hj. cbn [length] in Hj. rewrite length_app in Hj.
      cbn [length] in Hj.
      rewrite lookup_insert_ne.
      * apply Hfar2. cbn [length]. lia.
      * intros <-. cbn [length] in Hj.
        rewrite length_app, length_rev in Hj. cbn [length] in Hj. lia.
Qed.

(** X9. The copy strategy makes the directories the destination needs:
    when the source is a file the process may read, the destination lies
    any number of missing levels below an existing writable directory, its
    text and the names on the way are ones the system accepts, and the
    process may use the directories it makes (it is the superuser, or its
    umask leaves the owner the right to write and search them), every
    level is created, the copy succeeds, the destination holds the bytes
    of the source, and the source is left as it was. *)
Theorem cp_creates_missing_directories
    db_path backup_path data meta a ps names fname env w :
  let source := PurePath.of_string db_path in
  let dest := PurePath.of_string backup_path in
  Fs.wf (fs w) ->
  Fs.stat (fs w) (cwd env) source = Ok (Fs.File data meta) ->
  Fs.may_read (cred env) meta = true ->
  dest = PurePath.mk a (ps ++ names ++ [fname]) ->
  names <> [] ->
  Forall (fun c => plain_name c = true) names ->
  plain_name fname = true ->
  Fs.check_text dest = Ok tt ->
  Fs.new_dir_writable (cred env) = true ->
  Fs.stat (fs w) (cwd env) (PurePath.mk a ps) = Ok (Fs.Dir true) ->
  exists_at (fs w) (cwd env) (PurePath.mk a (ps ++ [hd "" names])) = false ->
  exists w',
    Backup.backup_with_cp db_path backup_path env w = (Ok true, w')
    /\ is_dir_at (fs w') (cwd env) (PurePath.parent dest) = true
    /\ Fs.stat (fs w') (cwd env) dest
       = Ok (Fs.File data (Fs.copied (cred env) meta))
    /\ Fs.stat (fs w') (cwd env) source = Ok (Fs.File data meta).
Proof.
  intros source dest Hwf Hsrc Hread Hdest Hne Hplain Hfname Htext Humask
    Hbase Hmissing.
  set (s0 := Fs.start (cwd env) (PurePath.mk a [])).
  apply stat_inv in Hbase as (kd & [_ Hwalk]%resolve_ok_inv & Hkd).
  cbn [PurePath.parts] in Hwalk.
  rewrite start_anchor in Hwalk. fold s0 in Hwalk.
  rewrite Hdest in Htext.
  assert (Fs.check_text (PurePath.mk a (ps ++ names)) = Ok tt) as Htext_dir.
  { apply (check_text_prefix a _ [fname]). by rewrite <- app_assoc. }
  assert (forall suffix, fs w !! (suffix ++ hd "" names :: kd) = None)
    as Habsent.
  { apply wf_absent_below; [done|].
    apply (exists_at_false_absent _ _ _ _ Hmissing).
    destruct names as [|c1 names']; [done|]. apply Forall_inv in Hplain.
    rewrite resolve_walk.
    - cbn [PurePath.parts hd]. rewrite start_anchor. fold s0.
      by rewrite walk_app, Hwalk, Hkd, (plain_short _ Hplain),
        (step_plain _ _ Hplain).
    - apply (check_text_prefix a _ names'). cbn [hd].
      by rewrite <- app_assoc. }
  set (w1 := add_log w INFO (MsgCpStart db_path backup_path)).
  destruct (Path_mkdir_parents_chain a ps names env Hplain Hne Htext_dir
              Humask w1 kd Hwalk Hkd Habsent)
    as (w3 & Hmk & Hwalk3 & Hdir3 & Hfar3).
  fold s0 in Hwalk3. set (kp := rev names ++ kd) in *.
  pose proof (Path_mkdir_parents_aux_only_adds _ _ _ _ _ _ Hmk) as Hadds.
  change (fs w1) with (fs w) in Hadds, Hfar3.
  assert (fs w3 !! (fname :: kp) = None) as Hfree.
  { rewrite Hfar3
      by (unfold kp; cbn [length]; rewrite length_app, length_rev; lia).
    destruct names as [|c1 names']; [done|].
    unfold kp. cbn [rev hd] in *. rewrite <- app_assoc.
    apply (Habsent (fname :: rev names')). }
  assert (Fs.resolve (fs w3) (cwd env) dest = Ok (fname :: kp)) as Hres3.
  { rewrite Hdest, (resolve_walk _ _ _ Htext). cbn [PurePath.parts].
    rewrite start_anchor. fold s0.
    by rewrite app_assoc, walk_app, Hwalk3, Hdir3, (plain_short _ Hfname),
      (step_plain _ _ Hfname). }
  pose proof Hsrc as Hsrc'. apply stat_inv in Hsrc' as (ks & Hrs & Hks).
  assert (Fs.stat (fs w3) (cwd env) source = Ok (Fs.File data meta)) as Hsrc3.
  { eapply stat_present.
    - eapply resolve_dirs_kept; [by apply only_adds_dirs_kept|done].
    - by eapply only_adds_dirs_lookup. }
  assert (Path_mkdir_parents (PurePath.parent dest) env w1 = (Ok tt, w3))
    as Hmk'.
  { rewrite Hdest. unfold Path_mkdir_parents, PurePath.parent.
    cbn [PurePath.root PurePath.parts].
    by rewrite app_assoc, removelast_last. }
  unfold Backup.backup_with_cp, logger_info, logger_error, logger_warning.
  fold source dest.
  rewrite bind_run, log_run, try_except_run, bind_run, Path_exists_run.
  fold w1. change (fs w1) with (fs w).
  unfold exists_at at 1. rewrite Hsrc. cbn [negb].
  rewrite bind_run, Hmk', bind_run, Path_exists_run.
  unfold exists_at at 1. rewrite (stat_absent _ _ _ _ Hres3 Hfree).
  rewrite bind_run. cbn [ret].
  rewrite (copy_and_report _ _ fname kp data meta); try done;
    [|unfold Fs.read_file; by rewrite Hsrc3, Hread].
  eexists. split; [reflexivity|]. wsimpl.
  pose proof (dirs_kept_insert_fresh _ _
                (Fs.File data (Fs.copied (cred env) meta)) Hfree) as Hkept.
  split; [|split].
  - unfold is_dir_at. rewrite (stat_present _ _ _ kp (Fs.Dir true)); [done| |].
    + eapply resolve_dirs_kept; [exact Hkept|].
      rewrite Hdest. unfold PurePath.parent.
      cbn [PurePath.root PurePath.parts].
      rewrite app_assoc, removelast_last, (resolve_walk _ _ _ Htext_dir).
      cbn [PurePath.parts]. rewrite start_anchor. by fold s0.
    + by apply Hkept.
  - by rewrite (stat_after_write _ _ _ _ _ Hres3 Hfree).
  - apply (stat_present _ _ _ ks).
    + eapply resolve_dirs_kept; [exact Hkept|].
      eapply resolve_dirs_kept; [by apply only_adds_dirs_kept|done].
    + rewrite lookup_insert_ne.
      * by eapply only_adds_dirs_lookup.
      * intros <-. apply (only_adds_dirs_lookup _ _ _ _ Hadds) in Hks.
        congruence.
Qed.

Lemma cp_creates_missing_directories_witness :
  exists w',
    Backup.backup_with_cp "/data/a.db" "/tmp/2025/12/out.db"
      Sample.env0 Sample.w0 = (Ok true, w')
    /\ is_dir_at (fs w') ["data"]
         (PurePath.parent (PurePath.of_string "/tmp/2025/12/out.db")) = true
    /\ Fs.stat (fs w') ["data"] (PurePath.of_string "/tmp/2025/12/out.db")
       = Ok (Fs.File Sample.bytes0 Sample.meta0)
    /\ Fs.stat (fs w') ["data"] (PurePath.of_string "/data/a.db")
       = Ok (Fs.File Sample.bytes0 Sample.meta0).
Proof.
  apply (cp_creates_missing_directories "/data/a.db" "/tmp/2025/12/out.db"
           Sample.bytes0 Sample.meta0 PurePath.Root ["tmp"] ["2025"; "12"]
           "out.db" Sample.env0 Sample.w0).
  - exact wf_sample.
  - reflexivity.
  - reflexivity.
  - reflexivity.
  - discriminate.
  - repeat constructor.
  - reflexivity.
  - reflexivity.
  - reflexivity.
  - reflexivity.
  - reflexivity.
Defined.

(** ** From a path to its text and back *)

Lemma split_slash_cons s : exists w ws, PurePath.split_slash s = w :: ws.
Proof.
  induction s as [|c s (w & ws & IH)]; simpl; [by eauto|].
  destruct (Ascii.eqb c PurePath.slash); [by eauto|]. rewrite IH. eauto.
Qed.

Lemma split_slash_pieces s :
  Forall (fun c => slash_free c = true) (PurePath.split_slash s).
Proof.
  induction s as [|c s IH]; simpl; [by repeat constructor|].
  destruct (Ascii.eqb c PurePath.slash) eqn:Ec; [by constructor|].
  destruct (PurePath.split_slash s) as [|w ws];
    [repeat constructor; simpl; by rewrite Ec|].
  apply Forall_cons in IH as [Hw Hws]. constructor; [|done].
  simpl. by rewrite Ec, Hw.
Qed.

Lemma split_slash_app x rest :
  slash_free x = true ->
  PurePath.split_slash (x +:+ String PurePath.slash rest)
  = x :: PurePath.split_slash rest.
Proof.
  induction x as [|c x IH]; intros Hx.
  - reflexivity.
  - simpl in Hx. apply andb_true_iff in Hx as [Hc Hx].
    apply negb_true_iff in Hc.
    change (String c x +:+ String PurePath.slash rest)
      with (String c (x +:+ String PurePath.slash rest)).
    cbn [PurePath.split_slash]. by rewrite Hc, (IH Hx).
Qed.

Lemma split_slash_concat ps :
  ps <> [] -> Forall (fun c => slash_free c = true) ps ->
  PurePath.split_slash (String.concat "/" ps) = ps.
Proof.
  induction ps as [|x ps IH]; [done|]. intros _ Hall.
  apply Forall_cons in Hall as [Hx Hps].
  destruct ps as [|y ps].
  - simpl. by apply split_slash_free.
  - change (String.concat "/" (x :: y :: ps))
      with (x +:+ String PurePath.slash (String.concat "/" (y :: ps))).
    rewrite (split_slash_app _ _ Hx). f_equal. by apply IH.
Qed.

Lemma leading_slashes_free x s :
  slash_free x = true -> x <> "" -> PurePath.leading_slashes (x +:+ s) = 0.
Proof.
  destruct x as [|c x]; [done|]. simpl. intros [Hc _]%andb_true_iff _.
  apply negb_true_iff in Hc. by rewrite Hc.
Qed.

Lemma keep_part_nonempty c : PurePath.keep_part c = true -> c <> "".
Proof. intros H ->. done. Qed.

Lemma filter_keep_all ps :
  Forall (fun c => PurePath.keep_part c = true /\ slash_free c = true) ps ->
  List.filter PurePath.keep_part ps = ps.
Proof.
  induction 1 as [|c ps [Hk _] _ IH]; simpl; [done|]. by rewrite Hk, IH.
Qed.

Lemma of_string_normal s : normal_path (PurePath.of_string s).
Proof.
  unfold normal_path, PurePath.of_string. cbn [PurePath.parts].
  pose proof (split_slash_pieces s) as Hall.
  induction Hall as [|c l Hc _ IH]; simpl; [constructor|].
  destruct (PurePath.keep_part c) eqn:Hk; [by constructor|done].
Qed.

(** [Path(str(p)) == p]: the text of a path names the same path. *)
Lemma of_string_str p :
  normal_path p -> PurePath.of_string (PurePath.str p) = p.
Proof.
  destruct p as [a ps]. unfold normal_path. cbn [PurePath.parts]. intros Hall.
  destruct ps as [|x ps]; [by destruct a|].
  assert (Forall (fun c => slash_free c = true) (x :: ps)) as Hfree.
  { eapply Forall_impl; [exact Hall|]. by intros c [_ ?]. }
  pose proof (split_slash_concat (x :: ps) ltac:(done) Hfree) as Hsplit.
  assert (PurePath.leading_slashes (String.concat "/" (x :: ps)) = 0) as Hlead.
  { pose proof (Forall_inv Hall) as [Hk Hs].
    destruct ps as [|y ps]; simpl.
    - destruct x as [|c x]; [done|]. simpl in *.
      apply andb_true_iff in Hs as [Hc _]. apply negb_true_iff in Hc.
      by rewrite Hc.
    - apply leading_slashes_free; [done|by apply keep_part_nonempty]. }
  unfold PurePath.str. cbn [PurePath.root PurePath.parts].
  set (s := String.concat "/" (x :: ps)) in *.
  destruct a; unfold PurePath.of_string; cbn [PurePath.root_str].
  - change ("" +:+ s) with s. by rewrite Hlead, Hsplit, filter_keep_all.
  - change ("/" +:+ s) with (String PurePath.slash s).
    cbn [PurePath.leading_slashes PurePath.split_slash].
    rewrite Ascii.eqb_refl, Hlead, Hsplit.
    change (List.filter PurePath.keep_part ("" :: x :: ps))
      with (List.filter PurePath.keep_part (x :: ps)).
    by rewrite filter_keep_all.
  - change ("//" +:+ s)
      with (String PurePath.slash (String PurePath.slash s)).
    cbn [PurePath.leading_slashes PurePath.split_slash].
    rewrite Ascii.eqb_refl, Hlead, Hsplit.
    change (List.filter PurePath.keep_part ("" :: "" :: x :: ps))
      with (List.filter PurePath.keep_part (x :: ps)).
    by rewrite filter_keep_all.
Qed.

Lemma backup_filename_keep now :
  PurePath.keep_part (Backup.backup_filename now) = true.
Proof. by rewrite backup_filename_eq. Qed.

Lemma of_string_timestamped_path backup_dir now :
  PurePath.of_string (Backup.timestamped_path backup_dir now)
  = PurePath.truediv (PurePath.of_string backup_dir)
      (Backup.backup_filename now).
Proof.
  unfold Backup.timestamped_path. apply of_string_str.
  unfold normal_path, PurePath.truediv, PurePath.joinpath.
  rewrite of_string_backup_filename. cbn [PurePath.is_absolute
    PurePath.root PurePath.parts].
  apply Forall_app. split; [apply of_string_normal|].
  constructor; [|constructor].
  split; [apply backup_filename_keep|apply backup_filename_slash_free].
Qed.

(** X10. The path [create_timestamped_backup] hands to a strategy as text
    is read back by the strategy as the same path: its last component is
    the timestamped file name and its parent, the directory the strategy
    ensures, is [Path(backup_dir)]. *)
Theorem timestamped_path_read_back backup_dir now :
  let dest := PurePath.of_string (Backup.timestamped_path backup_dir now) in
  dest = PurePath.truediv (PurePath.of_string backup_dir)
           (Backup.backup_filename now)
  /\ PurePath.name dest = Backup.backup_filename now
  /\ PurePath.parent dest = PurePath.of_string backup_dir.
Proof.
  cbn zeta. rewrite of_string_timestamped_path.
  split; [done|]. apply truediv_backup_filename.
Qed.

(** ** Whole runs *)



(** X12. A missing source, end to end: with the copy strategy selected, in
    plain or in timestamp mode, a source path at which nothing exists makes
    the process exit with status 1, print nothing and leave the file system
    unchanged; in particular timestamp mode has not created the backup
    directory. *)
Theorem missing_source_end_to_end argv args env w :
  Backup.parse_args argv = Backup.Parsed args ->
  Backup.method args = "cp" ->
  exists_at (fs w) (cwd env) (PurePath.of_string (Backup.db args)) = false ->
  exists w',
    Backup.main argv env w = (Ok 1%Z, w')
    /\ stdout w' = stdout w
    /\ fs w' = fs w
    /\ trace w' = trace w
    /\ error_logged_last w'.
Proof.
  intros Hparse Hmethod Hmissing.
  unfold Backup.main. rewrite Hparse. unfold Backup.main_body.
  destruct (Backup.timestamp args).
  - rewrite bind_run.
    unfold Backup.create_timestamped_backup, logger_info.
    rewrite bind_run. cbn [datetime_now]. rewrite bind_run, log_run.
    rewrite Hmethod. cbn [String.eqb Ascii.eqb Bool.eqb].
    rewrite bind_run, backup_with_cp_missing_source by done.
    cbn [ret]. eexists. split; [reflexivity|]. wsimpl.
    repeat split. apply error_logged_last_add_log.
  - rewrite bind_run, Hmethod. cbn [String.eqb Ascii.eqb Bool.eqb].
    rewrite backup_with_cp_missing_source by done.
    eexists. split; [reflexivity|]. wsimpl.
    repeat split. apply error_logged_last_add_log.
Qed.

Lemma missing_source_end_to_end_witness :
  exists w',
    Backup.main
      [Backup.ArgTimestamp; Backup.ArgDb "/data/none.db";
       Backup.ArgBackup "/tmp/backups"] Sample.env0 Sample.w0 = (Ok 1%Z, w')
    /\ stdout w' = []
    /\ fs w' = Sample.fs0
    /\ trace w' = []
    /\ error_logged_last w'.
Proof.
  apply (missing_source_end_to_end
           [Backup.ArgTimestamp; Backup.ArgDb "/data/none.db";
            Backup.ArgBackup "/tmp/backups"]
           (Backup.mk_args "/data/none.db" "/tmp/backups" "cp" true)
           Sample.env0 Sample.w0).
  - reflexivity.
  - reflexivity.
  - reflexivity.
Defined.

(** ** Which calls a run can make *)

Lemma adds_only_keeps P {A} (m : M A) : keeps trace m -> adds_only P m.
Proof.
  intros Hk env w r w' H. exists []. rewrite app_nil_r.
  split; [by eapply Hk|constructor].
Qed.

Lemma adds_only_bind P {A B} (m : M A) (f : A -> M B) :
  adds_only P m -> (forall a, adds_only P (f a)) -> adds_only P (bind m f).
Proof.
  intros Hm Hf env w r w' H. rewrite bind_run in H.
  destruct (m env w) as [[a|e] w1] eqn:E.
  - destruct (Hm _ _ _ _ E) as (r1 & H1 & P1).
    destruct (Hf _ _ _ _ _ H) as (r2 & H2 & P2).
    exists (r1 ++ r2). split; [by rewrite H2, H1, app_assoc|].
    by apply Forall_app.
  - simplify_eq. eauto.
Qed.

Lemma adds_only_try_except P {A} (body : M A) handler :
  adds_only P body -> (forall e, adds_only P (handler e)) ->
  adds_only P (try_except body handler).
Proof.
  intros Hm Hf env w r w' H. rewrite try_except_run in H.
  destruct (body env w) as [[a|e] w1] eqn:E.
  - simplify_eq. eauto.
  - destruct (Hm _ _ _ _ E) as (r1 & H1 & P1).
    destruct (Hf _ _ _ _ _ H) as (r2 & H2 & P2).
    exists (r1 ++ r2). split; [by rewrite H2, H1, app_assoc|].
    by apply Forall_app.
Qed.

Lemma adds_only_ret P {A} (a : A) : adds_only P (ret a).
Proof. apply adds_only_keeps, keeps_ret. Qed.

Lemma adds_only_raise P {A} e : adds_only P (@raise A e).
Proof. apply adds_only_keeps, keeps_raise. Qed.

Lemma adds_only_Path_is_dir P p : adds_only P (Path_is_dir p).
Proof.
  intros env w r w' H. rewrite Path_is_dir_run in H. simplify_eq.
  exists []. rewrite app_nil_r. split; [done|constructor].
Qed.

Lemma adds_only_os_mkdir p : adds_only is_mkdir (os_mkdir p).
Proof.
  intros env w r w' H. rewrite os_mkdir_run in H.
  exists [SysMkdir p]. split.
  - by destruct (Fs.mkdir _ _ _); simplify_eq.
  - repeat constructor. by exists p.
Qed.

Lemma adds_only_exist_ok P p e :
  adds_only P (do d <- Path_is_dir p; if d then ret tt else raise e).
Proof.
  apply adds_only_bind; [apply adds_only_Path_is_dir|].
  intros []; [apply adds_only_ret|apply adds_only_raise].
Qed.

Lemma adds_only_Path_mkdir p : adds_only is_mkdir (Path_mkdir p).
Proof.
  unfold Path_mkdir. apply adds_only_try_except; [apply adds_only_os_mkdir|].
  intros e. destruct e; try apply adds_only_raise; apply adds_only_exist_ok.
Qed.

Lemma adds_only_Path_mkdir_parents_aux a rparts :
  adds_only is_mkdir (Path_mkdir_parents_aux a rparts).
Proof.
  induction rparts as [|c init IH]; rewrite Path_mkdir_parents_aux_unfold;
    cbn zeta; (apply adds_only_try_except; [apply adds_only_os_mkdir|]);
    intros e; destruct e; try apply adds_only_raise;
    try apply adds_only_exist_ok.
  apply adds_only_bind; [exact IH|]. intros _. apply adds_only_Path_mkdir.
Qed.

Lemma str_absolute c p : exists s, PurePath.str (absolute c p) = String "/" s.
Proof.
  unfold absolute, PurePath.str. cbn [PurePath.root PurePath.parts].
  destruct (PurePath.root p); cbn [PurePath.root_str]; eauto.
Qed.

(** X13. The native-export strategy asks for directories and then starts
    at most one program: [duckdb], with no arguments, under the 3600 s
    timeout, fed the three-statement script in which both databases are
    named by absolute path (so that the client's working directory does
    not matter). It makes no other mutating call itself. *)
Theorem attach_starts_only_duckdb db_path backup_path env w r w' :
  let abs_db := absolute (cwd env) (PurePath.of_string db_path) in
  let abs_backup := absolute (cwd env) (PurePath.of_string backup_path) in
  Backup.backup_with_attach db_path backup_path env w = (r, w') ->
  (exists mkdirs spawned,
     trace w' = trace w ++ mkdirs ++ spawned
     /\ Forall is_mkdir mkdirs
     /\ (spawned = []
         \/ spawned = [SysSpawn ["duckdb"]
                         (Backup.sql_commands abs_db abs_backup) 3600]))
  /\ (exists s, PurePath.str abs_db = String "/" s)
  /\ (exists s, PurePath.str abs_backup = String "/" s).
Proof.
  intros abs_db abs_backup Hrun.
  split; [|split; apply str_absolute].
  rewrite backup_with_attach_run in Hrun. fold abs_db abs_backup in Hrun.
  destruct (Path_mkdir_parents _ env _) as [[[]|e] w2] eqn:Hmk;
    apply adds_only_Path_mkdir_parents_aux in Hmk as (mkdirs & Htr & Hall);
    wsimpl in Htr.
  - rewrite subprocess_run_run in Hrun. cbn zeta in Hrun.
    exists mkdirs, [SysSpawn ["duckdb"]
                      (Backup.sql_commands abs_db abs_backup) 3600].
    split; [|split; [done|by right]].
    rewrite app_assoc, <- Htr.
    destruct (programs env _ _ _ _) as [e|p];
      [by injection Hrun as <- <-|].
    destruct (finishes_within p 3600) as [d|];
      [|by injection Hrun as <- <-].
    cbn [returncode stderr] in Hrun.
    destruct (negb _); [by injection Hrun as <- <-|].
    wsimpl in Hrun. by destruct (Fs.stat _ _ _); injection Hrun as <- <-.
  - exists mkdirs, []. rewrite app_nil_r.
    split; [by injection Hrun as <- <-|]. split; [done|by left].
Qed.

Lemma attach_starts_only_duckdb_witness :
  (exists mkdirs spawned,
     trace (snd (Backup.backup_with_attach "a.db" "../tmp/new/out.duckdb"
                   Sample.env_exporting Sample.w0))
     = [] ++ mkdirs ++ spawned
     /\ Forall is_mkdir mkdirs
     /\ (spawned = []
         \/ spawned = [SysSpawn ["duckdb"]
                         (Backup.sql_commands
                            (PurePath.of_string "/data/a.db")
                            (PurePath.of_string "/tmp/new/out.duckdb"))
                         3600]))
  /\ (exists s, PurePath.str (PurePath.of_string "/data/a.db") = String "/" s)
  /\ (exists s,
        PurePath.str (PurePath.of_string "/tmp/new/out.duckdb") = String "/" s).
Proof.
  apply (attach_starts_only_duckdb "a.db" "../tmp/new/out.duckdb"
           Sample.env_exporting Sample.w0
           (fst (Backup.backup_with_attach "a.db" "../tmp/new/out.duckdb"
                   Sample.env_exporting Sample.w0))).
  by destruct (Backup.backup_with_attach _ _ _ _).
Defined.

(** ** Backup names sort like their timestamps *)

Lemma N_of_ascii_digit n :
  Z.of_N (N_of_ascii (DateTime.digit n)) = (48 + n mod 10)%Z.
Proof.
  pose proof (Z.mod_pos_bound n 10 eq_refl) as Hb.
  unfold DateTime.digit.
  repeat case_match; try reflexivity;
    change (Z.of_N (N_of_ascii "9"%char)) with 57%Z; lia.
Qed.

Lemma ascii_compare_digit a b :
  Ascii.compare (DateTime.digit a) (DateTime.digit b)
  = (a mod 10 ?= b mod 10)%Z.
Proof.
  unfold Ascii.compare.
  rewrite <- N2Z.inj_compare, !N_of_ascii_digit.
  apply Z.add_compare_mono_l.
Qed.

Lemma compare_same_char c s1 s2 :
  String.compare (String c s1) (String c s2) = String.compare s1 s2.
Proof.
  cbn [String.compare]. unfold Ascii.compare. by rewrite N.compare_refl.
Qed.

Lemma string_compare_refl s : String.compare s s = Eq.
Proof. induction s as [|c s IH]; [done|]. by rewrite compare_same_char. Qed.

Lemma compare_two_digits a b s1 s2 :
  (0 <= a < 100)%Z -> (0 <= b < 100)%Z ->
  String.compare
    (String (DateTime.digit (a / 10)) (String (DateTime.digit a) s1))
    (String (DateTime.digit (b / 10)) (String (DateTime.digit b) s2))
  = lexico (a ?= b)%Z (String.compare s1 s2).
Proof.
  intros Ha Hb. cbn [String.compare]. rewrite !ascii_compare_digit.
  destruct (Z.compare_spec ((a / 10) mod 10) ((b / 10) mod 10)) as [H1|H1|H1],
           (Z.compare_spec (a mod 10) (b mod 10)) as [H2|H2|H2],
           (Z.compare_spec a b) as [H|H|H];
    cbn [lexico]; try reflexivity; exfalso;
    revert H1 H2; Z.div_mod_to_equations; lia.
Qed.

Lemma digit_ext a b : (a mod 10 = b mod 10)%Z -> DateTime.digit a = DateTime.digit b.
Proof. unfold DateTime.digit. by intros ->. Qed.

Lemma compare_four_digits a b s1 s2 :
  (0 <= a < 10000)%Z -> (0 <= b < 10000)%Z ->
  String.compare
    (String (DateTime.digit (a / 1000))
       (String (DateTime.digit (a / 100))
          (String (DateTime.digit (a / 10)) (String (DateTime.digit a) s1))))
    (String (DateTime.digit (b / 1000))
       (String (DateTime.digit (b / 100))
          (String (DateTime.digit (b / 10)) (String (DateTime.digit b) s2))))
  = lexico (a ?= b)%Z (String.compare s1 s2).
Proof.
  intros Ha Hb.
  rewrite (digit_ext (a / 1000) ((a / 100) / 10)),
          (digit_ext (b / 1000) ((b / 100) / 10)),
          (digit_ext (a / 10) ((a mod 100) / 10)),
          (digit_ext (b / 10) ((b mod 100) / 10)),
          (digit_ext a (a mod 100)), (digit_ext b (b mod 100));
    try (Z.div_mod_to_equations; lia).
  rewrite compare_two_digits by (Z.div_mod_to_equations; lia).
  rewrite compare_two_digits by (Z.div_mod_to_equations; lia).
  destruct (Z.compare_spec (a / 100) (b / 100)) as [H1|H1|H1],
           (Z.compare_spec (a mod 100) (b mod 100)) as [H2|H2|H2],
           (Z.compare_spec a b) as [H|H|H];
    cbn [lexico]; try reflexivity; exfalso;
    revert H1 H2; Z.div_mod_to_equations; lia.
Qed.

(** X14. Backup names sort like their timestamps: comparing the names of
    two timestamped backups as strings gives the same answer as comparing,
    field by field and to the second, the clock readings they were named
    after. The latest backup of a directory has the greatest name. *)
Theorem backup_names_sort_chronologically d1 d2 :
  DateTime.valid d1 = true -> DateTime.valid d2 = true ->
  String.compare (Backup.backup_filename d1) (Backup.backup_filename d2)
  = compare_to_the_second d1 d2.
Proof.
  intros (Hy1 & Hm1 & Hd1 & Hh1 & Hmi1 & Hs1 & _)%valid_ranges
         (Hy2 & Hm2 & Hd2 & Hh2 & Hmi2 & Hs2 & _)%valid_ranges.
  rewrite !backup_filename_eq.
  unfold DateTime.pad4, DateTime.pad2. cbv [String.append].
  rewrite !compare_same_char.
  rewrite compare_four_digits by lia.
  rewrite !compare_two_digits by lia.
  rewrite compare_same_char.
  rewrite !compare_two_digits by lia.
  rewrite string_compare_refl.
  unfold compare_to_the_second.
  by destruct (DateTime.second d1 ?= DateTime.second d2)%Z.
Qed.

Lemma backup_names_sort_chronologically_witness :
  String.compare (Backup.backup_filename Sample.noon)
    (Backup.backup_filename (DateTime.mk 2026 1 2 3 4 5 0))
  = compare_to_the_second Sample.noon (DateTime.mk 2026 1 2 3 4 5 0).
Proof.
  apply (backup_names_sort_chronologically Sample.noon
           (DateTime.mk 2026 1 2 3 4 5 0)); reflexivity.
Defined.

(** ** A regular file where the destination's directory should be *)

Lemma Path_mkdir_parents_on_file p data meta env w :
  Fs.stat (fs w) (cwd env) p = Ok (Fs.File data meta) ->
  Path_mkdir_parents p env w
  = (Raise FileExistsError, add_trace w (SysMkdir p)).
Proof.
  intros Hst. unfold Path_mkdir_parents.
  rewrite Path_mkdir_parents_aux_unfold, path_eta. cbn zeta.
  rewrite try_except_run, os_mkdir_run.
  pose proof Hst as Hst'. apply stat_inv in Hst' as (k & Hres & Hk).
  unfold Fs.mkdir. rewrite Hres, Hk.
  rewrite bind_run, Path_is_dir_run. unfold is_dir_at. wsimpl.
  by rewrite Hst.
Qed.

(** X15. When the path that should be the destination's directory is a
    regular file, both strategies give up at once: [mkdir] raises
    [FileExistsError], which is logged, and [False] is returned; the file
    system is untouched, nothing is copied and the client is not
    started. *)
Theorem parent_is_a_file db_path backup_path env w :
  (forall data meta,
     exists_at (fs w) (cwd env) (PurePath.of_string db_path) = true ->
     Fs.stat (fs w) (cwd env)
       (PurePath.parent (PurePath.of_string backup_path))
     = Ok (Fs.File data meta) ->
     Backup.backup_with_cp db_path backup_path env w
     = (Ok false,
        mk_world (fs w)
          (logs w ++ [(INFO, MsgCpStart db_path backup_path);
                      (ERROR, MsgCpError FileExistsError)])
          (stdout w)
          (trace w ++ [SysMkdir (PurePath.parent
                                   (PurePath.of_string backup_path))])
          (waited w)))
  /\ (forall data meta,
        let abs_backup :=
          absolute (cwd env) (PurePath.of_string backup_path) in
        Fs.stat (fs w) (cwd env) (PurePath.parent abs_backup)
        = Ok (Fs.File data meta) ->
        Backup.backup_with_attach db_path backup_path env w
        = (Ok false,
           mk_world (fs w)
             (logs w ++ [(INFO, MsgAttachStart db_path backup_path);
                         (ERROR, MsgAttachError FileExistsError)])
             (stdout w)
             (trace w ++ [SysMkdir (PurePath.parent abs_backup)])
             (waited w))).
Proof.
  split.
  - intros data meta Hsrc Hpar.
    unfold Backup.backup_with_cp, logger_info, logger_error.
    rewrite bind_run, log_run, try_except_run, bind_run, Path_exists_run.
    wsimpl. rewrite Hsrc. cbn [negb].
    rewrite bind_run, (Path_mkdir_parents_on_file _ data meta) by done.
    rewrite bind_run, log_run. unfold add_log, add_trace. wsimpl.
    by rewrite <- app_assoc.
  - intros data meta abs_backup Hpar.
    rewrite backup_with_attach_run. cbn zeta. fold abs_backup.
    rewrite (Path_mkdir_parents_on_file _ data meta) by done.
    unfold add_log, add_trace. wsimpl. by rewrite <- app_assoc.
Qed.

Lemma parent_is_a_file_witness :
  Backup.backup_with_cp "/data/a.db" "/tmp/old.db/out.db" Sample.env0 Sample.w0
  = (Ok false,
     mk_world Sample.fs0
       ([] ++ [(INFO, MsgCpStart "/data/a.db" "/tmp/old.db/out.db");
               (ERROR, MsgCpError FileExistsError)])
       []
       ([] ++ [SysMkdir (PurePath.of_string "/tmp/old.db")])
       0)
  /\ Backup.backup_with_attach "/data/a.db" "/tmp/old.db/out.db"
       Sample.env_exporting Sample.w0
     = (Ok false,
        mk_world Sample.fs0
          ([] ++ [(INFO, MsgAttachStart "/data/a.db" "/tmp/old.db/out.db");
                  (ERROR, MsgAttachError FileExistsError)])
          []
          ([] ++ [SysMkdir (PurePath.of_string "/tmp/old.db")])
          0).
Proof.
  split.
  - apply (proj1 (parent_is_a_file "/data/a.db" "/tmp/old.db/out.db"
                    Sample.env0 Sample.w0) Sample.bytes1 Sample.meta1);
      reflexivity.
  - apply (proj2 (parent_is_a_file "/data/a.db" "/tmp/old.db/out.db"
                    Sample.env_exporting Sample.w0) Sample.bytes1 Sample.meta1);
      reflexivity.
Defined.

(** ** Timestamped backups accumulate *)

Lemma backup_filename_plain now :
  plain_name (Backup.backup_filename now) = true.
Proof. by rewrite backup_filename_eq. Qed.

Lemma resolve_timestamped_path f c backup_dir now kd b :
  name_accepted (PurePath.of_string (Backup.timestamped_path backup_dir now))
  = true ->
  Fs.resolve f c (PurePath.of_string backup_dir) = Ok kd ->
  f !! kd = Some (Fs.Dir b) ->
  Fs.resolve f c
    (PurePath.of_string (Backup.timestamped_path backup_dir now))
  = Ok (Backup.backup_filename now :: kd).
Proof.
  intros [Htext _]%name_accepted_inv [_ Hres]%resolve_ok_inv Hkd.
  rewrite (resolve_walk _ _ _ Htext). clear Htext.
  rewrite of_string_timestamped_path.
  unfold PurePath.truediv, PurePath.joinpath.
  rewrite of_string_backup_filename.
  cbn [PurePath.is_absolute PurePath.root PurePath.parts].
  destruct (PurePath.of_string backup_dir) as [a ps].
  cbn [PurePath.root PurePath.parts] in *.
  rewrite start_anchor in Hres. rewrite start_anchor.
  by rewrite walk_app, Hres, Hkd, (plain_short _ (backup_filename_plain _)),
    (step_plain _ _ (backup_filename_plain _)).
Qed.

(** One timestamped copy into a writable directory in which the new name
    is free. *)
Lemma timestamped_cp_fresh db_path backup_dir data meta kd env w :
  Fs.wf (fs w) ->
  Fs.stat (fs w) (cwd env) (PurePath.of_string db_path)
  = Ok (Fs.File data meta) ->
  Fs.may_read (cred env) meta = true ->
  name_accepted
    (PurePath.of_string (Backup.timestamped_path backup_dir (clock env)))
  = true ->
  Fs.resolve (fs w) (cwd env) (PurePath.of_string backup_dir) = Ok kd ->
  fs w !! kd = Some (Fs.Dir true) ->
  fs w !! (Backup.backup_filename (clock env) :: kd) = None ->
  exists w',
    Backup.create_timestamped_backup db_path backup_dir "cp" env w
    = (Ok (Backup.timestamped_path backup_dir (clock env)), w')
    /\ fs w'
       = <[Backup.backup_filename (clock env) :: kd
           := Fs.File data (Fs.copied (cred env) meta)]> (fs w).
Proof.
  intros Hwf Hsrc Hread Hacc Hres Hkd Hfree.
  set (path := Backup.timestamped_path backup_dir (clock env)) in *.
  set (w1 := add_log w INFO
               (MsgTimestamped (Backup.backup_filename (clock env)))).
  pose proof (resolve_timestamped_path _ _ backup_dir (clock env) _ _
                Hacc Hres Hkd) as Hdest. fold path in Hdest.
  assert (Fs.stat (fs w1) (cwd env) (PurePath.parent (PurePath.of_string path))
          = Ok (Fs.Dir true)) as Hpar.
  { unfold path. rewrite of_string_timestamped_path.
    rewrite (proj2 (truediv_backup_filename _ _)).
    by apply (stat_present _ _ _ kd). }
  assert (is_dir_at (fs w1) (cwd env) (PurePath.of_string path) = false)
    as Hnd.
  { change (fs w1) with (fs w).
    rewrite (is_dir_at_dir_at _ _ _ _ Hdest). unfold Fs.dir_at.
    by rewrite Hfree. }
  assert (Fs.samefile (fs w1) (cwd env) (PurePath.of_string db_path)
            (PurePath.of_string path) = false) as Hsame.
  { unfold Fs.samefile. change (fs w1) with (fs w). rewrite Hdest, Hfree.
    destruct (Fs.resolve (fs w) (cwd env) (PurePath.of_string db_path))
      as [ks|]; [|done].
    by destruct (fs w !! ks). }
  destruct (backup_with_cp_copies db_path path data meta env w1
              Hwf Hsrc Hread Hacc Hpar Hnd Hsame) as (k & Hk & Hrun).
  change (fs w1) with (fs w) in Hk, Hrun. rewrite Hdest in Hk.
  injection Hk as <-.
  unfold Backup.create_timestamped_backup, logger_info.
  rewrite bind_run. cbn [datetime_now]. rewrite bind_run, log_run.
  fold w1 path. cbn [String.eqb Ascii.eqb Bool.eqb].
  rewrite bind_run, Hrun. cbn [ret].
  eexists. split; reflexivity.
Qed.

(** X16. Timestamped backups accumulate: two timestamped copies of the
    same source, a file the process may read, into the same writable
    directory, taken when the local clock reads times at least a second
    apart, while both paths are free and are paths the system accepts,
    both succeed, return two different paths, and afterwards each path
    holds the bytes of the source; the second run does not replace the
    first backup. *)
Theorem timestamped_backups_accumulate
    db_path backup_dir data meta env1 env2 w :
  let p1 := Backup.timestamped_path backup_dir (clock env1) in
  let p2 := Backup.timestamped_path backup_dir (clock env2) in
  cwd env2 = cwd env1 ->
  DateTime.valid (clock env1) = true ->
  DateTime.valid (clock env2) = true ->
  (DateTime.wall_us (clock env1) + 1000000
   <= DateTime.wall_us (clock env2))%Z ->
  Fs.wf (fs w) ->
  Fs.stat (fs w) (cwd env1) (PurePath.of_string db_path)
  = Ok (Fs.File data meta) ->
  Fs.may_read (cred env1) meta = true ->
  cred env2 = cred env1 ->
  Fs.stat (fs w) (cwd env1) (PurePath.of_string backup_dir)
  = Ok (Fs.Dir true) ->
  name_accepted (PurePath.of_string p1) = true ->
  name_accepted (PurePath.of_string p2) = true ->
  exists_at (fs w) (cwd env1) (PurePath.of_string p1) = false ->
  exists_at (fs w) (cwd env1) (PurePath.of_string p2) = false ->
  exists w1 w2,
    Backup.create_timestamped_backup db_path backup_dir "cp" env1 w
    = (Ok p1, w1)
    /\ Backup.create_timestamped_backup db_path backup_dir "cp" env2 w1
       = (Ok p2, w2)
    /\ p1 <> p2
    /\ Fs.stat (fs w2) (cwd env1) (PurePath.of_string p1)
       = Ok (Fs.File data (Fs.copied (cred env1) meta))
    /\ Fs.stat (fs w2) (cwd env1) (PurePath.of_string p2)
       = Ok (Fs.File data (Fs.copied (cred env1) meta)).
Proof.
  intros p1 p2 Hcwd Hv1 Hv2 Hlate Hwf Hsrc Hread Hcred Hdir Hacc1 Hacc2
    Hfree1 Hfree2.
  assert (Fs.may_read (cred env2) meta = true) as Hread2
    by (by rewrite Hcred).
  pose proof (filenames_a_second_apart _ _ Hv1 Hv2 Hlate) as Hnames.
  set (n1 := Backup.backup_filename (clock env1)) in *.
  set (n2 := Backup.backup_filename (clock env2)) in *.
  pose proof Hdir as Hdir'. apply stat_inv in Hdir' as (kd & Hres & Hkd).
  pose proof (resolve_timestamped_path _ _ backup_dir (clock env1) _ _
                Hacc1 Hres Hkd) as Hr1.
  pose proof (resolve_timestamped_path _ _ backup_dir (clock env2) _ _
                Hacc2 Hres Hkd) as Hr2.
  fold p1 n1 in Hr1. fold p2 n2 in Hr2.
  pose proof (exists_at_false_absent _ _ _ _ Hfree1 Hr1) as Ha1.
  pose proof (exists_at_false_absent _ _ _ _ Hfree2 Hr2) as Ha2.
  assert (n1 :: kd <> n2 :: kd) as Hkeys by congruence.
  pose proof Hsrc as Hsrc'. apply stat_inv in Hsrc' as (ks & Hrs & Hks).
  assert (ks <> n1 :: kd) as Hks1 by congruence.
  (* the first run *)
  destruct (timestamped_cp_fresh db_path backup_dir data meta kd env1 w
              Hwf Hsrc Hread Hacc1 Hres Hkd Ha1) as (w1 & Hrun1 & Hfs1).
  fold n1 in Hfs1. fold p1 in Hrun1.
  assert (dirs_kept (fs w) (fs w1)) as Hkept.
  { rewrite Hfs1. apply dirs_kept_insert_nondir. unfold Fs.dir_at.
    by rewrite Ha1. }
  (* the second run starts from what the first one left *)
  assert (Fs.wf (fs w1)) as Hwf1.
  { rewrite Hfs1. apply wf_insert_file; [done..|].
    unfold Fs.dir_at. by rewrite Ha1. }
  assert (Fs.stat (fs w1) (cwd env2) (PurePath.of_string db_path)
          = Ok (Fs.File data meta)) as Hsrc1.
  { rewrite Hcwd. apply (stat_present _ _ _ ks).
    - by apply (resolve_dirs_kept _ _ _ _ _ Hkept).
    - by rewrite Hfs1, lookup_insert_ne. }
  assert (Fs.resolve (fs w1) (cwd env2) (PurePath.of_string backup_dir)
          = Ok kd) as Hres1.
  { rewrite Hcwd. by apply (resolve_dirs_kept _ _ _ _ _ Hkept). }
  assert (fs w1 !! kd = Some (Fs.Dir true)) as Hkd1 by by apply Hkept.
  assert (fs w1 !! (n2 :: kd) = None) as Ha2'.
  { by rewrite Hfs1, lookup_insert_ne. }
  destruct (timestamped_cp_fresh db_path backup_dir data meta kd env2 w1
              Hwf1 Hsrc1 Hread2 Hacc2 Hres1 Hkd1 Ha2') as (w2 & Hrun2 & Hfs2).
  rewrite Hcred in Hfs2.
  fold n2 in Hfs2. fold p2 in Hrun2.
  assert (dirs_kept (fs w1) (fs w2)) as Hkept2.
  { rewrite Hfs2. apply dirs_kept_insert_nondir. unfold Fs.dir_at.
    by rewrite Ha2'. }
  exists w1, w2. split; [done|]. split; [done|]. split; [|split].
  - intros Heq. apply Hkeys. rewrite Heq in Hr1. congruence.
  - apply (stat_present _ _ _ (n1 :: kd)).
    + by apply (resolve_dirs_kept _ _ _ _ _ Hkept2),
               (resolve_dirs_kept _ _ _ _ _ Hkept).
    + rewrite Hfs2, lookup_insert_ne by done.
      rewrite Hfs1. apply lookup_insert_eq.
  - apply (stat_present _ _ _ (n2 :: kd)).
    + by apply (resolve_dirs_kept _ _ _ _ _ Hkept2),
               (resolve_dirs_kept _ _ _ _ _ Hkept).
    + rewrite Hfs2. apply lookup_insert_eq.
Qed.

Lemma timestamped_backups_accumulate_witness :
  let later :=
    mk_env ["data"] (DateTime.mk 2025 12 23 15 30 47 0) Sample.user
      Sample.no_client in
  let p1 := "/tmp/backup-20251223-153045.duckdb" in
  let p2 := "/tmp/backup-20251223-153047.duckdb" in
  exists w1 w2,
    Backup.create_timestamped_backup "/data/a.db" "/tmp" "cp"
      Sample.env0 Sample.w0 = (Ok p1, w1)
    /\ Backup.create_timestamped_backup "/data/a.db" "/tmp" "cp" later w1
       = (Ok p2, w2)
    /\ p1 <> p2
    /\ Fs.stat (fs w2) ["data"] (PurePath.of_string p1)
       = Ok (Fs.File Sample.bytes0 Sample.meta0)
    /\ Fs.stat (fs w2) ["data"] (PurePath.of_string p2)
       = Ok (Fs.File Sample.bytes0 Sample.meta0).
Proof.
  intros later p1 p2.
  apply (timestamped_backups_accumulate "/data/a.db" "/tmp"
           Sample.bytes0 Sample.meta0 Sample.env0 later Sample.w0).
  - reflexivity.
  - reflexivity.
  - reflexivity.
  - vm_compute. intros H. discriminate H.
  - exact wf_sample.
  - reflexivity.
  - reflexivity.
  - reflexivity.
  - reflexivity.
  - reflexivity.
  - reflexivity.
  - reflexivity.
  - reflexivity.
Defined.

(** ** The calls the copy strategy makes *)

Lemma Path_unlink_trace p env w r w' :
  Path_unlink p env w = (r, w') -> trace w' = trace w ++ [SysUnlink p].
Proof.
  rewrite Path_unlink_run. by destruct (Fs.unlink _ _ _); intros [= <- <-].
Qed.

Lemma shutil_copy2_trace src dst env w r w' :
  shutil_copy2 src dst env w = (r, w') ->
  trace w' = trace w ++ [SysCopy src dst].
Proof.
  unfold shutil_copy2. rewrite bind_run. cbn [record].
  rewrite bind_run, Path_is_dir_run. wsimpl.
  unfold bind, observe, mutate, os_cred. wsimpl.
  destruct (Fs.samefile _ _ _ _); cbn beta iota; [by intros [= <- <-]|].
  wsimpl.
  destruct (Fs.read_file _ _ _ _) as [[data meta]|e]; cbn beta iota;
    [|by intros [= <- <-]].
  wsimpl. by destruct (Fs.write_file _ _ _ _ _); intros [= <- <-].
Qed.

(** The copy itself and the report of the size. *)
Lemma copy_and_report_trace source dest env w r w' :
  (shutil_copy2 source dest;;
   do st <- Path_stat dest;
   logger_info (MsgCpCompleted (Fs.st_size st));;
   ret true) env w = (r, w') ->
  trace w' = trace w ++ [SysCopy source dest].
Proof.
  rewrite bind_run.
  destruct (shutil_copy2 source dest env w) as [[[]|e] w1] eqn:Hcopy;
    apply shutil_copy2_trace in Hcopy; [|by intros [= <- <-]].
  rewrite bind_run. unfold Path_stat at 1, observe at 1.
  destruct (Fs.stat _ _ _); [|by intros [= <- <-]].
  unfold logger_info. rewrite bind_run, log_run. by intros [= <- <-].
Qed.

(** X17. The calls the copy strategy makes, in order: [mkdir] calls for
    the destination's directory, then at most one [unlink], of the
    destination, then at most one [copy2], from the source to the
    destination. It removes nothing else, copies nothing else and starts
    no program. *)
Theorem cp_call_sequence db_path backup_path env w r w' :
  let source := PurePath.of_string db_path in
  let dest := PurePath.of_string backup_path in
  Backup.backup_with_cp db_path backup_path env w = (r, w') ->
  exists mkdirs unlinked copied,
    trace w' = trace w ++ mkdirs ++ unlinked ++ copied
    /\ Forall is_mkdir mkdirs
    /\ (unlinked = [] \/ unlinked = [SysUnlink dest])
    /\ (copied = [] \/ copied = [SysCopy source dest]).
Proof.
  intros source dest.
  unfold Backup.backup_with_cp, logger_info, logger_warning, logger_error.
  fold source dest.
  rewrite bind_run, log_run, try_except_run, bind_run, Path_exists_run.
  wsimpl. destruct (exists_at (fs w) (cwd env) source); cbn [negb].
  2:{ rewrite bind_run, log_run. intros [= <- <-].
      exists [], [], []. rewrite !app_nil_r. auto. }
  rewrite bind_run.
  destruct (Path_mkdir_parents _ env _) as [[[]|e] w2] eqn:Hmk;
    apply adds_only_Path_mkdir_parents_aux in Hmk as (mkdirs & Htr & Hall);
    wsimpl in Htr.
  2:{ rewrite bind_run, log_run. intros [= <- <-].
      exists mkdirs, [], []. rewrite !app_nil_r. auto. }
  rewrite bind_run, Path_exists_run.
  destruct (exists_at (fs w2) (cwd env) dest).
  - rewrite bind_run, bind_run, log_run.
    destruct (Path_unlink dest env _) as [[[]|e] w3] eqn:Hun;
      apply Path_unlink_trace in Hun; wsimpl in Hun.
    + destruct ((shutil_copy2 source dest;;
                 do st <- Path_stat dest;
                 log INFO (MsgCpCompleted (Fs.st_size st));;
                 ret true) env w3) as [[b|e] w4] eqn:Hcp;
        apply copy_and_report_trace in Hcp.
      * intros [= <- <-].
        exists mkdirs, [SysUnlink dest], [SysCopy source dest].
        rewrite Hcp, Hun, Htr, <- !app_assoc. auto.
      * rewrite bind_run, log_run. intros [= <- <-].
        exists mkdirs, [SysUnlink dest], [SysCopy source dest].
        wsimpl. rewrite Hcp, Hun, Htr, <- !app_assoc. auto.
    + rewrite bind_run, log_run. intros [= <- <-].
      exists mkdirs, [SysUnlink dest], []. wsimpl.
      rewrite Hun, Htr, <- !app_assoc. auto.
  - rewrite bind_run. cbn [ret].
    destruct ((shutil_copy2 source dest;;
               do st <- Path_stat dest;
               log INFO (MsgCpCompleted (Fs.st_size st));;
               ret true) env w2) as [[b|e] w4] eqn:Hcp;
      apply copy_and_report_trace in Hcp.
    + intros [= <- <-]. exists mkdirs, [], [SysCopy source dest].
      rewrite Hcp, Htr, <- !app_assoc. auto.
    + rewrite bind_run, log_run. intros [= <- <-].
      exists mkdirs, [], [SysCopy source dest].
      wsimpl. rewrite Hcp, Htr, <- !app_assoc. auto.
Qed.

Lemma cp_call_sequence_witness :
  exists mkdirs unlinked copied,
    trace (snd (Backup.backup_with_cp "/data/a.db" "/tmp/old.db"
                  Sample.env0 Sample.w0))
    = [] ++ mkdirs ++ unlinked ++ copied
    /\ Forall is_mkdir mkdirs
    /\ (unlinked = []
        \/ unlinked = [SysUnlink (PurePath.of_string "/tmp/old.db")])
    /\ (copied = []
        \/ copied = [SysCopy (PurePath.of_string "/data/a.db")
                       (PurePath.of_string "/tmp/old.db")]).
Proof.
  apply (cp_call_sequence "/data/a.db" "/tmp/old.db" Sample.env0 Sample.w0
           (fst (Backup.backup_with_cp "/data/a.db" "/tmp/old.db"
                   Sample.env0 Sample.w0))).
  by destruct (Backup.backup_with_cp _ _ _ _).
Defined.
